(** * arxiv_scraper: the scoring engine, the query engine and the ingestion
      scheduler, embedded from [evaluator.py], [app.py] and [main.py].

    Python values are modelled as the interpreter has them: integers as [Z],
    floats as IEEE 754 binary64 values ([spec_float] at precision 53, with
    exact comparisons), text as [string] whose characters are the code
    points below 256, exceptions as a result type.  The built-ins the code
    calls ([float], [int], [min], [max], [str.strip], [re.search] on the two
    patterns of the evaluator) are definitions.  Calls into libraries that
    the repository does not contain (the JSON decoder, the completion
    client, pathlib, pandas' pattern search, dateutil, the paper-retrieval
    client, pandas' reading and printing of CSV text) are fields of
    interface classes, so that every statement holds for whatever they
    return; module [Ref] gives executable instances of them for running the
    definitions on concrete inputs.

    A snapshot file is the CSV text it holds; the frame in memory is what
    pandas read from it.  The properties follow the definitions, module by
    module. *)

From stdpp Require Import gmap strings list pretty.
From Stdlib Require Import ZArith Ascii String Bool Lia Permutation Sorted.
From Stdlib Require Import Floats.SpecFloat.

Local Open Scope string_scope.
Local Open Scope Z_scope.

#[local] Set Warnings "-register-all".

(** ** Python values *)

Module Py.

(** Exceptions carry the text that [str(e)] yields. *)
Inductive exn :=
| JSONDecodeError (msg : string)
| AttributeError (msg : string)
| TypeError (msg : string)
| ValueError (msg : string)
| OverflowError (msg : string)
| OSError (msg : string)
| ReError (msg : string)
| RequestValidationError (msg : string)
| ServiceError (msg : string)
| NotImplementedError (msg : string).

Definition str_of_exn (e : exn) : string :=
  match e with
  | JSONDecodeError m | AttributeError m | TypeError m
  | ValueError m | OverflowError m | OSError m | ReError m
  | RequestValidationError m | ServiceError m | NotImplementedError m => m
  end.

(** Outcome of an expression that may raise. *)
Inductive res (A : Type) :=
| Ok (a : A)
| Raise (e : exn).
Arguments Ok {A} a.
Arguments Raise {A} e.

#[global] Instance res_ret : MRet res := fun A a => Ok a.
#[global] Instance res_bind : MBind res := fun A B f x =>
  match x with
  | Ok a => f a
  | Raise e => Raise e
  end.

(** Values a decoded JSON document is made of. *)
Inductive value :=
| VNone
| VBool (b : bool)
| VInt (z : Z)
| VFloat (f : spec_float)
| VStr (s : string)
| VList (l : list value)
| VDict (d : list (string * value)).

(** Numbers: what [float(..)], [min] and [max] work on. *)
Inductive num :=
| PyInt (z : Z)
| PyFloat (f : spec_float).

(** *** binary64 *)

Definition prec : Z := 53.
Definition emax : Z := 1024.

(** Signed mantissa of a finite float. *)
Definition signed (s : bool) (m : positive) : Z :=
  if s then Z.neg m else Z.pos m.

(** Exact comparison of a float with an integer, as CPython's
    [float_richcompare] does for a float against an int. *)
Definition float_cmp_Z (f : spec_float) (z : Z) : option comparison :=
  match f with
  | S754_nan => None
  | S754_infinity s => Some (if s then Lt else Gt)
  | S754_zero _ => Some (0 ?= z)
  | S754_finite s m e =>
      if 0 <=? e then Some (signed s m * 2 ^ e ?= z)
      else Some (signed s m ?= z * 2 ^ (- e))
  end.

(** Exact comparison of two floats; [None] when either is NaN. *)
Definition float_cmp (f g : spec_float) : option comparison :=
  match f, g with
  | S754_nan, _ | _, S754_nan => None
  | S754_infinity s1, S754_infinity s2 =>
      Some (match s1, s2 with
            | true, false => Lt
            | false, true => Gt
            | _, _ => Eq
            end)
  | S754_infinity s, _ => Some (if s then Lt else Gt)
  | _, S754_infinity s => Some (if s then Gt else Lt)
  | S754_zero _, S754_zero _ => Some Eq
  | S754_zero _, S754_finite s _ _ => Some (if s then Gt else Lt)
  | S754_finite s _ _, S754_zero _ => Some (if s then Lt else Gt)
  | S754_finite s1 m1 e1, S754_finite s2 m2 e2 =>
      let e := Z.min e1 e2 in
      Some (signed s1 m1 * 2 ^ (e1 - e) ?= signed s2 m2 * 2 ^ (e2 - e))
  end.

Definition is_lt (c : option comparison) : bool :=
  match c with Some Lt => true | _ => false end.
Definition is_le (c : option comparison) : bool :=
  match c with Some Lt | Some Eq => true | _ => false end.
Definition is_ge (c : option comparison) : bool :=
  match c with Some Gt | Some Eq => true | _ => false end.

Definition num_cmp (a b : num) : option comparison :=
  match a, b with
  | PyInt x, PyInt y => Some (x ?= y)
  | PyFloat f, PyInt y => float_cmp_Z f y
  | PyInt x, PyFloat g => option_map CompOpp (float_cmp_Z g x)
  | PyFloat f, PyFloat g => float_cmp f g
  end.

(** [a < b] and [a <= b] on numbers. *)
Definition num_lt (a b : num) : bool := is_lt (num_cmp a b).
Definition num_le (a b : num) : bool := is_le (num_cmp a b).

(** [min(a, b)] returns [a] unless [b < a]; [max(a, b)] returns [a] unless
    [b > a]. *)
Definition py_min (a b : num) : num := if num_lt b a then b else a.
Definition py_max (a b : num) : num := if num_lt a b then b else a.

(** [float(z)] for an integer: round to nearest even; an integer too large
    for a finite float raises [OverflowError]. *)
Definition float_of_Z (z : Z) : res spec_float :=
  match binary_normalize prec emax z 0 false with
  | S754_infinity _ => Raise (OverflowError "int too large to convert to float")
  | f => Ok f
  end.

(** The correctly rounded float of [n * 10^x], [n >= 0]. *)
Definition float_of_scaled (neg : bool) (n : Z) (x : Z) : spec_float :=
  match n with
  | Z0 => S754_zero neg
  | Zneg _ => S754_nan
  | Zpos p =>
      if 0 <=? x then
        match Z.pos p * 10 ^ x with
        | Zpos q => binary_round prec emax neg q 0
        | _ => S754_nan
        end
      else
        let '(m, e, l) := SFdiv_core_binary prec emax (Z.pos p) 0 (10 ^ (- x)) 0 in
        binary_round_aux prec emax neg m e l
  end.

(** *** Text *)

Definition code (c : ascii) : Z := Z.of_nat (nat_of_ascii c).

(** [str.isspace] on one character, which is also what [\s] matches in a
    [str] pattern. *)
Definition is_space (c : ascii) : bool :=
  let n := code c in
  ((9 <=? n) && (n <=? 13)) || ((28 <=? n) && (n <=? 32))
  || (n =? 133) || (n =? 160).

(** [\d]: the decimal digits. *)
Definition is_digit (c : ascii) : bool :=
  let n := code c in (48 <=? n) && (n <=? 57).

Definition digit_val (c : ascii) : Z := code c - 48.

(** Lower-casing of one character. *)
Definition lower_char (c : ascii) : ascii :=
  let n := code c in
  if ((65 <=? n) && (n <=? 90))
     || ((192 <=? n) && (n <=? 222) && negb (n =? 215))
  then ascii_of_nat (Z.to_nat (n + 32)) else c.

Fixpoint lower (s : string) : string :=
  match s with
  | EmptyString => EmptyString
  | String c s' => String (lower_char c) (lower s')
  end.

(** Every character of [s] satisfies [p]. *)
Fixpoint all_chars (p : ascii -> bool) (s : string) : bool :=
  match s with
  | EmptyString => true
  | String c s' => p c && all_chars p s'
  end.

Fixpoint lstrip (s : string) : string :=
  match s with
  | String c s' => if is_space c then lstrip s' else s
  | EmptyString => EmptyString
  end.

Fixpoint rstrip (s : string) : string :=
  match s with
  | EmptyString => EmptyString
  | String c s' =>
      match rstrip s' with
      | EmptyString => if is_space c then EmptyString else String c EmptyString
      | t => String c t
      end
  end.

(** [s.strip()] *)
Definition strip (s : string) : string := rstrip (lstrip s).

(** [repr(s)] of a string. *)
Definition hex_digit (n : Z) : ascii :=
  ascii_of_nat (Z.to_nat (if n <? 10 then 48 + n else 87 + n)).

Definition repr_char (q : ascii) (c : ascii) : string :=
  let n := code c in
  if Ascii.eqb c "\" then "\\"
  else if Ascii.eqb c q then String "\" (String q EmptyString)
  else if n =? 9 then "\t"
  else if n =? 10 then "\n"
  else if n =? 13 then "\r"
  else if (n <? 32) || ((127 <=? n) && (n <=? 160)) || (n =? 173)
  then String "\" (String "x" (String (hex_digit (n / 16))
                                 (String (hex_digit (n mod 16)) EmptyString)))
  else String c EmptyString.

Fixpoint has_char (q : ascii) (s : string) : bool :=
  match s with
  | EmptyString => false
  | String c s' => Ascii.eqb c q || has_char q s'
  end.

Fixpoint repr_body (q : ascii) (s : string) : string :=
  match s with
  | EmptyString => EmptyString
  | String c s' => repr_char q c ++ repr_body q s'
  end.

Definition squote : ascii := "'".
Definition dquote : ascii := Ascii.ascii_of_nat 34.

Definition repr (s : string) : string :=
  let q := if has_char squote s && negb (has_char dquote s)
           then dquote else squote in
  String q (repr_body q s ++ String q EmptyString).

(** *** Number literals *)

(** A run of digits in which single underscores may separate digits:
    the value read so far, the number of digits, and the rest. *)
Fixpoint digit_run (s : string) (acc : Z) (n : nat) : Z * nat * string :=
  match s with
  | String c s' =>
      if is_digit c then digit_run s' (10 * acc + digit_val c) (S n)
      else
        match n, s' with
        | S _, String d _ =>
            if Ascii.eqb c "_" && is_digit d then digit_run s' acc n
            else (acc, n, s)
        | _, _ => (acc, n, s)
        end
  | EmptyString => (acc, n, s)
  end.

(** A digit run ends at the end of the text or at a character that is
    neither a digit nor an underscore. *)
Definition stops (rest : string) : Prop :=
  match rest with
  | EmptyString => True
  | String c _ => is_digit c = false /\ Ascii.eqb c "_" = false
  end.

Definition read_sign (s : string) : bool * string :=
  match s with
  | String c s' =>
      if Ascii.eqb c "-" then (true, s')
      else if Ascii.eqb c "+" then (false, s')
      else (false, s)
  | EmptyString => (false, s)
  end.

(** [int(s)] for a string, base 10. *)
Definition int_of_str (s : string) : res Z :=
  let '(neg, t) := read_sign (strip s) in
  match digit_run t 0 0 with
  | (v, S _, EmptyString) => Ok (if neg then - v else v)
  | _ => Raise (ValueError ("invalid literal for int() with base 10: " ++ repr s))
  end.

(** The exponent part [e[+-]digits] of a float literal, if any. *)
Definition read_exponent (s : string) : option (Z * string) :=
  match s with
  | EmptyString => Some (0, s)
  | String c s' =>
      if Ascii.eqb (lower_char c) "e" then
        let '(neg, t) := read_sign s' in
        match digit_run t 0 0 with
        | (v, S _, rest) => Some (if neg then - v else v, rest)
        | _ => None
        end
      else Some (0, s)
  end.

(** The mantissa [digits[.[digits]]] or [.digits]: its digits read as one
    integer, and the number of digits after the point. *)
Definition read_mantissa (s : string) : option (Z * nat * string) :=
  let '(v, n, rest) := digit_run s 0 0 in
  match rest with
  | String c rest' =>
      if Ascii.eqb c "." then
        let '(w, k, rest'') := digit_run rest' v 0 in
        match n, k with
        | O, O => None
        | _, _ => Some (w, k, rest'')
        end
      else match n with O => None | S _ => Some (v, O, rest) end
  | EmptyString => match n with O => None | S _ => Some (v, O, rest) end
  end.

(** [float(s)] for a string. *)
Definition float_of_str (s : string) : res spec_float :=
  let '(neg, t) := read_sign (strip s) in
  let l := lower t in
  if String.eqb l "inf" || String.eqb l "infinity" then Ok (S754_infinity neg)
  else if String.eqb l "nan" then Ok S754_nan
  else
    match read_mantissa t with
    | Some (v, k, rest) =>
        match read_exponent rest with
        | Some (x, EmptyString) => Ok (float_of_scaled neg v (x - Z.of_nat k))
        | _ => Raise (ValueError ("could not convert string to float: " ++ repr s))
        end
    | None => Raise (ValueError ("could not convert string to float: " ++ repr s))
    end.

(** Name of a value's type, as error messages print it. *)
Definition type_name (v : value) : string :=
  match v with
  | VNone => "NoneType"
  | VBool _ => "bool"
  | VInt _ => "int"
  | VFloat _ => "float"
  | VStr _ => "str"
  | VList _ => "list"
  | VDict _ => "dict"
  end.

(** [float(v)] *)
Definition py_float (v : value) : res spec_float :=
  match v with
  | VFloat f => Ok f
  | VInt z => float_of_Z z
  | VBool b => float_of_Z (if b then 1 else 0)
  | VStr s => float_of_str s
  | _ => Raise (TypeError
                  ("float() argument must be a string or a real number, not '"
                     ++ type_name v ++ "'"))
  end.

(** [d.get(key, default)]; a value that is not a dict has no [get]. *)
Fixpoint assoc (key : string) (d : list (string * value)) : option value :=
  match d with
  | [] => None
  | (k, v) :: d' => if String.eqb k key then Some v else assoc key d'
  end.

Definition dict_get (v : value) (key : string) (default : value) : res value :=
  match v with
  | VDict d => Ok (match assoc key d with Some x => x | None => default end)
  | _ => Raise (AttributeError
                  ("'" ++ type_name v ++ "' object has no attribute 'get'"))
  end.

End Py.

(** ** The [re] module: a backtracking matcher

    The two patterns of [evaluator.py] use literals, character classes,
    greedy [?], [*] and [+], one lazy [*?] and one capturing group; the
    matcher below tries alternatives in the order Python's engine does. *)

Module Re.
Import Py.

Inductive regex :=
| Empty
| Char (p : ascii -> bool)
| Seq (r1 r2 : regex)
| Opt (r : regex)
| Star (p : ascii -> bool)
| Plus (p : ascii -> bool)
| LazyStar (p : ascii -> bool)
| Group (r : regex).

(** The texts a pattern matches. *)
Inductive matches : regex -> string -> Prop :=
| matches_empty : matches Empty EmptyString
| matches_char p c : p c = true -> matches (Char p) (String c EmptyString)
| matches_seq r1 r2 s1 s2 :
    matches r1 s1 -> matches r2 s2 -> matches (Seq r1 r2) (s1 ++ s2)
| matches_opt_some r s : matches r s -> matches (Opt r) s
| matches_opt_none r : matches (Opt r) EmptyString
| matches_star p s : all_chars p s = true -> matches (Star p) s
| matches_plus p c s :
    p c = true -> all_chars p s = true -> matches (Plus p) (String c s)
| matches_lazy p s : all_chars p s = true -> matches (LazyStar p) s
| matches_group r s : matches r s -> matches (Group r) s.

(** A pattern without a capturing group. *)
Fixpoint no_group (r : regex) : bool :=
  match r with
  | Group _ => false
  | Seq r1 r2 => no_group r1 && no_group r2
  | Opt r1 => no_group r1
  | _ => true
  end.

(** A match: the text matched and what group 1 captured. *)
Record match_obj := { group0 : string; group1 : option string }.

(** What was consumed between a position [s] and a later position [rest]. *)
Definition consumed (s rest : string) : string :=
  String.substring 0 (String.length s - String.length rest) s.

Section Backtrack.
Context {A : Type}.

(** [p*]: as many as possible first, then fewer. *)
Fixpoint star_greedy (p : ascii -> bool) (s : string)
         (k : string -> option A) : option A :=
  match s with
  | String c s' =>
      if p c then
        match star_greedy p s' k with
        | Some a => Some a
        | None => k s
        end
      else k s
  | EmptyString => k s
  end.

(** [p*?]: as few as possible first, then more. *)
Fixpoint star_lazy (p : ascii -> bool) (s : string)
         (k : string -> option A) : option A :=
  match k s with
  | Some a => Some a
  | None =>
      match s with
      | String c s' => if p c then star_lazy p s' k else None
      | EmptyString => None
      end
  end.

(** Match [r] at the head of [s], then continue with [k] on the rest;
    [g] is the capture of group 1 so far. *)
Fixpoint bt (r : regex) (s : string) (g : option string)
         (k : string -> option string -> option A) : option A :=
  match r with
  | Empty => k s g
  | Char p =>
      match s with
      | String c s' => if p c then k s' g else None
      | EmptyString => None
      end
  | Seq r1 r2 => bt r1 s g (fun s1 g1 => bt r2 s1 g1 k)
  | Opt r1 =>
      match bt r1 s g k with
      | Some a => Some a
      | None => k s g
      end
  | Star p => star_greedy p s (fun s1 => k s1 g)
  | Plus p =>
      match s with
      | String c s' => if p c then star_greedy p s' (fun s1 => k s1 g) else None
      | EmptyString => None
      end
  | LazyStar p => star_lazy p s (fun s1 => k s1 g)
  | Group r1 => bt r1 s g (fun s1 _ => k s1 (Some (consumed s s1)))
  end.
End Backtrack.

(** [re.match]: a match starting at the head of [s]. *)
Definition match_at (r : regex) (s : string) : option match_obj :=
  bt r s None (fun rest g => Some {| group0 := consumed s rest; group1 := g |}).

(** [re.search]: the leftmost position at which the pattern matches. *)
Fixpoint search (r : regex) (s : string) : option match_obj :=
  match match_at r s with
  | Some m => Some m
  | None =>
      match s with
      | String _ s' => search r s'
      | EmptyString => None
      end
  end.

(** [m.group(1)] *)
Definition group (m : match_obj) : value :=
  match group1 m with
  | Some s => VStr s
  | None => VNone
  end.

(** A literal character under [re.IGNORECASE]. *)
Definition lit_i (c : ascii) : regex :=
  Char (fun x => Ascii.eqb (lower_char x) (lower_char c)).

Fixpoint literal_i (s : string) : regex :=
  match s with
  | EmptyString => Empty
  | String c s' => Seq (lit_i c) (literal_i s')
  end.

Definition is_quote (c : ascii) : bool :=
  Ascii.eqb c dquote || Ascii.eqb c squote.
Definition is_char (a c : ascii) : bool := Ascii.eqb c a.
Definition any_char (c : ascii) : bool := true.

End Re.

(** ** evaluator.py *)

Module Evaluator.
Import Py Re.

(** [json.loads], which is not code of this repository: [Ok] with the
    decoded value, or the exception it raises. *)
Class JsonLib := { json_loads : string -> res value }.

(** The completion call [client.chat.completions.create(...)] followed by
    [.choices[0].message.content]: the reply text, or the exception raised
    on the way.  The service need not answer the same text twice, so a
    client is indexed by the number of calls made before. *)
Definition client := nat -> string -> res string.

Record annotation := { score : num; reasoning : value }.

(** The pattern [score[Q']?\s*[:]?\s*(\d+(?:\.\d+)?)] compiled with
    [re.IGNORECASE], where [Q] stands for the double quote. *)
Definition score_re : regex :=
  Seq (literal_i "score")
   (Seq (Opt (Char is_quote))
     (Seq (Star is_space)
       (Seq (Opt (Char (is_char ":")))
         (Seq (Star is_space)
           (Group (Seq (Plus is_digit)
                       (Opt (Seq (Char (is_char ".")) (Plus is_digit))))))))).

(** The pattern [reasoning[Q']?\s*[:]?\s*[Q'](.*?)[Q']}?] compiled with
    [re.IGNORECASE | re.DOTALL]. *)
Definition reasoning_re : regex :=
  Seq (literal_i "reasoning")
   (Seq (Opt (Char is_quote))
     (Seq (Star is_space)
       (Seq (Opt (Char (is_char ":")))
         (Seq (Star is_space)
           (Seq (Char is_quote)
             (Seq (Group (LazyStar any_char))
               (Seq (Char is_quote) (Opt (Char (is_char "}")))))))))).

(** [max(1, min(10, score))] *)
Definition clamp (score : num) : num :=
  py_max (PyInt 1) (py_min (PyInt 10) score).

Section WithJson.
Context `{JsonLib}.

(** The body of the inner [try]: decode the reply and read both keys. *)
Definition parse_json (result_text : string) : res annotation :=
  result ← json_loads result_text;
  v ← dict_get result "score" (VInt 0);
  score ← py_float v;
  let score := clamp (PyFloat score) in
  reasoning ← dict_get result "reasoning" (VStr "No reasoning provided");
  Ok {| score := score; reasoning := reasoning |}.

(** The [except json.JSONDecodeError] handler. *)
Definition parse_fallback (result_text : string) : res annotation :=
  let score_match := search score_re result_text in
  score ← match score_match with
          | Some m => f ← py_float (group m); Ok (PyFloat f)
          | None => Ok (PyInt 0)
          end;
  let score := clamp score in
  let reasoning_match := search reasoning_re result_text in
  let reasoning := match reasoning_match with
                   | Some m => group m
                   | None => VStr "Unable to parse reasoning"
                   end in
  Ok {| score := score; reasoning := reasoning |}.

(** The body of the outer [try]. *)
Definition evaluate_body (reply : res string) : res annotation :=
  content ← reply;
  let result_text := strip content in
  match parse_json result_text with
  | Raise (JSONDecodeError _) => parse_fallback result_text
  | r => r
  end.

(** [evaluate_abstract(abstract, client)], given what the client call
    yields for this abstract. *)
Definition evaluate_reply (reply : res string) : annotation :=
  match evaluate_body reply with
  | Ok a => a
  | Raise e => {| score := PyInt 0;
                  reasoning := VStr ("Error: " ++ str_of_exn e) |}
  end.

Definition evaluate_abstract (abstract : string) (call : string -> res string)
  : annotation :=
  evaluate_reply (call abstract).
End WithJson.

(** *** Snapshots

    A frame holds the columns [id, title, categories, abstract, doi,
    created, updated, authors] and, once evaluated, [score] and [reasoning].
    pandas types a column by its cells.  A cell of the [id] column is text
    ([VStr]), or a number when every identifier of the file reads as one:
    the identifier 2401.10000 is then the float 2401.1.  A [title],
    [abstract], [doi], [created] or [updated] cell is its text, or [None]
    when the cell is empty, which pandas reads as NaN; [categories] and
    [authors] are typed as the [Paper] model of [app.py] has them.  The
    score column is read as float64.  What the log lines print is not
    modelled, but the expression [row['title'][:50]] of the log line in the
    loop is evaluated, and it raises on a title that is NaN. *)

Record Row := {
  id : value;                  (* text, or a number in a numeric column *)
  title : option string;
  categories : string;
  abstract : option string;
  doi : option string;
  created : option string;
  updated : option string;
  authors : string;
  row_score : spec_float;      (* float64 column, NaN when missing *)
  row_reasoning : value        (* text, NaN when missing, or what was stored *)
}.

(** A frame: its rows in file order, and whether the two optional columns
    exist.  The cells of a column that does not exist are never read. *)
Record DataFrame := {
  has_score : bool;
  has_reasoning : bool;
  rows : list Row
}.

(** The eight columns every snapshot has. *)
Definition base (r : Row) :=
  (id r, title r, categories r, abstract r, doi r, created r, updated r,
   authors r).

Definition set_score (f : spec_float) (r : Row) : Row :=
  {| id := id r; title := title r; categories := categories r;
     abstract := abstract r; doi := doi r; created := created r;
     updated := updated r; authors := authors r;
     row_score := f; row_reasoning := row_reasoning r |}.

Definition set_reasoning (v : value) (r : Row) : Row :=
  {| id := id r; title := title r; categories := categories r;
     abstract := abstract r; doi := doi r; created := created r;
     updated := updated r; authors := authors r;
     row_score := row_score r; row_reasoning := v |}.

(** A number stored into the float64 column. *)
Definition num_to_float (n : num) : spec_float :=
  match n with
  | PyFloat f => f
  | PyInt z => binary_normalize prec emax z 0 false
  end.

(** [df.head(n)]: the first [n] rows, or all but the last [-n] when [n] is
    negative. *)
Definition head (n : Z) (l : list Row) : list Row :=
  if 0 <=? n then take (Z.to_nat n) l
  else take (List.length l - Z.to_nat (- n))%nat l.

(** The [num_rows] argument: the command line passes text, a caller may
    pass an integer. *)
Inductive rows_arg :=
| RowsStr (s : string)
| RowsInt (z : Z).

(** [int(num_rows)] *)
Definition py_int (a : rows_arg) : res Z :=
  match a with
  | RowsInt z => Ok z
  | RowsStr s => int_of_str s
  end.

(** [num_rows != '*'] fails only for the text [*]. *)
Definition is_star (a : rows_arg) : bool :=
  match a with
  | RowsStr s => String.eqb s "*"
  | RowsInt _ => false
  end.

(** Lines 106-112: how many rows to process. *)
Definition limit_rows (num_rows : rows_arg) (df : DataFrame) : DataFrame :=
  if is_star num_rows then df
  else
    match py_int num_rows with
    | Ok n => {| has_score := has_score df;
                 has_reasoning := has_reasoning df;
                 rows := head n (rows df) |}
    | Raise _ => df
    end.

(** Lines 114-118: add the two columns when they do not exist. *)
Definition add_columns (df : DataFrame) : DataFrame :=
  {| has_score := true;
     has_reasoning := true;
     rows :=
       let rs := if has_score df then rows df
                 else set_score (S754_zero false) <$> rows df in
       if has_reasoning df then rs
       else set_reasoning (VStr EmptyString) <$> rs |}.

(** [pd.isna(abstract) or not abstract.strip()] *)
Definition skipped (r : Row) : bool :=
  match abstract r with
  | None => true
  | Some a => String.eqb (strip a) EmptyString
  end.

(** pandas' part in a run, which is not code of this repository:
    [pd.read_csv] on the text of a file, [df.to_csv] printing a frame, and
    what [df.at[idx, 'reasoning'] = v] does with a value the column's type
    does not hold (text into a numeric column, or anything but text into a
    text column): older versions convert the column and store the value
    ([true]), newer ones raise [TypeError] ([false]).  The first argument of
    [pd_accepts] tells whether the column holds text. *)
Class PandasLib := {
  pd_read_csv : string -> res DataFrame;
  pd_to_csv : DataFrame -> string;
  pd_accepts : bool -> value -> bool
}.

Definition is_text (v : value) : bool :=
  match v with VStr _ => true | _ => false end.

(** Text goes into a text column in every version. *)
Definition accepts `{PandasLib} (text_column : bool) (v : value) : bool :=
  (text_column && is_text v) || pd_accepts text_column v.

(** Whether the reasoning column holds text when the loop starts: a column
    of the file is typed by all its cells (the rows [head] drops included),
    and the column line 117 adds is filled with the empty text. *)
Definition text_reasoning (df : DataFrame) : bool :=
  if has_reasoning df
  then existsb (fun r => is_text (row_reasoning r)) (rows df)
  else true.

(** State of the loop of lines 121-135: the frame being updated in place,
    the completion calls made so far, each with the index of its row and
    the abstract sent, and the exception that ended the loop, if any. *)
Record loop_state := {
  frame : list Row;
  calls : list (nat * string);
  failed : option exn
}.

Section WithJson.
Context `{JsonLib} `{PandasLib}.

(** One iteration, for the row [row] at index [idx]: the test of the
    abstract, the title sliced for the log line, the completion call, and
    the two assignments. *)
Definition loop_step (c : client) (text_column : bool) (st : loop_state)
           (it : nat * Row) : loop_state :=
  let '(idx, row) := it in
  match failed st with
  | Some _ => st
  | None =>
      match abstract row with
      | None => st
      | Some a =>
          if String.eqb (strip a) EmptyString then st
          else
            match title row with
            | None =>
                {| frame := frame st; calls := calls st;
                   failed :=
                     Some (TypeError "'float' object is not subscriptable") |}
            | Some _ =>
                let result :=
                  evaluate_abstract a (c (List.length (calls st))) in
                let scored :=
                  alter (set_score (num_to_float (score result))) idx
                        (frame st) in
                if accepts text_column (reasoning result)
                then {| frame :=
                          alter (set_reasoning (reasoning result)) idx scored;
                        calls := calls st ++ [(idx, a)];
                        failed := None |}
                else {| frame := scored;
                        calls := calls st ++ [(idx, a)];
                        failed :=
                          Some (TypeError "Invalid value for the column type") |}
            end
      end
  end.

(** [for idx, row in df.iterrows(): ...] *)
Definition evaluate_loop (c : client) (text_column : bool) (rs : list Row)
  : loop_state :=
  fold_left (loop_step c text_column) (imap pair rs)
            {| frame := rs; calls := []; failed := None |}.

(** The two assignments of lines 131-132 on one row. *)
Definition annotate_row (a : annotation) (r : Row) : Row :=
  set_reasoning (reasoning a) (set_score (num_to_float (score a)) r).

(** The loop read row by row, when [n] calls were made before the first
    row of [rs]: what each row becomes when no iteration raises. *)
Fixpoint annotate (c : client) (n : nat) (rs : list Row) : list Row :=
  match rs with
  | [] => []
  | r :: rs' =>
      match abstract r with
      | None => r :: annotate c n rs'
      | Some a =>
          if String.eqb (strip a) EmptyString then r :: annotate c n rs'
          else annotate_row (evaluate_abstract a (c n)) r
                 :: annotate c (S n) rs'
      end
  end.
End WithJson.

(** The calls the loop makes over rows that start at index [k], when no
    iteration raises. *)
Fixpoint call_log (k : nat) (rs : list Row) : list (nat * string) :=
  match rs with
  | [] => []
  | r :: rs' =>
      match abstract r with
      | None => call_log (S k) rs'
      | Some a =>
          if String.eqb (strip a) EmptyString then call_log (S k) rs'
          else (k, a) :: call_log (S k) rs'
      end
  end.

(** The files the evaluator reads and writes, each with its text. *)
Abbreviation files := (gmap string string).

(** [input_path.parent / f'{input_path.stem}_evaluated{input_path.suffix}'],
    computed by pathlib. *)
Class PathLib := { evaluated_path : string -> string }.

(** What a call of [evaluate_papers] that returns leaves behind: the files,
    the frame it returns and the completion calls it made. *)
Record run := {
  run_files : files;
  run_df : DataFrame;
  run_calls : list (nat * string)
}.

(** Lines 138-141: where the result is written. *)
Definition output_file `{PathLib} (csv_path : string)
           (output_path : option string) : string :=
  match output_path with
  | Some p => p
  | None => evaluated_path csv_path
  end.

(** A record lacks a score annotation when the score column does not
    exist, or its score is missing, or its score is at most 0. *)
Definition unscored (df : DataFrame) (r : Row) : bool :=
  negb (has_score df)
  || match float_cmp_Z (row_score r) 0 with
     | Some Gt => false
     | _ => true
     end.

(** A row the loop gets past the log line with: one it skips, or one that
    has a title. *)
Definition titled (r : Row) : bool :=
  skipped r || match title r with Some _ => true | None => false end.

Section WithLibs.
Context `{JsonLib} `{PathLib} `{PandasLib}.

(** The loop of a run that found its file and read the frame [df0]. *)
Definition run_loop (c : client) (num_rows : rows_arg) (df0 : DataFrame)
  : loop_state :=
  evaluate_loop c (text_reasoning df0)
                (rows (add_columns (limit_rows num_rows df0))).

(** [evaluate_papers]: any exception raised between [read_csv] and
    [to_csv] is logged and raised again, so that nothing is written. *)
Definition evaluate_papers (fs : files) (c : client) (csv_path : string)
           (output_path : option string) (num_rows : rows_arg) : res run :=
  match fs !! csv_path with
  | None => Raise (OSError ("No such file or directory: " ++ repr csv_path))
  | Some text =>
      df0 ← pd_read_csv text;
      let st := run_loop c num_rows df0 in
      match failed st with
      | Some e => Raise e
      | None =>
          let df' := {| has_score := true; has_reasoning := true;
                        rows := frame st |} in
          let out := output_file csv_path output_path in
          Ok {| run_files := <[out := pd_to_csv df']> fs;
                run_df := df';
                run_calls := calls st |}
      end
  end.

End WithLibs.

End Evaluator.

(** ** app.py: the paper listing *)

Module App.
Import Py Evaluator.

(** Library calls of the listing: a pattern handed to pandas'
    [str.contains] is compiled (which raises on a malformed pattern) and
    then searched for in each cell; [str(v)] prints a cell that is not
    text. *)
Class AppLib := {
  re_compile : string -> res (string -> bool);
  py_str : value -> string
}.

Inductive sort_field := by_created | by_updated | by_score | by_title.
Inductive sort_dir := asc | desc.

(** The query parameters of [GET /api/papers]. *)
Record query := {
  page : Z;
  per_page : Z;
  search : option string;
  category : option string;
  min_score : option spec_float;
  max_score : option spec_float;
  sort_by : sort_field;
  sort_order : sort_dir
}.

(** The [Paper] model. *)
Record Paper := {
  p_id : string;
  p_title : string;
  p_categories : string;
  p_abstract : string;
  p_doi : option string;
  p_created : option string;
  p_updated : option string;
  p_authors : string;
  p_score : option spec_float;
  p_reasoning : option string
}.

(** The [PapersResponse] model. *)
Record PapersResponse := {
  papers : list Paper;
  total : Z;
  resp_page : Z;
  resp_per_page : Z;
  total_pages : Z
}.

(** The same query for another page. *)
Definition set_page (k : Z) (q : query) : query :=
  {| page := k; per_page := per_page q; search := search q;
     category := category q; min_score := min_score q;
     max_score := max_score q; sort_by := sort_by q;
     sort_order := sort_order q |}.

(** The bounds FastAPI checks before the handler runs: [page >= 1],
    [1 <= per_page <= 100], and each score bound within [0, 10]. *)
Definition bound_ok (b : option spec_float) : bool :=
  match b with
  | None => true
  | Some f => is_ge (float_cmp_Z f 0) && is_le (float_cmp_Z f 10)
  end.

Definition valid (q : query) : bool :=
  (1 <=? page q) && (1 <=? per_page q) && (per_page q <=? 100)
  && bound_ok (min_score q) && bound_ok (max_score q).

Definition is_nan (f : spec_float) : bool :=
  match f with S754_nan => true | _ => false end.

(** [pd.notna] on a cell of an object column. *)
Definition notna (v : value) : bool :=
  match v with
  | VNone => false
  | VFloat f => negb (is_nan f)
  | _ => true
  end.

(** An optional text parameter counts only when it is a non-empty string
    ([if search:]). *)
Definition given (o : option string) : option string :=
  match o with
  | Some EmptyString => None
  | _ => o
  end.

(** A text column whose cells are all NaN is a float column, on which the
    [.str] accessor raises. *)
Definition str_accessor (cells : list (option string)) : res unit :=
  if forallb (fun c => match c with None => true | Some _ => false end) cells
  then Raise (AttributeError "Can only use .str accessor with string values!")
  else Ok tt.

(** Sort keys: the cells of the column sorted by. *)
Inductive key :=
| KStr (s : string)
| KNum (f : spec_float).

Definition key_lt (a b : key) : bool :=
  match a, b with
  | KStr x, KStr y => String.ltb x y
  | KNum x, KNum y => is_lt (float_cmp x y)
  | _, _ => false
  end.

(** The cell of the sort column, [None] when it is NaN. *)
Definition sort_key (f : sort_field) (r : Row) : option key :=
  match f with
  | by_created => KStr <$> created r
  | by_updated => KStr <$> updated r
  | by_title => KStr <$> title r
  | by_score => if is_nan (row_score r) then None else Some (KNum (row_score r))
  end.

Section Sort.
Context (before : Row -> Row -> bool).

(** Insert [x], which stood before every row of [l], into the sorted [l]:
    after the rows strictly before it. *)
Fixpoint insert_sorted (x : Row) (l : list Row) : list Row :=
  match l with
  | [] => [x]
  | y :: l' => if before y x then y :: insert_sorted x l' else x :: l
  end.

Fixpoint sort_rows (l : list Row) : list Row :=
  match l with
  | [] => []
  | x :: l' => insert_sorted x (sort_rows l')
  end.
End Sort.

Definition has_key (f : sort_field) (r : Row) : bool :=
  match sort_key f r with Some _ => true | None => false end.

Definition key_before (f : sort_field) (d : sort_dir) (x y : Row) : bool :=
  match sort_key f x, sort_key f y with
  | Some a, Some b => match d with
                      | asc => key_lt a b
                      | desc => key_lt b a
                      end
  | _, _ => false
  end.

(** [df.sort_values(by, ascending, na_position='last')]: the rows that have
    a key in key order, then the rows without one in their own order.  The
    order pandas leaves among equal keys is not specified; here they keep
    their relative order. *)
Definition sort_values (f : sort_field) (d : sort_dir) (l : list Row)
  : list Row :=
  sort_rows (key_before f d) (List.filter (has_key f) l)
  ++ List.filter (fun r => negb (has_key f r)) l.

(** [df.iloc[start:stop]] for [0 <= start <= stop]. *)
Definition iloc (start stop : Z) (l : list Row) : list Row :=
  take (Z.to_nat (stop - start)) (drop (Z.to_nat start) l).

Section WithLib.
Context `{AppLib}.

(** Lines 136-143: the text search over title, abstract and authors, in
    the order the mask is evaluated: the accessor of the title column, the
    pattern, then the accessor of the abstract column. *)
Definition filter_search (q : query) (df : DataFrame) : res (list Row) :=
  match given (search q) with
  | None => Ok (rows df)
  | Some s =>
      let search_lower := lower s in
      _ ← str_accessor (title <$> rows df);
      found ← re_compile search_lower;
      _ ← str_accessor (abstract <$> rows df);
      Ok (List.filter
            (fun r =>
               match title r with
               | Some t => found (lower t)
               | None => false
               end
               || match abstract r with
                  | Some a => found (lower a)
                  | None => false
                  end
               || found (lower (authors r)))
            (rows df))
  end.

(** Lines 145-146: the category filter. *)
Definition filter_category (q : query) (l : list Row) : res (list Row) :=
  match given (category q) with
  | None => Ok l
  | Some c =>
      found ← re_compile c;
      Ok (List.filter (fun r => found (categories r)) l)
  end.

(** Lines 148-152: the score bounds, applied when the frame has a score
    column. *)
Definition filter_min (q : query) (df : DataFrame) (l : list Row) : list Row :=
  match min_score q with
  | Some m =>
      if has_score df
      then List.filter (fun r => is_ge (float_cmp (row_score r) m)) l
      else l
  | None => l
  end.

Definition filter_max (q : query) (df : DataFrame) (l : list Row) : list Row :=
  match max_score q with
  | Some m =>
      if has_score df
      then List.filter (fun r => is_le (float_cmp (row_score r) m)) l
      else l
  | None => l
  end.

(** Lines 155-157: the sort, applied when the column exists. *)
Definition sort_step (q : query) (df : DataFrame) (l : list Row) : list Row :=
  match sort_by q with
  | by_score => if has_score df then sort_values by_score (sort_order q) l
                else l
  | f => sort_values f (sort_order q) l
  end.

(** The rows that match the filters, in the order they are paged. *)
Definition matching (q : query) (df : DataFrame) : res (list Row) :=
  l1 ← filter_search q df;
  l2 ← filter_category q l1;
  Ok (sort_step q df (filter_max q df (filter_min q df l2))).

(** [str(cell)]: text is itself. *)
Definition str_cell (v : value) : string :=
  match v with
  | VStr s => s
  | _ => py_str v
  end.

(** Lines 166-181: one row as a [Paper]. *)
Definition to_paper (df : DataFrame) (r : Row) : Paper :=
  {| p_id := str_cell (id r);
     p_title := match title r with Some t => t | None => "nan" end;
     p_categories := categories r;
     p_abstract := match abstract r with Some a => a | None => "nan" end;
     p_doi := doi r;
     p_created := created r;
     p_updated := updated r;
     p_authors := authors r;
     p_score := if has_score df && negb (is_nan (row_score r))
                then Some (row_score r) else None;
     p_reasoning := if has_reasoning df && notna (row_reasoning r)
                    then Some (py_str (row_reasoning r)) else None |}.

(** [get_papers], on the frame [load_papers_df()] returned. *)
Definition get_papers (df : DataFrame) (q : query) : res PapersResponse :=
  if negb (valid q) then Raise (RequestValidationError "422")
  else
    match rows df with
    | [] => Ok {| papers := []; total := 0; resp_page := page q;
                  resp_per_page := per_page q; total_pages := 0 |}
    | _ =>
        l ← matching q df;
        let total := Z.of_nat (List.length l) in
        let total_pages := (total + per_page q - 1) / per_page q in
        let start := (page q - 1) * per_page q in
        let stop := start + per_page q in
        let df_page := iloc start stop l in
        Ok {| papers := to_paper df <$> df_page;
              total := total;
              resp_page := page q;
              resp_per_page := per_page q;
              total_pages := total_pages |}
    end.
End WithLib.

End App.

(** ** main.py: the ingestion run *)

Module Main.
Import Py.

Definition LAST_UPDATE_FILE : string := "last_update.txt".
Definition RESULTS_FOLDER : string := "results".
Definition CATEGORIES : list string := ["cs"; "eess"; "stat"].
Definition MAX_DAYS : Z := 7.

(** One record as the retrieval client returns it, in the column order
    [id, title, categories, abstract, doi, created, updated, authors]. *)
Record raw_paper := {
  raw_id : string; raw_title : string; raw_categories : string;
  raw_abstract : string; raw_doi : string; raw_created : string;
  raw_updated : string; raw_authors : string
}.

(** What a file holds. *)
Inductive content :=
| Text (s : string)
| Csv (table : list raw_paper)
| JsonLines (table : list raw_paper)
| Directory.

(** What a run does to the outside, in order. *)
Inductive event :=
| MkDir (path : string)
| Fetch (category date_from date_until : string)
| Write (path : string).

Record world := {
  fs : gmap string content;
  trace : list event
}.

(** Library calls of the run: dates are day numbers; [dateutil] reads a
    date from text, [strftime('%Y-%m-%d')] prints one, and the
    [arxivscraper] client fetches one category over a window or raises. *)
Class MainLib := {
  parse_date : string -> res Z;
  strftime : Z -> string;
  scrape : string -> string -> string -> res (list raw_paper)
}.

(** [os.path.join] of a directory name and a file name. *)
Definition path_join (dir name : string) : string := dir ++ "/" ++ name.

Definition emit (e : event) (w : world) : world :=
  {| fs := fs w; trace := trace w ++ [e] |}.

Definition write_file (path : string) (c : content) (w : world) : world :=
  {| fs := <[path := c]> (fs w); trace := trace w ++ [Write path] |}.

Section WithLib.
Context `{MainLib}.

Definition ensure_directories_exist (w : world) : world :=
  match fs w !! RESULTS_FOLDER with
  | Some _ => w
  | None => {| fs := <[RESULTS_FOLDER := Directory]> (fs w);
               trace := trace w ++ [MkDir RESULTS_FOLDER] |}
  end.

(** The date the window starts from before it is bounded: the one read
    from the last-update file, or [MAX_DAYS] before today when the file
    is absent or cannot be read as a date. *)
Definition read_last_update (today : Z) (w : world) : Z :=
  match fs w !! LAST_UPDATE_FILE with
  | Some (Text s) =>
      match parse_date (strip s) with
      | Ok d => d
      | Raise _ => today - MAX_DAYS
      end
  | Some _ => today - MAX_DAYS
  | None => today - MAX_DAYS
  end.

Definition get_date_range (today : Z) (w : world) : string * string :=
  let last_update := read_last_update today w in
  let from_date := Z.max last_update (today - MAX_DAYS) in
  (strftime from_date, strftime today).

Definition scrape_arxiv (category date_from date_until : string) (w : world)
  : list raw_paper * world :=
  let w' := emit (Fetch category date_from date_until) w in
  match scrape category date_from date_until with
  | Ok papers => (papers, w')
  | Raise _ => ([], w')
  end.

Definition save_results (all_papers : list raw_paper) (w : world) : world :=
  match all_papers with
  | [] => w
  | _ =>
      let csv_file := path_join RESULTS_FOLDER "arxiv_papers.csv" in
      let json_file := path_join RESULTS_FOLDER "arxiv_papers.json" in
      write_file json_file (JsonLines all_papers)
        (write_file csv_file (Csv all_papers) w)
  end.

Definition update_last_update (date : string) (w : world) : world :=
  write_file LAST_UPDATE_FILE (Text date) w.

(** The loop over [CATEGORIES]. *)
Fixpoint scrape_all (cats : list string) (date_from date_until : string)
         (all_papers : list raw_paper) (w : world) : list raw_paper * world :=
  match cats with
  | [] => (all_papers, w)
  | category :: cats' =>
      let '(papers, w') := scrape_arxiv category date_from date_until w in
      scrape_all cats' date_from date_until (all_papers ++ papers) w'
  end.

(** What one category contributes: its records, or nothing when the
    fetch fails. *)
Definition fetch_result (category date_from date_until : string)
  : list raw_paper :=
  match scrape category date_from date_until with
  | Ok papers => papers
  | Raise _ => []
  end.

(** All the records of a run over [cats], in category order. *)
Fixpoint fetched (cats : list string) (date_from date_until : string)
  : list raw_paper :=
  match cats with
  | [] => []
  | category :: cats' =>
      fetch_result category date_from date_until
        ++ fetched cats' date_from date_until
  end.

Definition main (today : Z) (w : world) : world :=
  let w1 := ensure_directories_exist w in
  let '(date_from, date_until) := get_date_range today w1 in
  let '(all_papers, w2) := scrape_all CATEGORIES date_from date_until [] w1 in
  let w3 := save_results all_papers w2 in
  update_last_update date_until w3.
End WithLib.

(** The events a run added to the trace. *)
Definition new_events (before after : world) : list event :=
  drop (List.length (trace before)) (trace after).

Definition is_write_to (path : string) (e : event) : bool :=
  match e with
  | Write p => String.eqb p path
  | _ => false
  end.

(** How many times [path] was written. *)
Definition writes_to (path : string) (evs : list event) : nat :=
  List.length (List.filter (is_write_to path) evs).

Definition is_fetch (e : event) : bool :=
  match e with
  | Fetch _ _ _ => true
  | _ => false
  end.

(** The events of [ensure_directories_exist]. *)
Definition mkdir_events (w : world) : list event :=
  match fs w !! RESULTS_FOLDER with
  | Some _ => []
  | None => [MkDir RESULTS_FOLDER]
  end.

Definition CSV_FILE : string := path_join RESULTS_FOLDER "arxiv_papers.csv".
Definition JSON_FILE : string := path_join RESULTS_FOLDER "arxiv_papers.json".

End Main.

(** ** Reference libraries

    Executable stand-ins for the library calls, used to run the definitions
    above on concrete inputs. *)

Module Ref.
Import Py Re Evaluator App Main.

(** *** A JSON decoder

    Objects, arrays, strings with the single-character escapes, numbers
    and the literals, with the whitespace and the number grammar of
    Python's [json] module. *)

Definition is_json_ws (c : ascii) : bool :=
  let n := code c in (n =? 32) || (n =? 9) || (n =? 10) || (n =? 13).

Fixpoint skip_ws (s : string) : string :=
  match s with
  | String c s' => if is_json_ws c then skip_ws s' else s
  | EmptyString => s
  end.

(** [s] without the prefix [p], when it starts with it. *)
Fixpoint after (p s : string) : option string :=
  match p, s with
  | EmptyString, _ => Some s
  | String a p', String b s' => if Ascii.eqb a b then after p' s' else None
  | String _ _, EmptyString => None
  end.

(** The body of a string after its opening quote. *)
Fixpoint scan_string (s : string) : option (string * string) :=
  match s with
  | EmptyString => None
  | String c s' =>
      if Ascii.eqb c dquote then Some (EmptyString, s')
      else if code c <? 32 then None
      else if Ascii.eqb c "\" then
        match s' with
        | String e s'' =>
            let esc :=
              if Ascii.eqb e dquote then Some dquote
              else if Ascii.eqb e "\" then Some e
              else if Ascii.eqb e "/" then Some e
              else if Ascii.eqb e "b" then Some (ascii_of_nat 8)
              else if Ascii.eqb e "f" then Some (ascii_of_nat 12)
              else if Ascii.eqb e "n" then Some (ascii_of_nat 10)
              else if Ascii.eqb e "r" then Some (ascii_of_nat 13)
              else if Ascii.eqb e "t" then Some (ascii_of_nat 9)
              else None in
            match esc, scan_string s'' with
            | Some x, Some (body, rest) => Some (String x body, rest)
            | _, _ => None
            end
        | EmptyString => None
        end
      else
        match scan_string s' with
        | Some (body, rest) => Some (String c body, rest)
        | None => None
        end
  end.

(** Digits without underscores. *)
Fixpoint plain_digits (s : string) (acc : Z) (n : nat) : Z * nat * string :=
  match s with
  | String c s' =>
      if is_digit c then plain_digits s' (10 * acc + digit_val c) (S n)
      else (acc, n, s)
  | EmptyString => (acc, n, s)
  end.

(** A number: an optional minus sign, then [0] or a digit run that does
    not start with [0], then an optional fraction and an optional
    exponent; an integer when it has neither fraction nor exponent. *)
Definition scan_number (s : string) : option (value * string) :=
  let '(neg, t) := match s with
                   | String "-" t => (true, t)
                   | _ => (false, s)
                   end in
  let int_part :=
    match t with
    | String "0" r => Some (0, r)
    | _ => match plain_digits t 0 0 with
           | (v, S _, r) => Some (v, r)
           | _ => None
           end
    end in
  match int_part with
  | None => None
  | Some (v, r) =>
      let '(w, k, r1) :=
        match r with
        | String "." r' =>
            match plain_digits r' v 0 with
            | (w, S k, r1) => (w, S k, r1)
            | _ => (v, O, r)
            end
        | _ => (v, O, r)
        end in
      let '(x, has_exp, r2) :=
        match r1 with
        | String c r' =>
            if Ascii.eqb (lower_char c) "e" then
              let '(eneg, r'') := read_sign r' in
              match plain_digits r'' 0 0 with
              | (x, S _, r2) => (if eneg then - x else x, true, r2)
              | _ => (0, false, r1)
              end
            else (0, false, r1)
        | EmptyString => (0, false, r1)
        end in
      match k, has_exp with
      | O, false => Some (VInt (if neg then - v else v), r2)
      | _, _ => Some (VFloat (float_of_scaled neg w (x - Z.of_nat k)), r2)
      end
  end.

(** [d[k] = v] on a dict kept in insertion order. *)
Fixpoint dict_set (k : string) (v : value) (d : list (string * value))
  : list (string * value) :=
  match d with
  | [] => [(k, v)]
  | (k', v') :: d' =>
      if String.eqb k' k then (k, v) :: d' else (k', v') :: dict_set k v d'
  end.

Fixpoint scan_value (fuel : nat) (s : string) : option (value * string) :=
  match fuel with
  | O => None
  | S fuel' =>
      match s with
      | EmptyString => None
      | String c s' =>
          if Ascii.eqb c dquote then
            match scan_string s' with
            | Some (body, rest) => Some (VStr body, rest)
            | None => None
            end
          else if Ascii.eqb c "{" then
            match skip_ws s' with
            | String "}" rest => Some (VDict [], rest)
            | t => scan_members fuel' t []
            end
          else if Ascii.eqb c "[" then
            match skip_ws s' with
            | String "]" rest => Some (VList [], rest)
            | t => scan_elements fuel' t []
            end
          else
            match after "null" s, after "true" s, after "false" s with
            | Some rest, _, _ => Some (VNone, rest)
            | _, Some rest, _ => Some (VBool true, rest)
            | _, _, Some rest => Some (VBool false, rest)
            | _, _, _ =>
                match after "NaN" s, after "Infinity" s, after "-Infinity" s with
                | Some rest, _, _ => Some (VFloat S754_nan, rest)
                | _, Some rest, _ => Some (VFloat (S754_infinity false), rest)
                | _, _, Some rest => Some (VFloat (S754_infinity true), rest)
                | _, _, _ => scan_number s
                end
            end
      end
  end
with scan_members (fuel : nat) (s : string) (acc : list (string * value))
  : option (value * string) :=
  match fuel with
  | O => None
  | S fuel' =>
      match s with
      | String c s' =>
          if Ascii.eqb c dquote then
            match scan_string s' with
            | Some (k, rest) =>
                match skip_ws rest with
                | String ":" rest1 =>
                    match scan_value fuel' (skip_ws rest1) with
                    | Some (v, rest2) =>
                        let acc' := dict_set k v acc in
                        match skip_ws rest2 with
                        | String "}" rest3 => Some (VDict acc', rest3)
                        | String "," rest3 => scan_members fuel' (skip_ws rest3) acc'
                        | _ => None
                        end
                    | None => None
                    end
                | _ => None
                end
            | None => None
            end
          else None
      | EmptyString => None
      end
  end
with scan_elements (fuel : nat) (s : string) (acc : list value)
  : option (value * string) :=
  match fuel with
  | O => None
  | S fuel' =>
      match scan_value fuel' s with
      | Some (v, rest) =>
          match skip_ws rest with
          | String "]" rest1 => Some (VList (acc ++ [v]), rest1)
          | String "," rest1 => scan_elements fuel' (skip_ws rest1) (acc ++ [v])
          | _ => None
          end
      | None => None
      end
  end.

Definition loads (s : string) : res value :=
  match scan_value (2 * String.length s + 2) (skip_ws s) with
  | Some (v, rest) =>
      match skip_ws rest with
      | EmptyString => Ok v
      | _ => Raise (JSONDecodeError "Extra data")
      end
  | None => Raise (JSONDecodeError "Expecting value")
  end.

#[export] Instance json : JsonLib := {| json_loads := loads |}.

(** Text in which a backquote stands for the double quote. *)
Fixpoint qq (s : string) : string :=
  match s with
  | EmptyString => EmptyString
  | String c s' => String (if Ascii.eqb c "`" then dquote else c) (qq s')
  end.

(** *** Printing numbers and values *)

(** The number of decimal digits of a positive integer. *)
Definition ndigits (n : Z) : Z := Z.of_nat (String.length (pretty n)).

(** [num / den] rounded to the nearest integer, ties to even. *)
Definition round_div (num den : Z) : Z :=
  let q := num / den in
  let r := num mod den in
  match 2 * r ?= den with
  | Lt => q
  | Gt => q + 1
  | Eq => if Z.even q then q else q + 1
  end.

(** The decimal exponent of [num / den]: the [x] with
    [10^x <= num / den < 10^(x+1)]. *)
Definition decimal_exponent (num den : Z) : Z :=
  let d := ndigits num - ndigits den in
  if 0 <=? d
  then (if den * 10 ^ d <=? num then d else d - 1)
  else (if den <=? num * 10 ^ (- d) then d else d - 1).

(** [num / den] to [k] significant digits: the digits as an integer and
    the decimal exponent of the first one. *)
Definition to_digits (num den x k : Z) : Z * Z :=
  let p := k - 1 - x in
  let n := if 0 <=? p then round_div (num * 10 ^ p) den
           else round_div num (den * 10 ^ (- p)) in
  if n =? 10 ^ k then (10 ^ (k - 1), x + 1) else (n, x).

(** The shortest digits that read back as the float [m * 2^e]. *)
Fixpoint shortest (fuel : nat) (m : positive) (e : Z) (num den x k : Z)
  : Z * Z :=
  let '(n, x') := to_digits num den x k in
  match fuel with
  | O => (n, x')
  | S fuel' =>
      match float_cmp (float_of_scaled false n (x' - k + 1))
                      (S754_finite false m e) with
      | Some Eq => (n, x')
      | _ => shortest fuel' m e num den x (k + 1)
      end
  end.

Definition zeros (n : Z) : string :=
  String.concat EmptyString (replicate (Z.to_nat n) "0").

(** The digits [ds] with decimal exponent [x], laid out as [repr] does:
    positional when [-4 <= x < 16], with an exponent otherwise. *)
Definition layout (ds : string) (x : Z) : string :=
  let k := Z.of_nat (String.length ds) in
  if (-4 <=? x) && (x <? 16) then
    if x <? 0 then "0." ++ zeros (- x - 1) ++ ds
    else if k <=? x + 1 then ds ++ zeros (x + 1 - k) ++ ".0"
    else String.substring 0 (Z.to_nat (x + 1)) ds ++ "."
         ++ String.substring (Z.to_nat (x + 1)) (Z.to_nat (k - x - 1)) ds
  else
    let mant := if k =? 1 then ds
                else String.substring 0 1 ds ++ "."
                     ++ String.substring 1 (Z.to_nat (k - 1)) ds in
    let ex := pretty (Z.abs x) in
    mant ++ "e" ++ (if x <? 0 then "-" else "+")
         ++ (if Z.abs x <? 10 then "0" else EmptyString) ++ ex.

(** [repr(f)] for a float. *)
Definition repr_float (f : spec_float) : string :=
  match f with
  | S754_nan => "nan"
  | S754_infinity s => if s then "-inf" else "inf"
  | S754_zero s => if s then "-0.0" else "0.0"
  | S754_finite s m e =>
      let num := if 0 <=? e then Z.pos m * 2 ^ e else Z.pos m in
      let den := if 0 <=? e then 1 else 2 ^ (- e) in
      let '(n, x) := shortest 17 m e num den (decimal_exponent num den) 1 in
      (if s then "-" else EmptyString) ++ layout (pretty n) x
  end.

(** [repr(v)] and [str(v)] for a value. *)
Fixpoint repr_value (v : value) : string :=
  match v with
  | VStr s => repr s
  | VNone => "None"
  | VBool true => "True"
  | VBool false => "False"
  | VInt z => pretty z
  | VFloat f => repr_float f
  | VList l =>
      "[" ++ String.concat ", " (List.map repr_value l) ++ "]"
  | VDict d =>
      "{" ++ String.concat ", "
               (List.map (fun kv => repr (fst kv) ++ ": " ++ repr_value (snd kv)) d)
          ++ "}"
  end.

Definition str_value (v : value) : string :=
  match v with
  | VStr s => s
  | _ => repr_value v
  end.

(** *** Sample data *)

Definition nl : string := String (ascii_of_nat 10) EmptyString.

Definition sample_row (i : string) (a : option string) (s : spec_float)
           (why : value) : Row :=
  {| id := VStr i; title := Some "A paper"; categories := "cs.LG";
     abstract := a; doi := None; created := Some "2024-01-01";
     updated := None; authors := "A. Author";
     row_score := s; row_reasoning := why |}.

Definition header8 : string :=
  "id,title,categories,abstract,doi,created,updated,authors".
Definition header10 : string := header8 ++ ",score,reasoning".

(** The float 7.0. *)
Definition seven : spec_float := S754_finite false 7881299347898368 (-50).

(** One paper that carries the score 7: the file and the frame pandas
    reads from it. *)
Definition scored_csv : string :=
  header10 ++ nl
  ++ "hep-th/9901001,A paper,cs.LG,We propose a method.,,2024-01-01,,A. Author,7.0,Solid."
  ++ nl.

Definition scored_frame : DataFrame :=
  {| has_score := true; has_reasoning := true;
     rows := [sample_row "hep-th/9901001" (Some "We propose a method.") seven
                (VStr "Solid.")] |}.

(** Twenty-five papers without annotation columns. *)
Definition unscored_csv : string :=
  header8 ++ nl
  ++ String.concat EmptyString
       (replicate 25
          ("hep-th/9901002,A paper,cs.LG,We study a problem.,,2024-01-01,,A. Author"
             ++ nl)).

Definition unscored_frame : DataFrame :=
  {| has_score := false; has_reasoning := false;
     rows := replicate 25 (sample_row "hep-th/9901002" (Some "We study a problem.")
                             S754_nan (VFloat S754_nan)) |}.

(** One paper in a file that has no score column. *)
Definition bare_frame : DataFrame :=
  {| has_score := false; has_reasoning := false;
     rows := [sample_row "hep-th/9901003" (Some "We measure an effect.")
                S754_nan (VFloat S754_nan)] |}.

(** Two papers, the first with an empty title cell. *)
Definition untitled_csv : string :=
  header8 ++ nl
  ++ "hep-th/9901004,,cs.LG,We study a problem.,,2024-01-01,,A. Author" ++ nl
  ++ "hep-th/9901005,A paper,cs.LG,We study a problem.,,2024-01-01,,A. Author"
  ++ nl.

Definition untitled_row : Row :=
  {| id := VStr "hep-th/9901004"; title := None; categories := "cs.LG";
     abstract := Some "We study a problem."; doi := None;
     created := Some "2024-01-01"; updated := None; authors := "A. Author";
     row_score := S754_nan; row_reasoning := VFloat S754_nan |}.

Definition untitled_frame : DataFrame :=
  {| has_score := false; has_reasoning := false;
     rows := [untitled_row;
              sample_row "hep-th/9901005" (Some "We study a problem.")
                S754_nan (VFloat S754_nan)] |}.

(** Three papers of an evaluated file: one scored 7, one whose two
    annotation cells are empty, one with the sentinel 0. *)
Definition graded_frame : DataFrame :=
  {| has_score := true; has_reasoning := true;
     rows := [sample_row "hep-th/9901006" (Some "We propose a method.") seven
                (VStr "Solid.");
              sample_row "hep-th/9901007" None S754_nan (VFloat S754_nan);
              sample_row "hep-th/9901008" (Some "We study a problem.")
                (S754_zero false) (VStr "Error: Request timed out.")] |}.

(** The floats 2401.1 and 2401.00002, which are what pandas reads from the
    identifiers 2401.10000 and 2401.00002 in a file whose identifiers all
    read as numbers. *)
Definition id_2401_1 : spec_float :=
  Eval vm_compute in float_of_scaled false 24011 (-1).
Definition id_2401_00002 : spec_float :=
  Eval vm_compute in float_of_scaled false 240100002 (-5).

Definition numbered_csv : string :=
  header8 ++ nl
  ++ "2401.10000,A paper,cs.LG,We study a problem.,,2024-01-01,,A. Author" ++ nl
  ++ "2401.00002,A paper,cs.LG,We study a problem.,,2024-01-02,,A. Author" ++ nl.

Definition numbered_row (i : spec_float) (day : string) : Row :=
  {| id := VFloat i; title := Some "A paper"; categories := "cs.LG";
     abstract := Some "We study a problem."; doi := None;
     created := Some day; updated := None; authors := "A. Author";
     row_score := S754_nan; row_reasoning := VFloat S754_nan |}.

Definition numbered_frame : DataFrame :=
  {| has_score := false; has_reasoning := false;
     rows := [numbered_row id_2401_1 "2024-01-01";
              numbered_row id_2401_00002 "2024-01-02"] |}.

(** The first page of twenty, newest first, with the given score bounds. *)
Definition listing (lo hi : option spec_float) : query :=
  {| page := 1; per_page := 20; search := None; category := None;
     min_score := lo; max_score := hi;
     sort_by := by_created; sort_order := desc |}.

(** A service that answers every abstract with the same text. *)
Definition always (text : string) : client := fun _ _ => Ok text.

(** *** pandas

    Reading knows the sample files above and nothing else; printing writes
    the header and one line for each row, quoting a field that holds a
    comma, a quote or a line end; assignments convert the column, as the
    versions of pandas before 3 do. *)

Definition sample_files : list (string * DataFrame) :=
  [(scored_csv, scored_frame); (unscored_csv, unscored_frame);
   (untitled_csv, untitled_frame); (numbered_csv, numbered_frame)].

Fixpoint read_sample (l : list (string * DataFrame)) (text : string)
  : res DataFrame :=
  match l with
  | [] => Raise (NotImplementedError "not one of the sample files")
  | (t, df) :: l' => if String.eqb t text then Ok df else read_sample l' text
  end.

Fixpoint double_quotes (s : string) : string :=
  match s with
  | EmptyString => EmptyString
  | String c s' =>
      if Ascii.eqb c dquote then String c (String c (double_quotes s'))
      else String c (double_quotes s')
  end.

Definition csv_field (s : string) : string :=
  if has_char "," s || has_char dquote s || has_char (ascii_of_nat 10) s
     || has_char (ascii_of_nat 13) s
  then String dquote (double_quotes s ++ String dquote EmptyString)
  else s.

Definition csv_float (f : spec_float) : string :=
  match f with
  | S754_nan => EmptyString
  | _ => repr_float f
  end.

Definition csv_value (v : value) : string :=
  match v with
  | VNone => EmptyString
  | VFloat f => csv_float f
  | _ => csv_field (str_value v)
  end.

Definition csv_text (o : option string) : string :=
  match o with
  | Some s => csv_field s
  | None => EmptyString
  end.

Definition csv_line (df : DataFrame) (r : Row) : string :=
  String.concat ","
    ([csv_value (id r); csv_text (title r); csv_field (categories r);
      csv_text (abstract r); csv_text (doi r); csv_text (created r);
      csv_text (updated r); csv_field (authors r)]
       ++ (if has_score df then [csv_float (row_score r)] else [])
       ++ (if has_reasoning df then [csv_value (row_reasoning r)] else []))
  ++ nl.

Definition print_csv (df : DataFrame) : string :=
  header8 ++ (if has_score df then ",score" else EmptyString)
  ++ (if has_reasoning df then ",reasoning" else EmptyString) ++ nl
  ++ String.concat EmptyString (List.map (csv_line df) (rows df)).

#[export] Instance pandas : PandasLib :=
  {| pd_read_csv := read_sample sample_files;
     pd_to_csv := print_csv;
     pd_accepts := fun _ _ => true |}.


(** *** pathlib *)

(** [s] split at its last [c]. *)
Fixpoint rsplit (c : ascii) (s : string) : option (string * string) :=
  match s with
  | EmptyString => None
  | String x s' =>
      match rsplit c s' with
      | Some (a, b) => Some (String x a, b)
      | None => if Ascii.eqb x c then Some (EmptyString, s') else None
      end
  end.

(** The sibling [<stem>_evaluated<suffix>] of a relative POSIX path. *)
Definition sibling_evaluated (p : string) : string :=
  let '(dir, name) := match rsplit "/" p with
                      | Some (d, n) => (d ++ "/", n)
                      | None => (EmptyString, p)
                      end in
  let '(stem, suffix) := match rsplit "." name with
                         | Some (EmptyString, _) => (name, EmptyString)
                         | Some (_, EmptyString) => (name, EmptyString)
                         | Some (a, b) => (a, String "." b)
                         | None => (name, EmptyString)
                         end in
  dir ++ stem ++ "_evaluated" ++ suffix.

#[export] Instance pathlib : PathLib := {| evaluated_path := sibling_evaluated |}.

(** *** Patterns for the listing

    The stand-in compiles the patterns made of plain characters, [.],
    escaped punctuation, [\d], [\s], [\D] and [\S], each of which may be
    followed by [*], [+] or [?] and then by the [?] that makes it lazy.  A
    pattern that starts with a quantifier is the error Python reports
    (nothing to repeat).  Every other pattern is outside the stand-in,
    which says so. *)

Inductive parsed :=
| Parsed (r : regex)
| Malformed (msg : string)
| Outside.

Definition not_newline (c : ascii) : bool := negb (code c =? 10).

Definition is_quantifier (c : ascii) : bool := has_char c "*+?".

Definition is_meta (c : ascii) : bool :=
  has_char c ".^$*+?{}[]\|()".

Definition is_alnum (c : ascii) : bool :=
  let n := code c in
  is_digit c || ((65 <=? n) && (n <=? 90)) || ((97 <=? n) && (n <=? 122))
  || (128 <=? n).

(** One character class at the head of the pattern, and the rest. *)
Definition read_atom (p : string) : option ((ascii -> bool) * string) :=
  match p with
  | EmptyString => None
  | String c p' =>
      if Ascii.eqb c "." then Some (not_newline, p')
      else if Ascii.eqb c "\" then
        match p' with
        | String e p'' =>
            if Ascii.eqb e "d" then Some (is_digit, p'')
            else if Ascii.eqb e "s" then Some (is_space, p'')
            else if Ascii.eqb e "D" then Some (fun x => negb (is_digit x), p'')
            else if Ascii.eqb e "S" then Some (fun x => negb (is_space x), p'')
            else if is_alnum e then None
            else Some (is_char e, p'')
        | EmptyString => None
        end
      else if is_meta c then None
      else Some (is_char c, p')
  end.

(** The atom with the quantifier that follows it, if any. *)
Definition quantified (a : ascii -> bool) (p : string) : option (regex * string) :=
  match p with
  | String q p' =>
      if is_quantifier q then
        let '(lazy, rest) := match p' with
                             | String "?" r => (true, r)
                             | _ => (false, p')
                             end in
        match rest with
        | String q' _ => if is_quantifier q' then None else
            Some (if Ascii.eqb q "*" then (if lazy then LazyStar a else Star a)
                  else if Ascii.eqb q "+"
                       then (if lazy then Seq (Char a) (LazyStar a) else Plus a)
                       else Opt (Char a), rest)
        | EmptyString =>
            Some (if Ascii.eqb q "*" then (if lazy then LazyStar a else Star a)
                  else if Ascii.eqb q "+"
                       then (if lazy then Seq (Char a) (LazyStar a) else Plus a)
                       else Opt (Char a), rest)
        end
      else Some (Char a, p)
  | EmptyString => Some (Char a, p)
  end.

Fixpoint parse_items (fuel : nat) (p : string) : parsed :=
  match fuel with
  | O => Outside
  | S fuel' =>
      match p with
      | EmptyString => Parsed Empty
      | _ =>
          match read_atom p with
          | None => Outside
          | Some (a, p') =>
              match quantified a p' with
              | None => Outside
              | Some (r, rest) =>
                  match parse_items fuel' rest with
                  | Parsed r' => Parsed (Seq r r')
                  | other => other
                  end
              end
          end
      end
  end.

Definition parse_pattern (p : string) : parsed :=
  match p with
  | String c _ =>
      if is_quantifier c then Malformed "nothing to repeat at position 0"
      else parse_items (S (String.length p)) p
  | EmptyString => Parsed Empty
  end.

Definition compile_simple (p : string) : res (string -> bool) :=
  match parse_pattern p with
  | Parsed r => Ok (fun s => match Re.search r s with
                             | Some _ => true
                             | None => false
                             end)
  | Malformed msg => Raise (ReError msg)
  | Outside => Raise (NotImplementedError "pattern outside the stand-in")
  end.

#[export] Instance applib : AppLib :=
  {| re_compile := compile_simple; py_str := str_value |}.

(** *** Dates

    A date is its proleptic Gregorian ordinal, as [date.toordinal()]
    numbers it: day 1 is 0001-01-01. *)

Definition ordinal_of_civil (y m d : Z) : Z :=
  let y := if m <=? 2 then y - 1 else y in
  let era := y / 400 in
  let yoe := y - era * 400 in
  let doy := (153 * (if 2 <? m then m - 3 else m + 9) + 2) / 5 + d - 1 in
  let doe := yoe * 365 + yoe / 4 - yoe / 100 + doy in
  era * 146097 + doe - 305.

Definition civil_of_ordinal (n : Z) : Z * Z * Z :=
  let z := n + 305 in
  let era := z / 146097 in
  let doe := z - era * 146097 in
  let yoe := (doe - doe / 1460 + doe / 36524 - doe / 146096) / 365 in
  let y := yoe + era * 400 in
  let doy := doe - (365 * yoe + yoe / 4 - yoe / 100) in
  let mp := (5 * doy + 2) / 153 in
  let d := doy - (153 * mp + 2) / 5 + 1 in
  let m := if mp <? 10 then mp + 3 else mp - 9 in
  (if m <=? 2 then y + 1 else y, m, d).

Definition pad (width : nat) (z : Z) : string :=
  let t := pretty z in
  String.concat EmptyString (replicate (width - String.length t)%nat "0") ++ t.

(** [strftime('%Y-%m-%d')] *)
Definition iso_of_ordinal (n : Z) : string :=
  let '(y, m, d) := civil_of_ordinal n in
  pad 4 y ++ "-" ++ pad 2 m ++ "-" ++ pad 2 d.

(** A date written [YYYY-MM-DD]. *)
Definition ordinal_of_iso (s : string) : res Z :=
  let bad := Raise (ValueError ("Unknown string format: " ++ s)) in
  match plain_digits s 0 0 with
  | (y, 4%nat, String "-" r1) =>
      match plain_digits r1 0 0 with
      | (m, 2%nat, String "-" r2) =>
          match plain_digits r2 0 0 with
          | (d, 2%nat, EmptyString) =>
              if String.eqb (iso_of_ordinal (ordinal_of_civil y m d)) s
              then Ok (ordinal_of_civil y m d) else bad
          | _ => bad
          end
      | _ => bad
      end
  | _ => bad
  end.

(** A retrieval service that is down, and one that has nothing new. *)
Definition service_down : string -> string -> string -> res (list raw_paper) :=
  fun _ _ _ => Raise (ServiceError "503 Service Unavailable").

Definition nothing_new : string -> string -> string -> res (list raw_paper) :=
  fun _ _ _ => Ok [].

Definition one_paper : raw_paper :=
  {| raw_id := "2401.00004"; raw_title := "A paper";
     raw_categories := "cs.LG"; raw_abstract := "We build a system.";
     raw_doi := EmptyString; raw_created := "2024-01-02";
     raw_updated := EmptyString; raw_authors := "A. Author" |}.

(** A service that has one paper in [cs] and fails elsewhere. *)
Definition only_cs : string -> string -> string -> res (list raw_paper) :=
  fun category _ _ =>
    if String.eqb category "cs" then Ok [one_paper]
    else Raise (ServiceError "503 Service Unavailable").

(** A machine on which an earlier run left a snapshot and the watermark
    2026-10-24. *)
Definition earlier_run : world :=
  {| fs := <[LAST_UPDATE_FILE := Text "2026-10-24"]>
             (<[CSV_FILE := Csv [one_paper]]>
                (<[RESULTS_FOLDER := Directory]> ∅));
     trace := [] |}.

(** The libraries of a run whose retrieval client behaves as [client]. *)
Definition mainlib (client : string -> string -> string -> res (list raw_paper))
  : MainLib :=
  {| parse_date := ordinal_of_iso;
     strftime := iso_of_ordinal;
     scrape := client |}.

End Ref.

(** ** app.py: one paper, the statistics, the categories, the loader *)

Module Catalog.
Import Py Evaluator App.

(** What an endpoint answers: a value, or the 404 it raises with its
    detail. *)
Inductive answer (A : Type) :=
| Found (a : A)
| NotFound (detail : string).
Arguments Found {A} a.
Arguments NotFound {A} detail.

(** [df['id'] == paper_id] on one row: a text cell is compared with the
    text asked for; a number is equal to no text. *)
Definition id_is (paper_id : string) (r : Row) : bool :=
  match id r with
  | VStr s => String.eqb s paper_id
  | _ => false
  end.

(** [get_paper], on the frame [load_papers_df()] returned:
    [df[df['id'] == paper_id]] and then [iloc[0]]. *)
Definition get_paper `{AppLib} (df : DataFrame) (paper_id : string)
  : answer Paper :=
  match rows df with
  | [] => NotFound "No papers found"
  | _ =>
      match List.filter (id_is paper_id) (rows df) with
      | [] => NotFound "Paper not found"
      | row :: _ => Found (to_paper df row)
      end
  end.

(** [s.split()]: the maximal runs of characters that are not whitespace;
    [cur] is the run being read. *)
Fixpoint split_from (s : string) (cur : string) : list string :=
  match s with
  | EmptyString =>
      match cur with
      | EmptyString => []
      | _ => [cur]
      end
  | String c s' =>
      if is_space c then
        match cur with
        | EmptyString => split_from s' EmptyString
        | _ => cur :: split_from s' EmptyString
        end
      else split_from s' (cur ++ String c EmptyString)
  end.

Definition split_ws (s : string) : list string := split_from s EmptyString.

(** [cat.split('.')[0]]: what stands before the first point. *)
Fixpoint before_dot (s : string) : string :=
  match s with
  | EmptyString => EmptyString
  | String c s' =>
      if Ascii.eqb c "." then EmptyString else String c (before_dot s')
  end.

(** [categories[cat_main] = categories.get(cat_main, 0) + 1] *)
Definition tally (m : gmap string nat) (k : string) : gmap string nat :=
  <[k := (default 0 (m !! k) + 1)%nat]> m.

(** The two nested loops of lines 250-254. *)
Definition count_categories (rs : list Row) : gmap string nat :=
  fold_left
    (fun m r =>
       fold_left (fun m cat => tally m (before_dot cat))
                 (split_ws (categories r)) m)
    rs ∅.

(** [df['score'] > 0] on one row. *)
Definition evaluated (r : Row) : bool :=
  match float_cmp_Z (row_score r) 0 with
  | Some Gt => true
  | _ => false
  end.

(** [(score >= i) & (score < i + 1)] on one row. *)
Definition in_bucket (i : Z) (r : Row) : bool :=
  is_ge (float_cmp_Z (row_score r) i) && is_lt (float_cmp_Z (row_score r) (i + 1)).

(** [str(i)] for an integer. *)
Definition str_of_int (i : Z) : string := pretty i.

(** [round(series.mean(), 2)], computed by pandas. *)
Class StatsLib := { mean_round2 : list spec_float -> spec_float }.

(** The [StatsResponse] model; the score distribution keeps the order in
    which its keys were set. *)
Record StatsResponse := {
  total_papers : nat;
  evaluated_papers : nat;
  average_score : option spec_float;
  stat_categories : gmap string nat;
  score_distribution : list (string * nat);
  last_scrape : option string
}.

(** [get_stats], on the loaded frame and on the text of [last_update.txt]
    when the file exists. *)
Definition get_stats `{StatsLib} (df : DataFrame) (last_update : option string)
  : StatsResponse :=
  match rows df with
  | [] => {| total_papers := 0; evaluated_papers := 0; average_score := None;
             stat_categories := ∅; score_distribution := [];
             last_scrape := None |}
  | _ =>
      let evaluated_df :=
        if has_score df then List.filter evaluated (rows df) else [] in
      let evaluated_count := List.length evaluated_df in
      {| total_papers := List.length (rows df);
         evaluated_papers := evaluated_count;
         average_score :=
           match evaluated_count with
           | O => None
           | S _ => Some (mean_round2 (row_score <$> evaluated_df))
           end;
         stat_categories := count_categories (rows df);
         score_distribution :=
           match evaluated_count with
           | O => []
           | S _ =>
               (fun i => (str_of_int i,
                          List.length (List.filter (in_bucket i) evaluated_df)))
                 <$> seqZ 1 10
           end;
         last_scrape := strip <$> last_update |}
  end.

(** Every tag of every row, in row order. *)
Definition all_tags (rs : list Row) : list string :=
  List.concat ((fun r => split_ws (categories r)) <$> rs).

(** [sorted(..)] on strings. *)
Fixpoint insert_str (x : string) (l : list string) : list string :=
  match l with
  | [] => [x]
  | y :: l' => if String.ltb y x then y :: insert_str x l' else x :: l
  end.

Fixpoint sorted (l : list string) : list string :=
  match l with
  | [] => []
  | x :: l' => insert_str x (sorted l')
  end.

(** [get_categories]: the set of tags, listed in order. *)
Definition get_categories (df : DataFrame) : list string :=
  match rows df with
  | [] => []
  | _ => sorted (elements (list_to_set (all_tags (rows df)) : gset string))
  end.

(** *** The loader

    The results folder as [glob] sees it: its entries by name, each with
    its modification time, in directory order; [None] when the folder does
    not exist. *)
Definition folder := option (list (string * Z)).

(** A name the pattern [*.csv] matches. *)
Definition ends_with_csv (name : string) : bool :=
  String.eqb (String.substring (String.length name - 4) 4 name) ".csv".

(** [results_path.glob('*.csv')], as paths with their times. *)
Definition glob_csv (dir : folder) : list (string * Z) :=
  match dir with
  | None => []
  | Some entries =>
      (fun e => (Main.path_join "results" e.1, e.2))
        <$> List.filter (fun e => ends_with_csv e.1) entries
  end.

(** [sorted(.., key=mtime, reverse=True)]: newest first, equal times in
    their own order. *)
Fixpoint insert_newest (x : string * Z) (l : list (string * Z))
  : list (string * Z) :=
  match l with
  | [] => [x]
  | y :: l' => if x.2 <? y.2 then y :: insert_newest x l' else x :: l
  end.

Fixpoint newest_first (l : list (string * Z)) : list (string * Z) :=
  match l with
  | [] => []
  | x :: l' => insert_newest x (newest_first l')
  end.

Definition get_csv_files (dir : folder) : list (string * Z) :=
  match dir with
  | None => []
  | Some _ => newest_first (glob_csv dir)
  end.

Definition EVALUATED_FILE : string := "results/arxiv_papers_evaluated.csv".
Definition BASE_FILE : string := "results/arxiv_papers.csv".

(** [pd.DataFrame()] *)
Definition empty_frame : DataFrame :=
  {| has_score := false; has_reasoning := false; rows := [] |}.

Definition read_csv `{PandasLib} (tables : files) (path : string)
  : res DataFrame :=
  match tables !! path with
  | Some text => pd_read_csv text
  | None => Raise (OSError ("No such file or directory: " ++ repr path))
  end.

Definition file_exists (tables : files) (path : string) : bool :=
  match tables !! path with
  | Some _ => true
  | None => false
  end.

(** [load_papers_df(evaluated_only)] *)
Definition load_papers_df `{PandasLib} (tables : files) (dir : folder)
           (evaluated_only : bool) : res DataFrame :=
  let csv_files := get_csv_files dir in
  match csv_files with
  | [] => Ok empty_frame
  | first :: _ =>
      if evaluated_only && file_exists tables EVALUATED_FILE
      then read_csv tables EVALUATED_FILE
      else if file_exists tables EVALUATED_FILE
      then read_csv tables EVALUATED_FILE
      else if file_exists tables BASE_FILE
      then read_csv tables BASE_FILE
      else read_csv tables first.1
  end.

End Catalog.

(** ** app.py: the background jobs and their status *)

Module Tasks.
Import Py.

(** The global [task_status] dictionary with its two keys. *)
Record task_status := {
  scraper : option string;
  evaluator : option string
}.


(** What [subprocess.run] yields: a finished process, or an exception such
    as the timeout. *)
Inductive outcome :=
| Exited (returncode : Z) (stderr : string)
| Raised (e : exn).

(** The status a job leaves when its process is over. *)
Definition final_status (o : outcome) : string :=
  match o with
  | Exited rc err => if rc =? 0 then "completed" else "failed: " ++ err
  | Raised e => "error: " ++ str_of_exn e
  end.

(** [run_scraper] writes the dictionary twice: before the process starts
    and after it is over.  Other writers may act in between. *)
Definition scraper_started (st : task_status) : task_status :=
  {| scraper := Some "running"; evaluator := evaluator st |}.

Definition scraper_finished (o : outcome) (st : task_status) : task_status :=
  {| scraper := Some (final_status o); evaluator := evaluator st |}.

Definition evaluator_started (st : task_status) : task_status :=
  {| scraper := scraper st; evaluator := Some "running" |}.

Definition evaluator_finished (o : outcome) (st : task_status) : task_status :=
  {| scraper := scraper st; evaluator := Some (final_status o) |}.

(** A job run from start to end with nothing in between. *)
Definition run_scraper (o : outcome) (st : task_status) : task_status :=
  scraper_finished o (scraper_started st).

Definition run_evaluator (o : outcome) (st : task_status) : task_status :=
  evaluator_finished o (evaluator_started st).

(** The jobs handed to [background_tasks], which run after the response. *)
Inductive job :=
| RunScraper
| RunEvaluator (num_rows : string).

(** The [TaskStatus] model. *)
Record TaskStatus := { status : string; message : string }.

Definition is_running (o : option string) : bool :=
  match o with
  | Some s => String.eqb s "running"
  | None => false
  end.

(** [POST /api/scrape] *)
Definition trigger_scrape (st : task_status) (queue : list job)
  : TaskStatus * list job :=
  if is_running (scraper st)
  then ({| status := "running"; message := "Scraper is already running" |},
        queue)
  else ({| status := "started"; message := "Scraper started in background" |},
        (queue ++ [RunScraper])%list).

(** [POST /api/evaluate]; [None] when [num_rows] is outside [1, 1000] and
    the request is refused before the handler runs. *)
Definition trigger_evaluate (st : task_status) (queue : list job) (num_rows : Z)
  : option (TaskStatus * list job) :=
  if (1 <=? num_rows) && (num_rows <=? 1000) then
    Some
      (if is_running (evaluator st)
       then ({| status := "running";
                message := "Evaluator is already running" |}, queue)
       else ({| status := "started";
                message := "Evaluator started for "
                             ++ Catalog.str_of_int num_rows ++ " papers" |},
             (queue ++ [RunEvaluator (Catalog.str_of_int num_rows)])%list))
  else None.

(** [GET /api/task-status] *)
Definition get_task_status (st : task_status) : option string * option string :=
  (scraper st, evaluator st).

End Tasks.

(** ** evaluator.py: the command line *)

Module Cli.
Import Py Evaluator.




(** [max(csv_files, key=mtime)]: the first of the most recent ones. *)
Definition newer (best x : string * Z) : string * Z :=
  if best.2 <? x.2 then x else best.

(** [get_latest_csv('results')] *)
Definition get_latest_csv (dir : Catalog.folder) : option string :=
  match Catalog.glob_csv dir with
  | [] => None
  | first :: others => Some (fold_left newer others first).1
  end.


End Cli.

(** ** Notions the statements use *)

Module Notions.
Import Py Evaluator App Catalog.

(** A score as the scoring engine stores it: 0, or within [1, 10]. *)
Definition engine_score (f : spec_float) : Prop :=
  float_cmp_Z f 0 = Some Eq
  \/ (is_ge (float_cmp_Z f 1) = true /\ is_le (float_cmp_Z f 10) = true).

Definition ind (b : bool) : nat := if b then 1%nat else 0%nat.

(** [1 <= score < 11] on one row. *)
Definition in_buckets (r : Row) : bool :=
  is_ge (float_cmp_Z (row_score r) 1) && is_lt (float_cmp_Z (row_score r) 11).

(** Every reasoning the replies lead to is one the reasoning column
    takes. *)
Definition stores `{JsonLib} `{PandasLib} (c : client) (text_column : bool)
  : Prop :=
  forall n a, accepts text_column (reasoning (evaluate_abstract a (c n))) = true.

(** Tactics for the comparisons of a float with integers. *)
Ltac cmp_cases :=
  repeat match goal with
         | H : context [Z.compare ?a ?b] |- _ => destruct (Z.compare_spec a b)
         | |- context [Z.compare ?a ?b] => destruct (Z.compare_spec a b)
         end.

(** Unfold the comparisons of a float [f] with integer constants and
    settle what is left by arithmetic. *)
Ltac float_cases f :=
  destruct f as [sz|si| |sf m e];
  unfold num_lt, num_le, num_cmp, float_cmp_Z in *; cbn [option_map] in *;
  [ | destruct si | |
    destruct (0 <=? e)%Z eqn:?;
    [ pose proof (Z.pow_pos_nonneg 2 e ltac:(lia) ltac:(lia));
      generalize dependent (2 ^ e)%Z
    | pose proof (Z.pow_pos_nonneg 2 (- e) ltac:(lia) ltac:(lia));
      generalize dependent (2 ^ (- e))%Z ];
    intros; generalize dependent (signed sf m); intros ];
  cmp_cases; cbn in *; try discriminate; try reflexivity; try lia; try nia.

End Notions.

(** ** Sample requests *)

Module Samples.
Import App.

(** The first page of twenty for a search text. *)
Definition search_for (s : string) : query :=
  {| page := 1; per_page := 20; search := Some s; category := None;
     min_score := None; max_score := None;
     sort_by := by_created; sort_order := desc |}.


End Samples.

(** * Properties *)

Import Py Re Evaluator.
Local Open Scope list_scope.

(** ** The scoring engine: [evaluate_abstract] *)

Section ScoreRange.
Context `{JsonLib}.

Lemma is_lt_le c : is_lt c = true -> is_le c = true.
Proof. destruct c as [[]|]; simpl; congruence. Qed.

Lemma num_lt_le a b : num_lt a b = true -> num_le a b = true.
Proof. apply is_lt_le. Qed.

(** The clamp lands in [1, 10] whatever number it is given, NaN and the
    infinities included. *)
Lemma clamp_range n :
  num_le (PyInt 1) (clamp n) = true /\ num_le (clamp n) (PyInt 10) = true.
Proof.
  unfold clamp, py_min.
  destruct (num_lt n (PyInt 10)) eqn:Hhi; unfold py_max.
  - destruct (num_lt (PyInt 1) n) eqn:Hlo.
    + split; now apply num_lt_le.
    + split; reflexivity.
  - split; reflexivity.
Qed.

Lemma parse_json_range text a :
  parse_json text = Ok a ->
  num_le (PyInt 1) (score a) = true /\ num_le (score a) (PyInt 10) = true.
Proof.
  unfold parse_json. destruct (json_loads text) as [result|e]; simpl; [|discriminate].
  destruct (dict_get result "score" (VInt 0)) as [v|e]; simpl; [|discriminate].
  destruct (py_float v) as [f|e]; simpl; [|discriminate].
  destruct (dict_get result "reasoning" _) as [r|e]; simpl; [|discriminate].
  intros [= <-]. apply clamp_range.
Qed.

Lemma parse_fallback_range text a :
  parse_fallback text = Ok a ->
  num_le (PyInt 1) (score a) = true /\ num_le (score a) (PyInt 10) = true.
Proof.
  unfold parse_fallback.
  destruct (search score_re text) as [m|]; simpl.
  - destruct (py_float (group m)) as [f|e]; simpl; [|discriminate].
    intros [= <-]. apply clamp_range.
  - intros [= <-]. apply clamp_range.
Qed.

Lemma evaluate_body_range reply a :
  evaluate_body reply = Ok a ->
  num_le (PyInt 1) (score a) = true /\ num_le (score a) (PyInt 10) = true.
Proof.
  unfold evaluate_body. destruct reply as [content|e]; simpl; [|discriminate].
  destruct (parse_json (strip content)) as [b|e] eqn:Hj.
  - intros [= <-]. now apply parse_json_range with (text := strip content).
  - destruct e; try discriminate. apply parse_fallback_range.
Qed.

(** C1: whatever the completion call yields for the abstract (a reply that
    decodes, a reply that does not, or an exception), the score of the
    annotation [evaluate_abstract] returns is the integer 0 or a number
    between 1 and 10, bounds included. *)
Theorem evaluate_abstract_score_range (abstract : string)
        (call : string -> res string) :
  score (evaluate_abstract abstract call) = PyInt 0
  \/ (num_le (PyInt 1) (score (evaluate_abstract abstract call)) = true
      /\ num_le (score (evaluate_abstract abstract call)) (PyInt 10) = true).
Proof.
  unfold evaluate_abstract, evaluate_reply.
  destruct (evaluate_body (call abstract)) as [a|e] eqn:Hb.
  - right. now apply evaluate_body_range with (reply := call abstract).
  - left. reflexivity.
Qed.
End ScoreRange.

(** A reply whose score is 13 is stored as 10; a reply that decodes to a
    list, or whose score is [null], takes the error branch. *)
Example clamp_above :
  @evaluate_reply Ref.json (Ok (Ref.qq "{`score`: 13, `reasoning`: `x`}"))
  = {| score := PyInt 10; reasoning := VStr "x" |}.
Proof. vm_compute. reflexivity. Qed.

Example reply_is_a_list :
  @evaluate_reply Ref.json (Ok "[7]")
  = {| score := PyInt 0;
       reasoning := VStr "Error: 'list' object has no attribute 'get'" |}.
Proof. vm_compute. reflexivity. Qed.

Example score_in_words :
  score (@evaluate_reply Ref.json (Ok (Ref.qq "{`score`: `high`}"))) = PyInt 0.
Proof. vm_compute. reflexivity. Qed.

Example call_raises :
  @evaluate_reply Ref.json (Raise (ServiceError "Request timed out."))
  = {| score := PyInt 0; reasoning := VStr "Error: Request timed out." |}.
Proof. reflexivity. Qed.

(** ** The matcher finds only what the pattern describes *)

Local Open Scope string_scope.

Lemma append_cons c (a b : string) : String c a ++ b = String c (a ++ b).
Proof. reflexivity. Qed.

Lemma append_nil (b : string) : EmptyString ++ b = b.
Proof. reflexivity. Qed.

Lemma string_app_assoc (a b c : string) : (a ++ b) ++ c = a ++ (b ++ c).
Proof.
  induction a as [|x a IH]; [reflexivity|].
  rewrite !append_cons. f_equal. exact IH.
Qed.

Lemma string_app_nil_r (a : string) : a ++ EmptyString = a.
Proof.
  induction a as [|x a IH]; [reflexivity|].
  rewrite append_cons. f_equal. exact IH.
Qed.

Lemma length_string_app (a b : string) :
  String.length (a ++ b) = (String.length a + String.length b)%nat.
Proof.
  induction a as [|x a IH]; [reflexivity|].
  rewrite append_cons. cbn [String.length Nat.add]. f_equal. exact IH.
Qed.

Lemma substring_prefix (a b : string) :
  String.substring 0 (String.length a) (a ++ b) = a.
Proof.
  induction a as [|x a IH]; [now destruct b|].
  rewrite append_cons. cbn [String.length String.substring]. f_equal. exact IH.
Qed.

Lemma consumed_app (pre rest : string) : consumed (pre ++ rest) rest = pre.
Proof.
  unfold consumed. rewrite length_string_app.
  replace (String.length pre + String.length rest - String.length rest)%nat
    with (String.length pre) by lia.
  apply substring_prefix.
Qed.

Section Sound.
Context {A : Type}.

Lemma star_greedy_sound p s (k : string -> option A) a :
  star_greedy p s k = Some a ->
  exists pre rest, s = pre ++ rest /\ all_chars p pre = true /\ k rest = Some a.
Proof.
  induction s as [|c s IH]; simpl.
  - intros Hk. now exists EmptyString, EmptyString.
  - destruct (p c) eqn:Hc.
    + destruct (star_greedy p s k) as [b|] eqn:Hs.
      * intros [= ->]. destruct (IH eq_refl) as (pre & rest & -> & Hp & Hk).
        exists (String c pre), rest. simpl. now rewrite Hc, Hp.
      * intros Hk. now exists EmptyString, (String c s).
    + intros Hk. now exists EmptyString, (String c s).
Qed.

Lemma star_lazy_sound p s (k : string -> option A) a :
  star_lazy p s k = Some a ->
  exists pre rest, s = pre ++ rest /\ all_chars p pre = true /\ k rest = Some a.
Proof.
  induction s as [|c s IH]; simpl.
  - destruct (k EmptyString) eqn:Hk; [|discriminate].
    intros [= ->]. now exists EmptyString, EmptyString.
  - destruct (k (String c s)) eqn:Hk.
    + intros [= ->]. now exists EmptyString, (String c s).
    + destruct (p c) eqn:Hc; [|discriminate].
      intros Hs. destruct (IH Hs) as (pre & rest & -> & Hp & Hk').
      exists (String c pre), rest. simpl. now rewrite Hc, Hp.
Qed.

(** A successful run of the matcher over a pattern without groups
    consumed a text of the pattern and went on with the capture
    unchanged. *)
Lemma bt_sound r :
  no_group r = true ->
  forall s g (k : string -> option string -> option A) a,
    bt r s g k = Some a ->
    exists pre rest, s = pre ++ rest /\ matches r pre /\ k rest g = Some a.
Proof.
  induction r as [|p|r1 IH1 r2 IH2|r1 IH1|p|p|p|r1 IH1]; simpl; intros Hng s g k a.
  - intros Hk. exists EmptyString, s. repeat split; [constructor|exact Hk].
  - destruct s as [|c s]; [discriminate|].
    destruct (p c) eqn:Hc; [|discriminate].
    intros Hk. exists (String c EmptyString), s.
    repeat split; [now constructor|exact Hk].
  - apply andb_true_iff in Hng as [Hn1 Hn2]. intros Hb.
    destruct (IH1 Hn1 _ _ _ _ Hb) as (p1 & rest1 & -> & Hm1 & Hb2).
    destruct (IH2 Hn2 _ _ _ _ Hb2) as (p2 & rest2 & -> & Hm2 & Hk).
    exists (p1 ++ p2), rest2. rewrite string_app_assoc.
    repeat split; [now constructor|exact Hk].
  - destruct (bt r1 s g k) as [b|] eqn:Hb.
    + intros [= ->].
      destruct (IH1 Hng _ _ _ _ Hb) as (pre & rest & -> & Hm & Hk).
      exists pre, rest. repeat split; [now apply matches_opt_some|exact Hk].
    + intros Hk. exists EmptyString, s.
      repeat split; [apply matches_opt_none|exact Hk].
  - intros Hb. apply star_greedy_sound in Hb as (pre & rest & -> & Hp & Hk).
    exists pre, rest. repeat split; [now constructor|exact Hk].
  - destruct s as [|c s]; [discriminate|].
    destruct (p c) eqn:Hc; [|discriminate].
    intros Hb. apply star_greedy_sound in Hb as (pre & rest & -> & Hp & Hk).
    exists (String c pre), rest. repeat split; [now constructor|exact Hk].
  - intros Hb. apply star_lazy_sound in Hb as (pre & rest & -> & Hp & Hk).
    exists pre, rest. repeat split; [now constructor|exact Hk].
  - discriminate.
Qed.

Lemma bt_seq_sound r1 r2 :
  no_group r1 = true ->
  forall s g (k : string -> option string -> option A) a,
    bt (Seq r1 r2) s g k = Some a ->
    exists pre rest, s = pre ++ rest /\ matches r1 pre
                     /\ bt r2 rest g k = Some a.
Proof. intros Hng s g k a Hb. simpl in Hb. now apply (bt_sound r1 Hng) in Hb. Qed.

(** A successful run over a group captured a text of its pattern. *)
Lemma bt_group_sound r :
  no_group r = true ->
  forall s g (k : string -> option string -> option A) a,
    bt (Group r) s g k = Some a ->
    exists pre rest, s = pre ++ rest /\ matches r pre
                     /\ k rest (Some pre) = Some a.
Proof.
  intros Hng s g k a Hb. simpl in Hb.
  apply (bt_sound r Hng) in Hb as (pre & rest & -> & Hm & Hk).
  rewrite consumed_app in Hk. now exists pre, rest.
Qed.
End Sound.

Lemma search_match_at r s m :
  search r s = Some m -> exists s', match_at r s' = Some m.
Proof.
  induction s as [|c s IH]; simpl.
  - destruct (match_at r EmptyString) eqn:E; [|discriminate].
    intros [= ->]. now exists EmptyString.
  - destruct (match_at r (String c s)) eqn:E.
    + intros [= ->]. now exists (String c s).
    + exact IH.
Qed.

(** What group 1 of the score pattern captures: digits, or digits, a point
    and digits. *)
Lemma score_capture text m :
  search score_re text = Some m ->
  exists c ds tail,
    group1 m = Some (String c ds ++ tail)
    /\ is_digit c = true /\ all_chars is_digit ds = true
    /\ (tail = EmptyString
        \/ exists c' ds', tail = String "." (String c' ds')
                          /\ is_digit c' = true
                          /\ all_chars is_digit ds' = true).
Proof.
  intros Hs. apply search_match_at in Hs as (s & Hm).
  unfold match_at, score_re in Hm.
  apply bt_seq_sound in Hm as (p1 & s1 & _ & _ & Hm); [|reflexivity].
  apply bt_seq_sound in Hm as (p2 & s2 & _ & _ & Hm); [|reflexivity].
  apply bt_seq_sound in Hm as (p3 & s3 & _ & _ & Hm); [|reflexivity].
  apply bt_seq_sound in Hm as (p4 & s4 & _ & _ & Hm); [|reflexivity].
  apply bt_seq_sound in Hm as (p5 & s5 & _ & _ & Hm); [|reflexivity].
  apply bt_group_sound in Hm as (pre & rest & _ & Hg & Hm); [|reflexivity].
  injection Hm as <-. cbn [group1].
  inversion Hg as [| |r1 r2 a b Ha Hb| | | | | |]; subst.
  inversion Ha as [| | | | | |p c ds Hc Hds| |]; subst.
  exists c, ds, b. repeat split; auto.
  inversion Hb as [| | |r t Ht|r| | | |]; subst.
  - right. inversion Ht as [| |r1 r2 x y Hx Hy| | | | | |]; subst.
    inversion Hx as [|p d Hd| | | | | | |]; subst.
    inversion Hy as [| | | | | |p c' ds' Hc' Hds'| |]; subst.
    unfold is_char in Hd. apply Ascii.eqb_eq in Hd. subst d.
    exists c', ds'. auto.
  - now left.
Qed.

(** *** [float] accepts what the score pattern captures *)

Lemma digit_run_digits ds rest acc n :
  all_chars is_digit ds = true -> stops rest ->
  exists v, digit_run (ds ++ rest) acc n = (v, (n + String.length ds)%nat, rest).
Proof.
  revert acc n. induction ds as [|c ds IH]; intros acc n Hds Hst.
  - rewrite append_nil. cbn [String.length]. rewrite Nat.add_0_r.
    destruct rest as [|c r]; [now exists acc|].
    destruct Hst as [Hd Hu]. cbn [digit_run]. rewrite Hd, Hu. cbn [andb].
    exists acc. destruct n; [reflexivity|]. now destruct r.
  - cbn [all_chars] in Hds. apply andb_true_iff in Hds as [Hc Hds].
    rewrite append_cons. cbn [digit_run]. rewrite Hc.
    destruct (IH (10 * acc + digit_val c) (S n) Hds Hst) as [v Hv].
    exists v. rewrite Hv. cbn [String.length]. do 2 f_equal. lia.
Qed.

Lemma digit_facts c :
  is_digit c = true ->
  is_space c = false /\ Ascii.eqb c "-" = false /\ Ascii.eqb c "+" = false
  /\ lower_char c = c /\ Ascii.eqb c "i" = false /\ Ascii.eqb c "n" = false.
Proof.
  destruct c as [[] [] [] [] [] [] [] []]; vm_compute; intros;
    try discriminate; repeat split.
Qed.

Lemma digits_no_space ds :
  all_chars is_digit ds = true ->
  all_chars (fun c => negb (is_space c)) ds = true.
Proof.
  induction ds as [|c ds IH]; simpl; [reflexivity|].
  intros H. apply andb_true_iff in H as [Hc Hds].
  destruct (digit_facts c Hc) as (-> & _). simpl. now apply IH.
Qed.

Lemma all_chars_app p a b :
  all_chars p (a ++ b) = all_chars p a && all_chars p b.
Proof.
  induction a as [|c a IH]; simpl; [reflexivity|].
  now rewrite IH, andb_assoc.
Qed.

Lemma rstrip_no_space s :
  all_chars (fun c => negb (is_space c)) s = true -> rstrip s = s.
Proof.
  induction s as [|c s IH]; simpl; [reflexivity|].
  intros H. apply andb_true_iff in H as [Hc Hs]. rewrite (IH Hs).
  destruct s; [|reflexivity].
  now destruct (is_space c).
Qed.

(** [float] returns on every text the score pattern can capture. *)
Lemma float_of_capture c ds tail :
  is_digit c = true -> all_chars is_digit ds = true ->
  (tail = EmptyString
   \/ exists c' ds', tail = String "." (String c' ds')
                     /\ is_digit c' = true /\ all_chars is_digit ds' = true) ->
  exists f, float_of_str (String c ds ++ tail) = Ok f.
Proof.
  intros Hc Hds Htail.
  destruct (digit_facts c Hc) as (Hsp & Hminus & Hplus & Hlow & Hi & Hn).
  assert (Hns : all_chars (fun x => negb (is_space x)) (String c ds ++ tail) = true).
  { rewrite all_chars_app. cbn [all_chars]. rewrite Hsp. simpl.
    rewrite (digits_no_space ds Hds). simpl.
    destruct Htail as [->|(c' & ds' & -> & Hc' & Hds')]; [reflexivity|].
    cbn [all_chars]. destruct (digit_facts c' Hc') as (-> & _).
    simpl. apply (digits_no_space ds' Hds'). }
  unfold float_of_str, strip.
  assert (Hl : lstrip (String c ds ++ tail) = String c ds ++ tail)
    by (rewrite append_cons; cbn [lstrip]; now rewrite Hsp).
  rewrite Hl, (rstrip_no_space _ Hns).
  rewrite append_cons. unfold read_sign. rewrite Hminus, Hplus.
  cbn [lower]. rewrite Hlow. cbn [String.eqb]. rewrite Hi, Hn. cbn [andb orb].
  unfold read_mantissa. rewrite <- append_cons.
  destruct Htail as [->|(c' & ds' & -> & Hc' & Hds')].
  - destruct (digit_run_digits (String c ds) EmptyString 0 0) as [v Hv];
      [cbn [all_chars]; now rewrite Hc, Hds | exact I |].
    rewrite Hv. cbn [String.length Nat.add read_exponent].
    eexists. reflexivity.
  - destruct (digit_run_digits (String c ds) (String "." (String c' ds')) 0 0)
      as [v Hv]; [cbn [all_chars]; now rewrite Hc, Hds | split; reflexivity |].
    rewrite Hv. cbn [String.length Nat.add].
    change (Ascii.eqb "." ".") with true. cbv iota.
    destruct (digit_run_digits (String c' ds') EmptyString v 0) as [w Hw];
      [cbn [all_chars]; now rewrite Hc', Hds' | exact I |].
    rewrite string_app_nil_r in Hw. rewrite Hw.
    cbn [String.length Nat.add read_exponent].
    eexists. reflexivity.
Qed.

(** The fallback path never raises. *)
Lemma parse_fallback_total text : exists a, parse_fallback text = Ok a.
Proof.
  unfold parse_fallback.
  destruct (search score_re text) as [m|] eqn:Hs.
  - destruct (score_capture text m Hs) as (c & ds & tail & Hg & Hc & Hds & Ht).
    destruct (float_of_capture c ds tail Hc Hds Ht) as [f Hf].
    unfold group. rewrite Hg. cbn [py_float]. rewrite Hf. simpl.
    eexists. reflexivity.
  - simpl. eexists. reflexivity.
Qed.

Local Open Scope list_scope.

(** ** The fallback parse path *)

Section Fallback.
Context `{JsonLib}.

(** When the decoder raises [JSONDecodeError], the annotation is the one
    the fallback path computes. *)
Lemma evaluate_reply_fallback content msg a :
  json_loads (strip content) = Raise (JSONDecodeError msg) ->
  parse_fallback (strip content) = Ok a ->
  evaluate_reply (Ok content) = a.
Proof.
  intros Hj Hf. unfold evaluate_reply, evaluate_body, parse_json. simpl.
  rewrite Hj. simpl. now rewrite Hf.
Qed.

(** C9: when the reply is the text
    [I'd say score: 7, reasoning: 'Strong market fit'], which the decoder
    rejects, the fallback path gives the score 7 (the float 7.0, equal to
    the integer 7) and the reasoning [Strong market fit]. *)
Theorem fallback_scenario (abstract : string) (call : string -> res string)
        (msg : string) :
  call abstract = Ok "I'd say score: 7, reasoning: 'Strong market fit'" ->
  json_loads "I'd say score: 7, reasoning: 'Strong market fit'"
    = Raise (JSONDecodeError msg) ->
  evaluate_abstract abstract call
    = {| score := PyFloat (S754_finite false 7881299347898368 (-50));
         reasoning := VStr "Strong market fit" |}
  /\ num_cmp (score (evaluate_abstract abstract call)) (PyInt 7) = Some Eq.
Proof.
  intros Hc Hj. unfold evaluate_abstract. rewrite Hc.
  rewrite (evaluate_reply_fallback _ msg
             {| score := PyFloat (S754_finite false 7881299347898368 (-50));
                reasoning := VStr "Strong market fit" |}).
  - split; reflexivity.
  - exact Hj.
  - vm_compute. reflexivity.
Qed.
End Fallback.

(** Without a match for the score pattern the fallback path starts from 0
    and clamps it: the score it returns is 1. *)
Lemma fallback_no_score (text : string) :
  search score_re text = None ->
  exists a, parse_fallback text = Ok a /\ score a = PyInt 1.
Proof.
  intros Hs. unfold parse_fallback. rewrite Hs. simpl.
  eexists. split; reflexivity.
Qed.

(** Without a match for the reasoning pattern the reasoning is the
    placeholder. *)
Lemma fallback_no_reasoning (text : string) (a : annotation) :
  search reasoning_re text = None ->
  parse_fallback text = Ok a ->
  reasoning a = VStr "Unable to parse reasoning".
Proof.
  intros Hr. unfold parse_fallback. rewrite Hr.
  destruct (search score_re text) as [m|]; simpl.
  - destruct (py_float (group m)); simpl; [|discriminate]. now intros [= <-].
  - now intros [= <-].
Qed.

Section FallbackDefaults.
Context `{JsonLib}.

(** What the fallback path leaves when a pattern finds nothing: without a
    match for the score pattern the score is 1 (the default 0 of line 75,
    clamped by line 76), and without a match for the reasoning pattern the
    reasoning is the placeholder. *)
Lemma fallback_path_defaults (abstract : string) (call : string -> res string)
      (content msg : string) :
  call abstract = Ok content ->
  json_loads (strip content) = Raise (JSONDecodeError msg) ->
  (search score_re (strip content) = None ->
   score (evaluate_abstract abstract call) = PyInt 1)
  /\ (search reasoning_re (strip content) = None ->
      reasoning (evaluate_abstract abstract call)
      = VStr "Unable to parse reasoning").
Proof.
  intros Hc Hj. unfold evaluate_abstract. rewrite Hc.
  destruct (parse_fallback_total (strip content)) as [a Ha].
  rewrite (evaluate_reply_fallback content msg a Hj Ha).
  split.
  - intros Hs. destruct (fallback_no_score _ Hs) as (b & Hb & Hone).
    rewrite Ha in Hb. now injection Hb as ->.
  - intros Hr. now apply (fallback_no_reasoning (strip content)).
Qed.
End FallbackDefaults.

(** C4: the reply [The idea is sound.] does not decode and nothing in it
    follows a score label or a reasoning label.  The reasoning of the
    annotation is the placeholder, as claimed; its score is 1 and not the 0
    that line 75 sets, because line 76 clamps that default as well. *)
Lemma fallback_default_score_is_one :
  json_loads (JsonLib := Ref.json) (strip "The idea is sound.")
  = Raise (JSONDecodeError "Expecting value")
  /\ search score_re (strip "The idea is sound.") = None
  /\ search reasoning_re (strip "The idea is sound.") = None
  /\ @evaluate_abstract Ref.json "An abstract."
       (fun _ => Ok "The idea is sound.")
     = {| score := PyInt 1; reasoning := VStr "Unable to parse reasoning" |}
  /\ score (@evaluate_abstract Ref.json "An abstract."
              (fun _ => Ok "The idea is sound.")) <> PyInt 0.
Proof. repeat split; try (vm_compute; reflexivity). vm_compute. discriminate. Qed.

(** The scenario of C9 run with the reference decoder. *)
Lemma fallback_scenario_witness :
  @evaluate_abstract Ref.json "An abstract."
    (fun _ => Ok "I'd say score: 7, reasoning: 'Strong market fit'")
  = {| score := PyFloat (S754_finite false 7881299347898368 (-50));
       reasoning := VStr "Strong market fit" |}
  /\ num_cmp
       (score (@evaluate_abstract Ref.json "An abstract."
                 (fun _ => Ok "I'd say score: 7, reasoning: 'Strong market fit'")))
       (PyInt 7) = Some Eq.
Proof.
  apply (@fallback_scenario Ref.json "An abstract."
           (fun _ => Ok "I'd say score: 7, reasoning: 'Strong market fit'")
           "Expecting value").
  - reflexivity.
  - vm_compute. reflexivity.
Defined.

(** ** The scoring engine: [evaluate_papers] *)

Import Notions.

Section Loop.
Context `{JsonLib} `{PandasLib}.

(** After an iteration raised, the loop is over. *)
Lemma loop_failed_stays c tc items st e :
  failed st = Some e -> fold_left (loop_step c tc) items st = st.
Proof.
  intros Hf. induction items as [|[idx row] items IH]; [reflexivity|].
  cbn [fold_left]. unfold loop_step at 2. rewrite Hf. exact IH.
Qed.

(** The loop of lines 121-135, started in the middle of a frame whose
    rows all get past the log line and whose assignments are all taken,
    leaves what the row-by-row reading computes. *)
Lemma loop_from (c : client) tc (rest done : list Row)
      (log : list (nat * string)) :
  Forall (fun r => titled r = true) rest ->
  stores c tc ->
  fold_left (loop_step c tc)
            (imap (fun i r => (List.length done + i, r)%nat) rest)
            {| frame := done ++ rest; calls := log; failed := None |}
  = {| frame := done ++ annotate c (List.length log) rest;
       calls := log ++ call_log (List.length done) rest;
       failed := None |}.
Proof.
  intros Ht Hst. revert done log.
  induction Ht as [|r rest Hr Hrest IH]; intros done log.
  - simpl. now rewrite !app_nil_r.
  - rewrite imap_cons. cbn [fold_left].
    assert (Hnext : forall st,
               fold_left (loop_step c tc)
                 (imap ((fun i r0 => (List.length done + i, r0)%nat) ∘ S) rest) st
               = fold_left (loop_step c tc)
                   (imap (fun i r0 => (List.length (done ++ [r]) + i, r0)%nat) rest) st).
    { intros st. f_equal. apply imap_ext. intros i x _. simpl.
      rewrite length_app. simpl. f_equal. lia. }
    unfold loop_step at 2. cbn [call_log annotate failed].
    unfold titled, skipped in Hr.
    destruct (abstract r) as [a|] eqn:Ha.
    + destruct (String.eqb (strip a) EmptyString) eqn:He.
      * rewrite Hnext.
        replace (done ++ r :: rest) with ((done ++ [r]) ++ rest)
          by now rewrite <- app_assoc.
        rewrite IH. rewrite <- app_assoc. simpl.
        rewrite length_app. simpl. repeat f_equal. lia.
      * destruct (title r) as [t|]; [|discriminate].
        cbn [calls frame]. rewrite (Hst (List.length log) a).
        rewrite Hnext.
        rewrite Nat.add_0_r.
        replace (List.length done) with (List.length done + 0)%nat at 1 2 by lia.
        rewrite !alter_app_r. cbn [alter list_alter].
        set (r' := set_reasoning _ (set_score _ r)).
        replace (done ++ r' :: rest) with ((done ++ [r']) ++ rest)
          by now rewrite <- app_assoc.
        replace (List.length (done ++ [r])) with (List.length (done ++ [r']))
          by now rewrite !length_app.
        rewrite IH. rewrite <- !app_assoc. simpl.
        rewrite !length_app. simpl.
        replace (List.length log + 1)%nat with (S (List.length log)) by lia.
        replace (List.length done + 1)%nat with (S (List.length done)) by lia.
        reflexivity.
    + rewrite Hnext.
      replace (done ++ r :: rest) with ((done ++ [r]) ++ rest)
        by now rewrite <- app_assoc.
      rewrite IH. rewrite <- app_assoc. simpl.
      rewrite length_app. simpl. repeat f_equal. lia.
Qed.

Lemma evaluate_loop_spec (c : client) tc (rs : list Row) :
  Forall (fun r => titled r = true) rs ->
  stores c tc ->
  evaluate_loop c tc rs
  = {| frame := annotate c 0 rs; calls := call_log 0 rs; failed := None |}.
Proof.
  intros Ht Hst. unfold evaluate_loop.
  replace (imap pair rs) with (imap (fun i r => (List.length (@nil Row) + i, r)%nat) rs)
    by (apply imap_ext; reflexivity).
  change rs with ([] ++ rs) at 2.
  now rewrite loop_from.
Qed.

(** A loop that ends without an exception has done the same. *)
Lemma loop_from_ok (c : client) tc (rest done : list Row)
      (log : list (nat * string)) :
  failed (fold_left (loop_step c tc)
            (imap (fun i r => (List.length done + i, r)%nat) rest)
            {| frame := done ++ rest; calls := log; failed := None |}) = None ->
  fold_left (loop_step c tc)
            (imap (fun i r => (List.length done + i, r)%nat) rest)
            {| frame := done ++ rest; calls := log; failed := None |}
  = {| frame := done ++ annotate c (List.length log) rest;
       calls := log ++ call_log (List.length done) rest;
       failed := None |}.
Proof.
  revert done log. induction rest as [|r rest IH]; intros done log.
  - intros _. simpl. now rewrite !app_nil_r.
  - rewrite imap_cons. cbn [fold_left].
    assert (Hnext : forall st,
               fold_left (loop_step c tc)
                 (imap ((fun i r0 => (List.length done + i, r0)%nat) ∘ S) rest) st
               = fold_left (loop_step c tc)
                   (imap (fun i r0 => (List.length (done ++ [r]) + i, r0)%nat) rest) st).
    { intros st. f_equal. apply imap_ext. intros i x _. simpl.
      rewrite length_app. simpl. f_equal. lia. }
    rewrite !Hnext. unfold loop_step at 2 4. cbn [call_log annotate failed].
    destruct (abstract r) as [a|] eqn:Ha.
    + destruct (String.eqb (strip a) EmptyString) eqn:He.
      * replace (done ++ r :: rest) with ((done ++ [r]) ++ rest)
          by now rewrite <- app_assoc.
        intros Hfail. rewrite (IH _ _ Hfail). rewrite <- app_assoc. simpl.
        rewrite length_app. simpl. repeat f_equal. lia.
      * destruct (title r) as [t|].
        2:{ erewrite loop_failed_stays by reflexivity. discriminate. }
        cbn [calls frame].
        destruct (accepts tc _).
        2:{ erewrite loop_failed_stays by reflexivity. discriminate. }
        rewrite Nat.add_0_r.
        replace (List.length done) with (List.length done + 0)%nat at 1 2 4 5 by lia.
        rewrite !alter_app_r. cbn [alter list_alter].
        set (r' := set_reasoning _ (set_score _ r)).
        replace (done ++ r' :: rest) with ((done ++ [r']) ++ rest)
          by now rewrite <- app_assoc.
        replace (List.length (done ++ [r])) with (List.length (done ++ [r']))
          by now rewrite !length_app.
        intros Hfail. rewrite (IH _ _ Hfail). rewrite <- !app_assoc. simpl.
        rewrite !length_app. simpl.
        replace (List.length log + 1)%nat with (S (List.length log)) by lia.
        replace (List.length done + 1)%nat with (S (List.length done)) by lia.
        reflexivity.
    + replace (done ++ r :: rest) with ((done ++ [r]) ++ rest)
        by now rewrite <- app_assoc.
      intros Hfail. rewrite (IH _ _ Hfail). rewrite <- app_assoc. simpl.
      rewrite length_app. simpl. repeat f_equal. lia.
Qed.

Lemma evaluate_loop_ok (c : client) tc (rs : list Row) :
  failed (evaluate_loop c tc rs) = None ->
  evaluate_loop c tc rs
  = {| frame := annotate c 0 rs; calls := call_log 0 rs; failed := None |}.
Proof.
  unfold evaluate_loop.
  replace (imap pair rs) with (imap (fun i r => (List.length (@nil Row) + i, r)%nat) rs)
    by (apply imap_ext; reflexivity).
  change rs with ([] ++ rs) at 2 4.
  intros Hfail. now rewrite (loop_from_ok _ _ _ _ _ Hfail).
Qed.


End Loop.

Section Rows.
Context `{JsonLib}.


Lemma base_annotate_row a r : base (annotate_row a r) = base r.
Proof. reflexivity. Qed.


End Rows.

Lemma skipped_spec r :
  skipped r = false <->
  exists a, abstract r = Some a /\ String.eqb (strip a) EmptyString = false.
Proof.
  unfold skipped. destruct (abstract r) as [a|].
  - split; [intros E; now exists a | now intros (b & [= <-] & E)].
  - split; [discriminate | now intros (b & [=] & _)].
Qed.






(** The log depends on the abstracts only. *)
Lemma call_log_abstracts k rs rs' :
  abstract <$> rs = abstract <$> rs' -> call_log k rs = call_log k rs'.
Proof.
  revert k rs'. induction rs as [|x rs IH]; intros k [|y rs'] E;
    try discriminate; [reflexivity|].
  simpl in E. injection E as Hx Hrs. simpl. rewrite Hx.
  destruct (abstract y) as [b|]; [destruct (String.eqb _ _)|];
    now rewrite (IH _ _ Hrs).
Qed.

Lemma abstract_add_columns df :
  abstract <$> rows (add_columns df) = abstract <$> rows df.
Proof.
  unfold add_columns. simpl.
  destruct (has_score df), (has_reasoning df); rewrite <- ?list_fmap_compose;
    try reflexivity; now apply list_fmap_ext.
Qed.





Lemma titled_add_columns df :
  titled <$> rows (add_columns df) = titled <$> rows df.
Proof.
  unfold add_columns. simpl.
  destruct (has_score df), (has_reasoning df); rewrite <- ?list_fmap_compose;
    try reflexivity; now apply list_fmap_ext.
Qed.

Lemma Forall_titled_add_columns df :
  Forall (fun r => titled r = true) (rows df) ->
  Forall (fun r => titled r = true) (rows (add_columns df)).
Proof.
  intros Hall.
  apply (Forall_fmap titled (fun b => b = true)).
  rewrite titled_add_columns. now apply Forall_fmap.
Qed.


(** What [limit_rows] keeps. *)
Lemma limit_rows_star df : rows (limit_rows (RowsStr "*") df) = rows df.
Proof. reflexivity. Qed.


Section Papers.
Context `{JsonLib} `{PathLib} `{PandasLib}.

(** A run on a file that exists and reads as [df0], when every row it
    keeps gets past the log line and every assignment is taken: the frame
    it returns, the text it writes, and the calls it makes. *)
Lemma evaluate_papers_run fs c path out num_rows text df0 :
  fs !! path = Some text ->
  pd_read_csv text = Ok df0 ->
  Forall (fun r => titled r = true) (rows (limit_rows num_rows df0)) ->
  stores c (text_reasoning df0) ->
  evaluate_papers fs c path out num_rows
  = Ok {| run_files :=
            <[output_file path out :=
                pd_to_csv
                  {| has_score := true; has_reasoning := true;
                     rows := annotate c 0
                               (rows (add_columns (limit_rows num_rows df0))) |}]> fs;
          run_df :=
            {| has_score := true; has_reasoning := true;
               rows := annotate c 0
                         (rows (add_columns (limit_rows num_rows df0))) |};
          run_calls := call_log 0 (rows (limit_rows num_rows df0)) |}.
Proof.
  intros Hf Hread Ht Hst. unfold evaluate_papers, run_loop.
  rewrite Hf, Hread. cbn [mbind res_bind].
  rewrite (evaluate_loop_spec c _ _ (Forall_titled_add_columns _ Ht) Hst).
  cbn [frame calls failed].
  now rewrite (call_log_abstracts 0 _ _ (abstract_add_columns _)).
Qed.

(** A run that returns has read the file and done the same. *)
Lemma evaluate_papers_ok fs c path out num_rows r :
  evaluate_papers fs c path out num_rows = Ok r ->
  exists text df0,
    fs !! path = Some text
    /\ pd_read_csv text = Ok df0
    /\ r = {| run_files :=
                <[output_file path out :=
                    pd_to_csv
                      {| has_score := true; has_reasoning := true;
                         rows := annotate c 0
                                   (rows (add_columns (limit_rows num_rows df0))) |}]> fs;
              run_df :=
                {| has_score := true; has_reasoning := true;
                   rows := annotate c 0
                             (rows (add_columns (limit_rows num_rows df0))) |};
              run_calls := call_log 0 (rows (limit_rows num_rows df0)) |}.
Proof.
  unfold evaluate_papers, run_loop.
  destruct (fs !! path) as [text|] eqn:Hf; [|discriminate].
  destruct (pd_read_csv text) as [df0|e] eqn:Hread; [|discriminate].
  cbn [mbind res_bind].
  destruct (failed _) eqn:Hfail; [discriminate|].
  rewrite (evaluate_loop_ok _ _ _ Hfail). cbn [frame calls].
  intros Hr. exists text, df0. split; [reflexivity|]. split; [exact Hread|].
  rewrite <- (call_log_abstracts 0 _ _
                (abstract_add_columns (limit_rows num_rows df0))).
  congruence.
Qed.







End Papers.

(** The reference pandas converts the column when an assignment does not
    fit it, so that every reasoning is stored. *)
Lemma stores_always c tc : @stores Ref.json Ref.pandas c tc.
Proof. intros n a. unfold accepts. simpl. apply orb_true_r. Qed.



(** What is written is the print of the frame as read: in a file whose
    identifiers all read as numbers the identifier 2401.10000 is the float
    2401.1, and a call with the limit 1 writes it so. *)
Lemma numeric_id_is_rewritten :
  pd_read_csv (PandasLib := Ref.pandas) Ref.numbered_csv = Ok Ref.numbered_frame
  /\ exists r,
      @evaluate_papers Ref.json Ref.pathlib Ref.pandas
        {[ "results/arxiv_papers.csv" := Ref.numbered_csv ]}
        (Ref.always "score: 4, reasoning: 'Early.'")
        "results/arxiv_papers.csv" None (RowsInt 1) = Ok r
      /\ run_files r !! "results/arxiv_papers_evaluated.csv"
         = Some (Ref.header10 ++ Ref.nl
                 ++ "2401.1,A paper,cs.LG,We study a problem.,,2024-01-01,,A. Author,4.0,Early."
                 ++ Ref.nl)%string.
Proof.
  split; [vm_compute; reflexivity|].
  eexists. split.
  - apply (@evaluate_papers_run Ref.json Ref.pathlib Ref.pandas _ _ _ _ _
             Ref.numbered_csv Ref.numbered_frame).
    + apply lookup_singleton_eq.
    + vm_compute. reflexivity.
    + repeat constructor.
    + apply stores_always.
  - cbn [run_files]. rewrite lookup_insert_eq. vm_compute. reflexivity.
Qed.





(** ** The query engine: [get_papers] *)

Import App.

Lemma insert_sorted_perm before x l :
  Permutation (insert_sorted before x l) (x :: l).
Proof.
  induction l as [|y l IH]; simpl; [reflexivity|].
  destruct (before y x); [|reflexivity].
  rewrite IH. apply perm_swap.
Qed.

Lemma sort_rows_perm before l : Permutation (sort_rows before l) l.
Proof.
  induction l as [|x l IH]; simpl; [reflexivity|].
  rewrite insert_sorted_perm. now constructor.
Qed.

Lemma filter_split_perm (f : Row -> bool) l :
  Permutation (List.filter f l ++ List.filter (fun r => negb (f r)) l) l.
Proof.
  induction l as [|x l IH]; simpl; [reflexivity|].
  destruct (f x); simpl.
  - now constructor.
  - rewrite <- Permutation_middle. now constructor.
Qed.

(** Sorting rearranges the rows and loses none. *)
Lemma sort_values_perm f d l : Permutation (sort_values f d l) l.
Proof.
  unfold sort_values. rewrite sort_rows_perm. apply filter_split_perm.
Qed.

Lemma ceil_div_spec (T P : Z) :
  0 <= T -> 0 < P ->
  ((T + P - 1) / P - 1) * P < T /\ T <= (T + P - 1) / P * P.
Proof.
  intros HT HP.
  pose proof (Z.div_mod (T + P - 1) P ltac:(lia)) as Hdm.
  pose proof (Z.mod_pos_bound (T + P - 1) P HP) as Hb.
  nia.
Qed.

(** Consecutive slices of [P] rows put end to end. *)
Lemma concat_chunks_from {A} (P n s : nat) (l : list A) :
  List.concat ((fun k => take P (drop (k * P) l)) <$> seq s n)
  = take (n * P) (drop (s * P) l).
Proof.
  revert s. induction n as [|n IH]; intros s; [reflexivity|].
  cbn [seq]. rewrite fmap_cons. cbn [List.concat].
  rewrite IH. replace (S s * P)%nat with (s * P + P)%nat by lia.
  rewrite <- drop_drop, take_take_drop. f_equal.
Qed.

(** Enough of them to cover the list give the list back. *)
Lemma concat_chunks {A} (P n : nat) (l : list A) :
  (List.length l <= n * P)%nat ->
  List.concat ((fun k => take P (drop (k * P) l)) <$> seq 0 n) = l.
Proof.
  intros Hl. rewrite concat_chunks_from. simpl. now apply take_ge.
Qed.

Lemma fmap_concat_chunks `{AppLib} df (P n : nat) (l : list Row) :
  List.concat ((fun k => to_paper df <$> take P (drop (k * P) l)) <$> seq 0 n)
  = to_paper df <$> List.concat ((fun k => take P (drop (k * P) l)) <$> seq 0 n).
Proof.
  induction (seq 0 n) as [|k ks IH]; [reflexivity|].
  rewrite !fmap_cons. cbn [List.concat]. now rewrite fmap_app, IH.
Qed.

Section Listing.
Context `{AppLib}.

Lemma valid_set_page k q :
  1 <= k -> valid (set_page 1 q) = true -> valid (set_page k q) = true.
Proof.
  unfold valid. cbn [page per_page min_score max_score set_page].
  intros Hk. rewrite !andb_true_iff. intros ((((_ & ?) & ?) & ?) & ?).
  repeat split; auto. now apply Z.leb_le.
Qed.

Lemma get_papers_valid df q r : get_papers df q = Ok r -> valid q = true.
Proof.
  unfold get_papers. destruct (valid q); [reflexivity | discriminate].
Qed.

Lemma valid_per_page q : valid q = true -> 1 <= per_page q <= 100.
Proof.
  unfold valid. rewrite !andb_true_iff. intros ((((_ & ?) & ?) & _) & _).
  split; now apply Z.leb_le.
Qed.

(** The response for an empty frame. *)
Lemma get_papers_empty df q :
  valid q = true -> rows df = [] ->
  get_papers df q
  = Ok {| papers := []; total := 0; resp_page := page q;
          resp_per_page := per_page q; total_pages := 0 |}.
Proof. intros Hv He. unfold get_papers. now rewrite Hv, He. Qed.

(** The response when the filters return [l]. *)
Lemma get_papers_matching df q l :
  valid q = true -> rows df <> [] -> matching q df = Ok l ->
  get_papers df q
  = Ok {| papers :=
            to_paper df
              <$> iloc ((page q - 1) * per_page q)
                       ((page q - 1) * per_page q + per_page q) l;
          total := Z.of_nat (List.length l);
          resp_page := page q;
          resp_per_page := per_page q;
          total_pages :=
            (Z.of_nat (List.length l) + per_page q - 1) / per_page q |}.
Proof.
  intros Hv Hne Hm. unfold get_papers. rewrite Hv. simpl.
  destruct (rows df) eqn:Hr; [congruence|]. now rewrite Hm.
Qed.

Lemma matching_set_page k q df : matching (set_page k q) df = matching q df.
Proof. reflexivity. Qed.

Lemma iloc_page (k : nat) (P : Z) (l : list Row) :
  0 < P ->
  iloc ((Z.of_nat k + 1 - 1) * P) ((Z.of_nat k + 1 - 1) * P + P) l
  = take (Z.to_nat P) (drop (k * Z.to_nat P) l).
Proof.
  intros HP. unfold iloc. f_equal; [f_equal; lia|]. f_equal. nia.
Qed.

(** C6: let the first page of a query be served, with [T] the total it
    reports, [P] the page size and [tp] the page count it reports.  Then
    [P] lies in [1, 100]; [T] is the number of rows that match the
    filters; [tp] is the ceiling of [T / P]; every page from 1 to [tp] is
    served with the same totals, their paper lists put end to end are the
    matching rows in order, so their lengths sum to [T]; and page
    [tp + 1] is served with an empty list. *)
Theorem get_papers_pagination df q r1 :
  get_papers df (set_page 1 q) = Ok r1 ->
  1 <= per_page q <= 100
  /\ (rows df = [] -> total r1 = 0)
  /\ (rows df <> [] ->
      exists l, matching q df = Ok l /\ total r1 = Z.of_nat (List.length l))
  /\ (total_pages r1 - 1) * per_page q < total r1 <= total_pages r1 * per_page q
  /\ (exists rs,
         Forall2 (fun k r => get_papers df (set_page k q) = Ok r
                             /\ total r = total r1
                             /\ total_pages r = total_pages r1)
                 (seqZ 1 (total_pages r1)) rs
         /\ Z.of_nat (List.length (List.concat (papers <$> rs))) = total r1
         /\ forall l, rows df <> [] -> matching q df = Ok l ->
                      List.concat (papers <$> rs) = to_paper df <$> l)
  /\ (exists r, get_papers df (set_page (total_pages r1 + 1) q) = Ok r
                /\ papers r = []).
Proof.
  intros H1. pose proof (get_papers_valid _ _ _ H1) as Hv.
  pose proof (valid_per_page _ Hv) as HP. cbn [per_page set_page] in HP.
  split; [exact HP|].
  destruct (rows df) as [|x rest] eqn:Hrows.
  - rewrite (get_papers_empty df _ Hv Hrows) in H1. injection H1 as <-.
    cbn [total total_pages].
    split; [reflexivity|]. split; [congruence|]. split; [lia|]. split.
    + exists []. split; [constructor|]. split; [reflexivity|]. congruence.
    + eexists. split; [apply get_papers_empty; [|exact Hrows]|reflexivity].
      apply valid_set_page; [lia|exact Hv].
  - assert (Hne : rows df <> []) by (rewrite Hrows; discriminate).
    destruct (matching q df) as [l|e] eqn:Hm.
    2:{ unfold get_papers in H1. rewrite Hv, Hrows in H1. simpl in H1.
        rewrite matching_set_page, Hm in H1. discriminate. }
    assert (Hpage : forall k, 1 <= k ->
              get_papers df (set_page k q)
              = Ok {| papers := to_paper df
                         <$> iloc ((k - 1) * per_page q)
                                  ((k - 1) * per_page q + per_page q) l;
                      total := Z.of_nat (List.length l);
                      resp_page := k;
                      resp_per_page := per_page q;
                      total_pages :=
                        (Z.of_nat (List.length l) + per_page q - 1)
                          / per_page q |}).
    { intros k Hk.
      apply (get_papers_matching df (set_page k q) l);
        [apply valid_set_page; assumption | exact Hne | exact Hm]. }
    rewrite (Hpage 1 ltac:(lia)) in H1. injection H1 as <-.
    cbn [total total_pages].
    set (T := Z.of_nat (List.length l)). set (P := per_page q) in *.
    set (tp := (T + P - 1) / P).
    destruct (ceil_div_spec T P ltac:(lia) ltac:(lia)) as [Hlo Hhi].
    fold tp in Hlo, Hhi.
    assert (Htp : 0 <= tp) by nia.
    split; [discriminate|]. split; [exists l; split; reflexivity|].
    split; [lia|].
    assert (Hcat :
              List.concat (papers <$> ((fun k =>
                 {| papers := to_paper df
                      <$> iloc ((k - 1) * P) ((k - 1) * P + P) l;
                    total := T; resp_page := k; resp_per_page := P;
                    total_pages := tp |}) <$> seqZ 1 tp))
              = to_paper df <$> l).
    { unfold seqZ. rewrite <- !list_fmap_compose.
      transitivity
        (to_paper df
           <$> List.concat ((fun k => take (Z.to_nat P) (drop (k * Z.to_nat P) l))
                              <$> seq 0 (Z.to_nat tp)));
        [|f_equal; apply concat_chunks; subst T; nia].
      rewrite <- (fmap_concat_chunks df (Z.to_nat P) (Z.to_nat tp) l).
      f_equal. apply list_fmap_ext. intros i k _. simpl.
      f_equal. replace (Z.of_nat k + 1 - 1) with (Z.of_nat k) by lia.
      unfold iloc. f_equal; [f_equal; lia|]. f_equal. nia. }
    split.
    + exists ((fun k =>
                 {| papers := to_paper df
                      <$> iloc ((k - 1) * P) ((k - 1) * P + P) l;
                    total := T; resp_page := k; resp_per_page := P;
                    total_pages := tp |}) <$> seqZ 1 tp).
      split; [|split].
      * apply Forall2_fmap_r. apply Forall_Forall2_diag.
        apply Forall_forall. intros k Hk. apply elem_of_seqZ in Hk.
        rewrite (Hpage k ltac:(lia)). repeat split.
      * rewrite Hcat, length_fmap. reflexivity.
      * intros m _ [= <-]. exact Hcat.
    + rewrite (Hpage (tp + 1) ltac:(lia)). eexists. split; [reflexivity|].
      cbn [papers]. unfold iloc. rewrite drop_ge; [now rewrite take_nil|].
      subst T. nia.
Qed.
End Listing.

(** C6 on the sample of 25 papers, twenty to a page: two pages, and the
    third is empty. *)
Lemma get_papers_pagination_witness :
  exists r1,
    @get_papers Ref.applib Ref.unscored_frame
      (set_page 1 (Ref.listing None None)) = Ok r1
    /\ total r1 = 25 /\ total_pages r1 = 2
    /\ exists r,
        @get_papers Ref.applib Ref.unscored_frame
          (set_page (total_pages r1 + 1) (Ref.listing None None)) = Ok r
        /\ papers r = [].
Proof.
  destruct (@get_papers Ref.applib Ref.unscored_frame
              (set_page 1 (Ref.listing None None))) as [r1|e] eqn:E;
    [|vm_compute in E; discriminate].
  exists r1. split; [reflexivity|].
  destruct (@get_papers_pagination Ref.applib _ _ _ E)
    as (_ & _ & _ & _ & _ & Hlast).
  vm_compute in E. injection E as <-.
  split; [reflexivity|]. split; [reflexivity|]. exact Hlast.
Defined.

Lemma Forall_filter_intro (f : Row -> bool) (l : list Row) :
  Forall (fun r => f r = true) (List.filter f l).
Proof.
  induction l as [|x l IH]; simpl; [constructor|].
  destruct (f x) eqn:E; [constructor|]; assumption.
Qed.

Lemma Forall_filter_keep (P : Row -> Prop) (f : Row -> bool) (l : list Row) :
  Forall P l -> Forall P (List.filter f l).
Proof.
  induction 1 as [|x l Hx Hl IH]; simpl; [constructor|].
  destruct (f x); [constructor|]; assumption.
Qed.

(** A score that passes a comparison with a bound is not NaN. *)
Lemma compared_not_nan f m :
  is_ge (float_cmp f m) = true \/ is_le (float_cmp f m) = true ->
  is_nan f = false.
Proof. destruct f; simpl; [reflexivity..|intros []; discriminate|reflexivity]. Qed.

Section ScoreBounds.
Context `{AppLib}.

Lemma Forall_filter_min (P : Row -> Prop) q df l :
  Forall P l -> Forall P (filter_min q df l).
Proof.
  intros Hl. unfold filter_min. destruct (min_score q); [|assumption].
  destruct (has_score df); [now apply Forall_filter_keep|assumption].
Qed.

Lemma Forall_filter_max (P : Row -> Prop) q df l :
  Forall P l -> Forall P (filter_max q df l).
Proof.
  intros Hl. unfold filter_max. destruct (max_score q); [|assumption].
  destruct (has_score df); [now apply Forall_filter_keep|assumption].
Qed.

Lemma Forall_sort_step (P : Row -> Prop) q df l :
  Forall P l -> Forall P (sort_step q df l).
Proof.
  intros Hl. unfold sort_step.
  destruct (sort_by q); try destruct (has_score df); try assumption;
    (eapply Permutation_Forall; [symmetry; apply sort_values_perm|assumption]).
Qed.

(** With a score column and a bound, every row that passes the filters
    has a score. *)
Lemma matching_scored q df l :
  has_score df = true ->
  is_Some (min_score q) \/ is_Some (max_score q) ->
  matching q df = Ok l ->
  Forall (fun r => is_nan (row_score r) = false) l.
Proof.
  intros Hs Hb. unfold matching.
  destruct (filter_search q df) as [l1|e]; simpl; [|discriminate].
  destruct (filter_category q l1) as [l2|e]; simpl; [|discriminate].
  intros [= <-]. apply Forall_sort_step.
  destruct Hb as [[m Hm]|[m Hm]].
  - apply Forall_filter_max. unfold filter_min. rewrite Hm, Hs.
    eapply Forall_impl; [apply Forall_filter_intro|].
    intros r Hr. simpl in Hr. apply (compared_not_nan _ m). now left.
  - unfold filter_max. rewrite Hm, Hs.
    eapply Forall_impl; [apply Forall_filter_intro|].
    intros r Hr. simpl in Hr. apply (compared_not_nan _ m). now right.
Qed.

Lemma finite_cmp_zero s m e :
  float_cmp_Z (S754_finite s m e) 0 = Some (if s then Lt else Gt).
Proof.
  unfold float_cmp_Z. destruct (0 <=? e)%Z eqn:He.
  - apply Z.leb_le in He.
    pose proof (Z.pow_pos_nonneg 2 e ltac:(lia) He) as Hp. f_equal.
    pose proof (Pos2Z.neg_is_neg m). pose proof (Pos2Z.pos_is_pos m).
    destruct s; unfold signed; [apply Z.compare_lt_iff|apply Z.compare_gt_iff];
      nia.
  - now destruct s.
Qed.

(** A score at or above a positive bound is positive. *)
Lemma float_ge_positive s lo :
  is_ge (float_cmp s lo) = true ->
  float_cmp_Z lo 0 = Some Gt ->
  float_cmp_Z s 0 = Some Gt.
Proof.
  intros Hge Hlo.
  destruct lo as [zl|il| |sl ml el].
  - discriminate.
  - destruct il; [discriminate|].
    destruct s as [zs|is_neg| |ss ms es]; try discriminate.
    + now destruct is_neg.
  - discriminate.
  - rewrite finite_cmp_zero in Hlo. destruct sl; [discriminate|].
    destruct s as [zs|is_neg| |ss ms es]; try discriminate.
    + now destruct is_neg.
    + rewrite finite_cmp_zero. destruct ss; [exfalso|reflexivity].
      cbn [float_cmp] in Hge. cbv zeta in Hge.
      pose proof (Z.pow_pos_nonneg 2 (es - Z.min es el) ltac:(lia) ltac:(lia)).
      pose proof (Z.pow_pos_nonneg 2 (el - Z.min es el) ltac:(lia) ltac:(lia)).
      destruct (Z.compare_spec (signed true ms * 2 ^ (es - Z.min es el))
                               (signed false ml * 2 ^ (el - Z.min es el)))
        as [E|E|E]; try discriminate; unfold signed in E;
        pose proof (Pos2Z.neg_is_neg ms); pose proof (Pos2Z.pos_is_pos ml); nia.
Qed.

(** The sentinel 0 is within every bound a request may carry. *)
Lemma zero_within_bound b hi :
  bound_ok (Some hi) = true -> is_le (float_cmp (S754_zero b) hi) = true.
Proof.
  unfold bound_ok. rewrite andb_true_iff. intros [Hge Hle].
  destruct hi as [zh|ih| |sh mh eh]; try reflexivity; try discriminate.
  - now destruct ih.
  - rewrite finite_cmp_zero in Hge. now destruct sh.
Qed.

Lemma zero_at_zero b lo :
  float_cmp_Z lo 0 = Some Eq -> is_ge (float_cmp (S754_zero b) lo) = true.
Proof.
  destruct lo as [zl|il| |sl ml el]; try reflexivity; try discriminate.
  - now destruct il.
  - rewrite finite_cmp_zero. now destruct sl.
Qed.

(** C7, as the code has it.  When the snapshot has a score column and the
    query supplies a lower or an upper score bound, every paper returned
    has a score cell that is not empty; under a lower bound above 0 every
    paper returned has a score above 0, so that no record lacking a score
    annotation is returned.  A record with the sentinel score 0 is kept by
    both bound filters when the lower bound is absent or 0, whatever the
    upper bound.  When the snapshot has no score column the two bound
    filters keep every row. *)
Theorem score_bounds_need_score_column df q :
  (has_score df = true ->
   is_Some (min_score q) \/ is_Some (max_score q) ->
   forall r, get_papers df q = Ok r ->
             Forall (fun p => exists f, p_score p = Some f /\ is_nan f = false)
                    (papers r))
  /\ (has_score df = true ->
      forall lo, min_score q = Some lo -> float_cmp_Z lo 0 = Some Gt ->
      forall r, get_papers df q = Ok r ->
                Forall (fun p => exists f, p_score p = Some f
                                           /\ float_cmp_Z f 0 = Some Gt)
                       (papers r))
  /\ (has_score df = true ->
      (forall lo, min_score q = Some lo -> float_cmp_Z lo 0 = Some Eq) ->
      bound_ok (max_score q) = true ->
      forall row b l,
        row_score row = S754_zero b -> unscored df row = true
        /\ (row ∈ l -> row ∈ filter_max q df (filter_min q df l)))
  /\ (has_score df = false ->
      forall l, filter_max q df (filter_min q df l) = l).
Proof.
  assert (Hserved : forall (P : Row -> Prop) r,
             get_papers df q = Ok r ->
             (forall l, matching q df = Ok l -> Forall P l) ->
             Forall (fun p => exists row, P row /\ p = to_paper df row)
                    (papers r)).
  { intros P r Hr HP. pose proof (get_papers_valid _ _ _ Hr) as Hv.
    destruct (rows df) as [|x rest] eqn:Hrows.
    - rewrite (get_papers_empty df q Hv Hrows) in Hr. injection Hr as <-.
      constructor.
    - assert (Hne : rows df <> []) by (rewrite Hrows; discriminate).
      destruct (matching q df) as [l|e] eqn:Hm.
      2:{ unfold get_papers in Hr. rewrite Hv, Hrows in Hr. simpl in Hr.
          rewrite Hm in Hr. discriminate. }
      rewrite (get_papers_matching df q l Hv Hne Hm) in Hr.
      injection Hr as <-. cbn [papers].
      apply Forall_fmap. unfold iloc. apply Forall_take, Forall_drop.
      eapply Forall_impl; [apply (HP l eq_refl)|].
      intros row Hrow. simpl. now exists row. }
  split; [|split; [|split]].
  - intros Hs Hb r Hr.
    eapply Forall_impl;
      [apply (Hserved (fun row => is_nan (row_score row) = false) r Hr);
       intros l Hm; exact (matching_scored q df l Hs Hb Hm)|].
    intros p (row & Hrow & ->). simpl in Hrow. exists (row_score row).
    unfold to_paper. cbn [p_score]. now rewrite Hs, Hrow.
  - intros Hs lo Hlo Hpos r Hr.
    eapply Forall_impl;
      [apply (Hserved (fun row => is_ge (float_cmp (row_score row) lo) = true)
                r Hr)|].
    + intros l. unfold matching.
      destruct (filter_search q df) as [l1|e]; simpl; [|discriminate].
      destruct (filter_category q l1) as [l2|e]; simpl; [|discriminate].
      intros [= <-]. apply Forall_sort_step, Forall_filter_max.
      unfold filter_min. rewrite Hlo, Hs. apply Forall_filter_intro.
    + intros p (row & Hrow & ->). simpl in Hrow. exists (row_score row).
      unfold to_paper. cbn [p_score].
      rewrite Hs, (compared_not_nan _ lo) by (left; exact Hrow).
      split; [reflexivity|]. exact (float_ge_positive _ _ Hrow Hpos).
  - intros Hs Hlo Hhi row b l Hrow. split.
    + unfold unscored. rewrite Hrow. simpl. apply orb_true_r.
    + intros Hin. unfold filter_max, filter_min. rewrite Hs.
      assert (Hmin : row ∈ match min_score q with
                           | Some m =>
                               List.filter
                                 (fun r => is_ge (float_cmp (row_score r) m)) l
                           | None => l
                           end).
      { destruct (min_score q) as [lo|] eqn:Hq; [|exact Hin].
        apply list_elem_of_In, filter_In. split; [now apply list_elem_of_In|].
        rewrite Hrow. apply zero_at_zero. now apply Hlo. }
      destruct (max_score q) as [hi|]; [|exact Hmin].
      apply list_elem_of_In, filter_In. split; [now apply list_elem_of_In|].
      rewrite Hrow. now apply zero_within_bound.
  - intros Hs l. unfold filter_max, filter_min. rewrite Hs.
    destruct (min_score q), (max_score q); reflexivity.
Qed.
End ScoreBounds.

(** C7 fails as stated: the sample file has no score column, and a query
    with the lower bound 7 still returns its one paper, without a score. *)
Lemma bound_ignored_without_score_column :
  exists r,
    @get_papers Ref.applib Ref.bare_frame (Ref.listing (Some Ref.seven) None)
    = Ok r
    /\ total r = 1
    /\ (p_id <$> papers r) = ["hep-th/9901003"]
    /\ (p_score <$> papers r) = [None].
Proof. eexists. split; [vm_compute; reflexivity|]. repeat split. Qed.

(** It fails with a score column too: under the upper bound 7 alone the
    record with the sentinel 0 is returned, after the record scored 7; the
    record whose score cell is empty is not. *)
Lemma sentinel_row_is_served :
  exists r,
    @get_papers Ref.applib Ref.graded_frame (Ref.listing None (Some Ref.seven))
    = Ok r
    /\ (p_id <$> papers r) = ["hep-th/9901006"; "hep-th/9901008"]
    /\ (p_score <$> papers r) = [Some Ref.seven; Some (S754_zero false)]
    /\ Forall (fun row => id row = VStr "hep-th/9901008" ->
                          unscored Ref.graded_frame row = true)
              (rows Ref.graded_frame).
Proof.
  eexists. split; [vm_compute; reflexivity|].
  split; [reflexivity|]. split; [reflexivity|].
  repeat constructor; intros [=].
Qed.

(** C7 as amended, on the evaluated sample: the lower bound 7 keeps the
    paper scored 7 and neither the paper without a score nor the one with
    the sentinel. *)
Lemma score_bounds_need_score_column_witness :
  exists r,
    @get_papers Ref.applib Ref.graded_frame (Ref.listing (Some Ref.seven) None)
    = Ok r
    /\ List.length (rows Ref.graded_frame) = 3%nat
    /\ (p_id <$> papers r) = ["hep-th/9901006"]
    /\ Forall (fun p => exists f, p_score p = Some f /\ float_cmp_Z f 0 = Some Gt)
              (papers r).
Proof.
  destruct (@get_papers Ref.applib Ref.graded_frame
              (Ref.listing (Some Ref.seven) None)) as [r|e] eqn:E;
    [|vm_compute in E; discriminate].
  exists r. split; [reflexivity|]. split; [reflexivity|].
  split; [revert E; vm_compute; now intros [= <-]|].
  destruct (@score_bounds_need_score_column Ref.applib Ref.graded_frame
              (Ref.listing (Some Ref.seven) None)) as (_ & Hpos & _).
  apply (Hpos eq_refl Ref.seven eq_refl); [reflexivity|exact E].
Defined.

(** ** The ingestion run: [main] *)

Import Main.

Section Ingestion.
Context `{MainLib}.

Lemma scrape_all_spec cats f u acc w :
  scrape_all cats f u acc w
  = (acc ++ fetched cats f u,
     {| fs := fs w;
        trace := trace w ++ ((fun c => Fetch c f u) <$> cats) |}).
Proof.
  revert acc w. induction cats as [|c cats IH]; intros acc w.
  - simpl. rewrite !app_nil_r. now destruct w.
  - cbn [scrape_all fetched]. unfold scrape_arxiv, fetch_result.
    destruct (scrape c f u) as [papers|e]; rewrite IH; cbn [fs trace emit];
      rewrite fmap_cons, <- !app_assoc; reflexivity.
Qed.

Lemma last_update_not_results : LAST_UPDATE_FILE <> RESULTS_FOLDER.
Proof. discriminate. Qed.

Lemma ensure_keeps_last_update w :
  fs (ensure_directories_exist w) !! LAST_UPDATE_FILE
  = fs w !! LAST_UPDATE_FILE.
Proof.
  unfold ensure_directories_exist.
  destruct (fs w !! RESULTS_FOLDER); [reflexivity|]. cbn [fs].
  apply lookup_insert_ne. discriminate.
Qed.

Lemma ensure_keeps_csv w :
  fs (ensure_directories_exist w) !! CSV_FILE = fs w !! CSV_FILE.
Proof.
  unfold ensure_directories_exist.
  destruct (fs w !! RESULTS_FOLDER); [reflexivity|]. cbn [fs].
  apply lookup_insert_ne. discriminate.
Qed.

Lemma read_last_update_ensure today w :
  read_last_update today (ensure_directories_exist w)
  = read_last_update today w.
Proof. unfold read_last_update. now rewrite ensure_keeps_last_update. Qed.

Lemma trace_ensure w :
  trace (ensure_directories_exist w) = trace w ++ mkdir_events w.
Proof.
  unfold ensure_directories_exist, mkdir_events.
  destruct (fs w !! RESULTS_FOLDER); [now rewrite app_nil_r|reflexivity].
Qed.

(** A run, step by step. *)
Lemma main_spec today w :
  main today w
  = update_last_update (strftime today)
      (save_results
         (fetched CATEGORIES
            (strftime (Z.max (read_last_update today w) (today - MAX_DAYS)))
            (strftime today))
         {| fs := fs (ensure_directories_exist w);
            trace := (trace w ++ mkdir_events w)
                     ++ ((fun c =>
                            Fetch c
                              (strftime (Z.max (read_last_update today w)
                                               (today - MAX_DAYS)))
                              (strftime today)) <$> CATEGORIES) |}).
Proof.
  unfold main, get_date_range. rewrite read_last_update_ensure.
  rewrite scrape_all_spec, trace_ensure. reflexivity.
Qed.

(** The events a run adds: the directory, one fetch per category over
    the same window, the two snapshot files when there is something to
    save, and the watermark. *)
Lemma new_events_main today w :
  new_events w (main today w)
  = mkdir_events w
    ++ ((fun c =>
           Fetch c
             (strftime (Z.max (read_last_update today w) (today - MAX_DAYS)))
             (strftime today)) <$> CATEGORIES)
    ++ match fetched CATEGORIES
               (strftime (Z.max (read_last_update today w) (today - MAX_DAYS)))
               (strftime today) with
       | [] => []
       | _ => [Write CSV_FILE; Write JSON_FILE]
       end
    ++ [Write LAST_UPDATE_FILE].
Proof.
  unfold new_events. rewrite main_spec.
  unfold update_last_update, save_results, write_file. cbn [fs trace].
  destruct (fetched _ _ _); cbn [fs trace];
    rewrite <- !app_assoc, drop_app_length; reflexivity.
Qed.

(** C8: a run whose watermark file holds a date [wm] fetches every
    category over the window from [max wm (today - MAX_DAYS)] to [today]
    (from [today - 7] when the watermark is 10 days old); and every run
    leaves [today] in the watermark file, whatever the fetches
    returned. *)
Theorem ingestion_window_and_watermark today w :
  (forall s wm,
      fs w !! LAST_UPDATE_FILE = Some (Text s) ->
      parse_date (strip s) = Ok wm ->
      get_date_range today (ensure_directories_exist w)
      = (strftime (Z.max wm (today - MAX_DAYS)), strftime today)
      /\ List.filter is_fetch (new_events w (main today w))
         = (fun c => Fetch c (strftime (Z.max wm (today - MAX_DAYS)))
                            (strftime today)) <$> CATEGORIES
      /\ (wm = today - 10 ->
          List.filter is_fetch (new_events w (main today w))
          = (fun c => Fetch c (strftime (today - 7)) (strftime today))
              <$> CATEGORIES))
  /\ fs (main today w) !! LAST_UPDATE_FILE = Some (Text (strftime today)).
Proof.
  split.
  - intros s wm Hf Hp.
    assert (Hr : read_last_update today w = wm).
    { unfold read_last_update. now rewrite Hf, Hp. }
    assert (Hev : List.filter is_fetch (new_events w (main today w))
                  = (fun c => Fetch c (strftime (Z.max wm (today - MAX_DAYS)))
                                     (strftime today)) <$> CATEGORIES).
    { rewrite new_events_main, Hr. unfold mkdir_events.
      destruct (fs w !! RESULTS_FOLDER); destruct (fetched _ _ _); reflexivity. }
    split; [|split; [exact Hev|]].
    + unfold get_date_range. now rewrite read_last_update_ensure, Hr.
    + intros ->. rewrite Hev. unfold MAX_DAYS.
      now replace (Z.max (today - 10) (today - 7)) with (today - 7) by lia.
  - rewrite main_spec. unfold update_last_update, write_file. cbn [fs].
    apply lookup_insert_eq.
Qed.

(** C10, as the code has it: every run writes the watermark file exactly
    once; a run that retrieved at least one record writes the snapshot
    file [results/arxiv_papers.csv] exactly once (and its JSON-lines copy
    once), after which the file holds the records of this run; a run that
    retrieved nothing writes no snapshot and leaves the file as it was. *)
Theorem ingestion_writes today w :
  let all := fetched CATEGORIES
               (get_date_range today (ensure_directories_exist w)).1
               (get_date_range today (ensure_directories_exist w)).2 in
  writes_to LAST_UPDATE_FILE (new_events w (main today w)) = 1%nat
  /\ (all <> [] ->
      writes_to CSV_FILE (new_events w (main today w)) = 1%nat
      /\ writes_to JSON_FILE (new_events w (main today w)) = 1%nat
      /\ fs (main today w) !! CSV_FILE = Some (Csv all))
  /\ (all = [] ->
      writes_to CSV_FILE (new_events w (main today w)) = 0%nat
      /\ fs (main today w) !! CSV_FILE = fs w !! CSV_FILE).
Proof.
  unfold get_date_range. cbn [fst snd]. rewrite read_last_update_ensure.
  rewrite new_events_main, main_spec.
  set (f := strftime (Z.max (read_last_update today w) (today - MAX_DAYS))).
  set (u := strftime today).
  unfold update_last_update, save_results, write_file, mkdir_events.
  cbv zeta.
  destruct (fetched CATEGORIES f u) as [|p ps] eqn:Hall; cbn [fs trace].
  - split; [destruct (fs w !! RESULTS_FOLDER); reflexivity|].
    split; [congruence|]. intros _.
    split; [destruct (fs w !! RESULTS_FOLDER); reflexivity|].
    rewrite lookup_insert_ne by discriminate. apply ensure_keeps_csv.
  - split; [destruct (fs w !! RESULTS_FOLDER); reflexivity|].
    split; [|congruence]. intros _.
    split; [destruct (fs w !! RESULTS_FOLDER); reflexivity|].
    split; [destruct (fs w !! RESULTS_FOLDER); reflexivity|].
    rewrite lookup_insert_ne by discriminate.
    rewrite lookup_insert_ne by discriminate.
    apply lookup_insert_eq.
Qed.
End Ingestion.

(** C8 on the machine of the earlier run, ten days after its watermark. *)
Lemma ingestion_window_and_watermark_witness :
  List.filter is_fetch
    (new_events Ref.earlier_run
       (@main (Ref.mainlib Ref.nothing_new) 739923 Ref.earlier_run))
  = [Fetch "cs" "2026-10-27" "2026-11-03";
     Fetch "eess" "2026-10-27" "2026-11-03";
     Fetch "stat" "2026-10-27" "2026-11-03"]
  /\ fs (@main (Ref.mainlib Ref.nothing_new) 739923 Ref.earlier_run)
       !! LAST_UPDATE_FILE = Some (Text "2026-11-03").
Proof.
  destruct (@ingestion_window_and_watermark (Ref.mainlib Ref.nothing_new)
              739923 Ref.earlier_run) as [Hwin Hmark].
  destruct (Hwin "2026-10-24" 739913) as (_ & _ & Hten).
  - apply lookup_insert_eq.
  - vm_compute. reflexivity.
  - split; [|exact Hmark]. rewrite Hten by reflexivity. vm_compute. reflexivity.
Defined.

(** C10 fails as stated: with the retrieval service down for every
    category, the run writes the watermark and no snapshot; the snapshot of
    the earlier run stays in place. *)
Lemma failed_run_writes_no_snapshot :
  new_events Ref.earlier_run
    (@main (Ref.mainlib Ref.service_down) 739923 Ref.earlier_run)
  = [Fetch "cs" "2026-10-27" "2026-11-03";
     Fetch "eess" "2026-10-27" "2026-11-03";
     Fetch "stat" "2026-10-27" "2026-11-03";
     Write "last_update.txt"]
  /\ writes_to CSV_FILE
       (new_events Ref.earlier_run
          (@main (Ref.mainlib Ref.service_down) 739923 Ref.earlier_run)) = 0%nat
  /\ fs (@main (Ref.mainlib Ref.service_down) 739923 Ref.earlier_run)
       !! CSV_FILE = Some (Csv [Ref.one_paper]).
Proof.
  assert (Hev : new_events Ref.earlier_run
                  (@main (Ref.mainlib Ref.service_down) 739923 Ref.earlier_run)
                = [Fetch "cs" "2026-10-27" "2026-11-03";
                   Fetch "eess" "2026-10-27" "2026-11-03";
                   Fetch "stat" "2026-10-27" "2026-11-03";
                   Write "last_update.txt"]).
  { rewrite new_events_main. unfold mkdir_events.
    replace (fs Ref.earlier_run !! RESULTS_FOLDER) with (Some Directory).
    - vm_compute. reflexivity.
    - symmetry. unfold Ref.earlier_run. cbn [fs].
      rewrite lookup_insert_ne by discriminate.
      rewrite lookup_insert_ne by discriminate.
      apply lookup_insert_eq. }
  split; [exact Hev|]. split; [now rewrite Hev|].
  vm_compute. reflexivity.
Qed.

(** C10 as amended, on the machine of the earlier run with one new paper in
    [cs]: one write of the snapshot, which now holds that paper, and one
    write of the watermark. *)
Lemma ingestion_writes_witness :
  writes_to LAST_UPDATE_FILE
    (new_events Ref.earlier_run
       (@main (Ref.mainlib Ref.only_cs) 739923 Ref.earlier_run)) = 1%nat
  /\ writes_to CSV_FILE
       (new_events Ref.earlier_run
          (@main (Ref.mainlib Ref.only_cs) 739923 Ref.earlier_run)) = 1%nat.
Proof.
  destruct (@ingestion_writes (Ref.mainlib Ref.only_cs) 739923 Ref.earlier_run)
    as (Hmark & Hsome & _).
  split; [exact Hmark|].
  apply Hsome. vm_compute. discriminate.
Defined.

(** * Further properties *)

(** ** [evaluate_abstract]: what each kind of reply becomes *)

Local Open Scope string_scope.

(** The lazy star stops at the first place where what follows matches. *)
Lemma star_lazy_first {A} p s (k : string -> option A) a :
  star_lazy p s k = Some a ->
  exists pre rest,
    s = pre ++ rest /\ k rest = Some a
    /\ forall pre1 c pre2, pre = pre1 ++ String c pre2 ->
                           k (String c pre2 ++ rest) = None.
Proof.
  induction s as [|c s IH]; cbn [star_lazy].
  - destruct (k EmptyString) eqn:Hk; [|discriminate].
    intros [= ->]. exists EmptyString, EmptyString. repeat split; auto.
    intros [|x pre1] c pre2 E; discriminate.
  - destruct (k (String c s)) eqn:Hk.
    + intros [= ->]. exists EmptyString, (String c s). repeat split; auto.
      intros [|x pre1] d pre2 E; discriminate.
    + destruct (p c); [|discriminate]. intros Hs.
      destruct (IH Hs) as (pre & rest & -> & Hr & Hfail).
      exists (String c pre), rest. repeat split; auto.
      intros [|x pre1] d pre2 E.
      * rewrite append_nil in E. injection E as <- <-. exact Hk.
      * rewrite append_cons in E. injection E as <- E. now apply (Hfail pre1).
Qed.

Lemma all_chars_split p pre :
  (forall pre1 c pre2, pre = pre1 ++ String c pre2 -> p c = true) ->
  all_chars p pre = true.
Proof.
  induction pre as [|c pre IH]; intros Hall; [reflexivity|].
  cbn [all_chars]. rewrite (Hall EmptyString c pre eq_refl). simpl.
  apply IH. intros pre1 d pre2 E. apply (Hall (String c pre1) d pre2).
  rewrite append_cons. now f_equal.
Qed.

(** What group 1 of the reasoning pattern captures: the text up to the
    first quote character that follows the opening one. *)
Lemma reasoning_capture text m :
  Re.search reasoning_re text = Some m ->
  exists pre, group1 m = Some pre
              /\ all_chars (fun c => negb (is_quote c)) pre = true.
Proof.
  intros Hs. apply search_match_at in Hs as (s & Hm).
  unfold match_at, reasoning_re in Hm.
  apply bt_seq_sound in Hm as (p1 & s1 & _ & _ & Hm); [|reflexivity].
  apply bt_seq_sound in Hm as (p2 & s2 & _ & _ & Hm); [|reflexivity].
  apply bt_seq_sound in Hm as (p3 & s3 & _ & _ & Hm); [|reflexivity].
  apply bt_seq_sound in Hm as (p4 & s4 & _ & _ & Hm); [|reflexivity].
  apply bt_seq_sound in Hm as (p5 & s5 & _ & _ & Hm); [|reflexivity].
  apply bt_seq_sound in Hm as (p6 & s6 & _ & _ & Hm); [|reflexivity].
  cbn [bt] in Hm.
  apply star_lazy_first in Hm as (pre & rest & -> & Hk & Hfail).
  rewrite consumed_app in Hk.
  exists pre. split.
  - destruct rest as [|q rest]; [discriminate|].
    destruct (is_quote q); [|discriminate].
    destruct rest as [|b rest]; [now injection Hk as <-|].
    destruct (is_char "}" b); now injection Hk as <-.
  - apply all_chars_split. intros pre1 c pre2 E.
    specialize (Hfail pre1 c pre2 E). rewrite append_cons in Hfail.
    destruct (is_quote c); [|reflexivity].
    destruct (pre2 ++ rest) as [|b t]; [discriminate|].
    destruct (is_char "}" b); discriminate.
Qed.

Local Open Scope list_scope.

Section Replies.
Context `{JsonLib}.

(** A reply that does not decode never gets the sentinel: the fallback
    path returns an annotation whose score lies in [1, 10], and whose
    reasoning is text without a quote character in it or the
    placeholder. *)
Theorem malformed_reply_is_scored (abstract : string)
        (call : string -> res string) (content msg : string) :
  call abstract = Ok content ->
  json_loads (strip content) = Raise (JSONDecodeError msg) ->
  score (evaluate_abstract abstract call) <> PyInt 0
  /\ num_le (PyInt 1) (score (evaluate_abstract abstract call)) = true
  /\ num_le (score (evaluate_abstract abstract call)) (PyInt 10) = true
  /\ exists s, reasoning (evaluate_abstract abstract call) = VStr s
               /\ all_chars (fun c => negb (is_quote c)) s = true.
Proof.
  intros Hc Hj. unfold evaluate_abstract. rewrite Hc.
  destruct (parse_fallback_total (strip content)) as [a Ha].
  rewrite (evaluate_reply_fallback content msg a Hj Ha).
  destruct (parse_fallback_range _ _ Ha) as [Hlo Hhi].
  split; [|split; [exact Hlo|split; [exact Hhi|]]].
  - intros E. rewrite E in Hlo. discriminate.
  - unfold parse_fallback in Ha.
    destruct (match Re.search score_re (strip content) with
              | Some m => _ | None => _ end) as [sc|e]; [|discriminate].
    simpl in Ha. injection Ha as <-. cbn [reasoning].
    destruct (Re.search reasoning_re (strip content)) as [m|] eqn:Hr.
    + destruct (reasoning_capture _ _ Hr) as (pre & Hg & Hq).
      exists pre. unfold group. now rewrite Hg.
    + eexists. split; reflexivity.
Qed.
End Replies.

(** The reply [reasoning: 'It's early'] keeps only what stands before the
    apostrophe. *)
Lemma malformed_reply_is_scored_witness :
  score (@evaluate_abstract Ref.json "An abstract."
           (fun _ => Ok "score: 4, reasoning: 'It's early'")) <> PyInt 0
  /\ reasoning (@evaluate_abstract Ref.json "An abstract."
                  (fun _ => Ok "score: 4, reasoning: 'It's early'"))
     = VStr "It".
Proof.
  destruct (@malformed_reply_is_scored Ref.json "An abstract."
              (fun _ => Ok "score: 4, reasoning: 'It's early'")
              "score: 4, reasoning: 'It's early'" "Expecting value")
    as (Hne & _).
  - reflexivity.
  - vm_compute. reflexivity.
  - split; [exact Hne|]. vm_compute. reflexivity.
Defined.

(** *** Comparisons of a float with integers *)

Import Notions.

Lemma float_ge_mono f z z' :
  z <= z' -> is_ge (float_cmp_Z f z') = true -> is_ge (float_cmp_Z f z) = true.
Proof. intros Hz H. float_cases f. Qed.

Lemma float_le_lt f z z' :
  z < z' -> is_le (float_cmp_Z f z) = true -> is_lt (float_cmp_Z f z') = true.
Proof. intros Hz H. float_cases f. Qed.

Lemma float_lt_not_ge f z :
  is_nan f = false -> is_lt (float_cmp_Z f z) = negb (is_ge (float_cmp_Z f z)).
Proof. intros H. float_cases f. Qed.






Section Decoded.
Context `{JsonLib}.



(** A reply that decodes to an object without a [score] key is annotated
    with the score 1: the default 0 of line 64 is clamped by line 65. *)
Theorem decoded_without_score_key (abstract : string)
        (call : string -> res string) (content : string)
        (d : list (string * value)) :
  call abstract = Ok content ->
  json_loads (strip content) = Ok (VDict d) ->
  assoc "score" d = None ->
  evaluate_abstract abstract call
  = {| score := PyInt 1;
       reasoning := default (VStr "No reasoning provided")
                            (assoc "reasoning" d) |}.
Proof.
  intros Hc Hj Hs.
  unfold evaluate_abstract, evaluate_reply, evaluate_body, parse_json.
  rewrite Hc. simpl. rewrite Hj. simpl. rewrite Hs. simpl.
  now destruct (assoc "reasoning" d).
Qed.
End Decoded.



Lemma decoded_without_score_key_witness :
  @evaluate_abstract Ref.json "An abstract."
    (fun _ => Ok (Ref.qq "{`reasoning`: `Promising.`}"))
  = {| score := PyInt 1; reasoning := VStr "Promising." |}.
Proof.
  apply (@decoded_without_score_key Ref.json "An abstract."
           (fun _ => Ok (Ref.qq "{`reasoning`: `Promising.`}"))
           (Ref.qq "{`reasoning`: `Promising.`}")
           [("reasoning", VStr "Promising.")]).
  - reflexivity.
  - vm_compute. reflexivity.
  - reflexivity.
Defined.

(** ** [evaluate_papers]: the frame it writes *)


Section Written.
Context `{JsonLib} `{PathLib} `{PandasLib}.



(** A run writes one file and no other: every path except the output path
    holds what it held, the input included when the output goes elsewhere;
    and a run on a missing input raises without writing. *)
Theorem evaluate_papers_writes_one_file fs c path out num_rows :
  (fs !! path = None ->
   exists e, evaluate_papers fs c path out num_rows = Raise e)
  /\ (forall r,
         evaluate_papers fs c path out num_rows = Ok r ->
         (forall p, p <> output_file path out -> run_files r !! p = fs !! p)
         /\ (output_file path out <> path -> run_files r !! path = fs !! path)
         /\ dom (run_files r) = {[output_file path out]} ∪ dom fs).
Proof.
  split.
  - intros Hf. unfold evaluate_papers. rewrite Hf. eexists. reflexivity.
  - intros r Hr.
    destruct (evaluate_papers_ok _ _ _ _ _ _ Hr) as (text & df0 & Hf & _ & ->).
    cbn [run_files].
    split; [|split].
    + intros p Hp. now apply lookup_insert_ne.
    + intros Hp. now apply lookup_insert_ne.
    + apply dom_insert_L.
Qed.

End Written.


Lemma evaluate_papers_writes_one_file_witness :
  exists r,
    @evaluate_papers Ref.json Ref.pathlib Ref.pandas
      {[ "results/arxiv_papers.csv" := Ref.scored_csv ]}
      (Ref.always "score: 4, reasoning: 'Early.'")
      "results/arxiv_papers.csv" None (RowsInt 1) = Ok r
    /\ run_files r !! "results/arxiv_papers.csv" = Some Ref.scored_csv.
Proof.
  destruct (@evaluate_papers Ref.json Ref.pathlib Ref.pandas
              {[ "results/arxiv_papers.csv" := Ref.scored_csv ]}
              (Ref.always "score: 4, reasoning: 'Early.'")
              "results/arxiv_papers.csv" None (RowsInt 1)) as [r|e] eqn:E.
  - exists r. split; [reflexivity|].
    destruct (proj2 (@evaluate_papers_writes_one_file Ref.json Ref.pathlib
                       Ref.pandas _ _ _ _ _) r E) as (_ & Hin & _).
    rewrite Hin; [apply lookup_singleton_eq|]. vm_compute. discriminate.
  - exfalso.
    rewrite (@evaluate_papers_run Ref.json Ref.pathlib Ref.pandas _ _ _ _ _
               Ref.scored_csv Ref.scored_frame) in E.
    + discriminate.
    + apply lookup_singleton_eq.
    + vm_compute. reflexivity.
    + repeat constructor.
    + apply stores_always.
Defined.


(** ** [get_paper] and the listing *)

Import Catalog.

Lemma filter_first (f : Row -> bool) l x t :
  List.filter f l = x :: t ->
  exists i, l !! i = Some x /\ f x = true
            /\ forall j y, (j < i)%nat -> l !! j = Some y -> f y = false.
Proof.
  induction l as [|a l IH]; [discriminate|]. cbn [List.filter].
  destruct (f a) eqn:Ha.
  - intros [= -> _]. exists 0%nat. repeat split; auto. intros j y Hj. lia.
  - intros Hl. destruct (IH Hl) as (i & Hi & Hx & Hbefore).
    exists (S i). repeat split; auto.
    intros [|j] y Hj Hy; [now injection Hy as <-|].
    apply (Hbefore j); [lia|exact Hy].
Qed.

Lemma filter_nil_none (f : Row -> bool) l :
  List.filter f l = [] <-> forall x, x ∈ l -> f x = false.
Proof.
  induction l as [|a l IH]; cbn [List.filter].
  - split; [intros _ x Hx; inversion Hx|reflexivity].
  - destruct (f a) eqn:Ha.
    + split; [discriminate|]. intros Hall.
      rewrite (Hall a) in Ha; [discriminate|constructor].
    + rewrite IH. split.
      * intros Hall x Hx. apply elem_of_cons in Hx as [->|Hx]; auto.
      * intros Hall x Hx. apply Hall. now constructor.
Qed.

Lemma filter_true (l : list Row) : List.filter (fun _ => true) l = l.
Proof. induction l as [|a l IH]; simpl; congruence. Qed.

Lemma id_is_spec pid r : id_is pid r = true <-> id r = VStr pid.
Proof.
  unfold id_is. destruct (id r) as [| | | |s| |]; try (split; discriminate).
  rewrite String.eqb_eq. split; congruence.
Qed.

Lemma id_is_number pid r : is_text (id r) = false -> id_is pid r = false.
Proof. unfold id_is, is_text. now destruct (id r). Qed.

Section Detail.
Context `{AppLib}.

(** [get_paper] answers with the first row, in file order, whose id cell
    is the text asked for; it answers 404 exactly when the snapshot has no
    such row, as it does for every request when the ids of the file were
    read as numbers. *)
Theorem get_paper_first_match df pid :
  (forall p,
      get_paper df pid = Found p ->
      exists i row,
        rows df !! i = Some row /\ id row = VStr pid
        /\ p = to_paper df row /\ p_id p = pid
        /\ forall j row', (j < i)%nat -> rows df !! j = Some row' ->
                          id row' <> VStr pid)
  /\ ((exists row, row ∈ rows df /\ id row = VStr pid) ->
      exists p, get_paper df pid = Found p)
  /\ ((forall row, row ∈ rows df -> id row <> VStr pid) ->
      exists d, get_paper df pid = NotFound d)
  /\ (Forall (fun row => is_text (id row) = false) (rows df) ->
      exists d, get_paper df pid = NotFound d).
Proof.
  assert (Hnone : (forall row, row ∈ rows df -> id row <> VStr pid) ->
                  exists d, get_paper df pid = NotFound d).
  { unfold get_paper. intros Hall.
    destruct (rows df) as [|x l] eqn:Hrows; [eexists; reflexivity|].
    rewrite <- Hrows in *.
    destruct (List.filter _ (rows df)) as [|row' t] eqn:Hf; [eexists; reflexivity|].
    apply filter_first in Hf as (i & Hi & Hid & _).
    apply id_is_spec in Hid. exfalso. apply (Hall row'); [|exact Hid].
    apply list_elem_of_lookup. now exists i. }
  split; [|split; [|split; [exact Hnone|]]].
  - unfold get_paper.
    intros p. destruct (rows df) as [|x l] eqn:Hrows; [discriminate|].
    rewrite <- Hrows.
    destruct (List.filter _ (rows df)) as [|row t] eqn:Hf; [discriminate|].
    intros [= <-]. apply filter_first in Hf as (i & Hi & Hid & Hbefore).
    apply id_is_spec in Hid. exists i, row.
    split; [exact Hi|]. split; [exact Hid|]. split; [reflexivity|].
    split; [unfold to_paper; cbn [p_id]; now rewrite Hid|].
    intros j row' Hj Hrow' E. specialize (Hbefore j row' Hj Hrow').
    apply id_is_spec in E. congruence.
  - unfold get_paper. intros (row & Hin & Hid).
    destruct (rows df) as [|x l] eqn:Hrows; [inversion Hin|]. rewrite <- Hrows in *.
    destruct (List.filter _ (rows df)) as [|row' t] eqn:Hf; [|eexists; reflexivity].
    rewrite filter_nil_none in Hf. specialize (Hf row Hin).
    apply id_is_spec in Hid. congruence.
  - intros Hnum. apply Hnone. intros row Hin Hid.
    rewrite Forall_forall in Hnum. specialize (Hnum row Hin).
    now rewrite Hid in Hnum.
Qed.

(** What the two text filters return is a selection of the rows. *)
Lemma filter_search_keeps q df l :
  filter_search q df = Ok l -> exists f, l = List.filter f (rows df).
Proof.
  unfold filter_search. destruct (given (search q)) as [t|].
  - destruct (str_accessor (title <$> rows df)); simpl; [|discriminate].
    destruct (re_compile (lower t)) as [found|e]; simpl; [|discriminate].
    destruct (str_accessor (abstract <$> rows df)); simpl; [|discriminate].
    intros [= <-]. eexists. reflexivity.
  - intros [= <-]. exists (fun _ => true). now rewrite filter_true.
Qed.

Lemma filter_category_keeps q l l' :
  filter_category q l = Ok l' -> exists f, l' = List.filter f l.
Proof.
  unfold filter_category. destruct (given (category q)) as [k|].
  - destruct (re_compile k) as [found|e]; simpl; [|discriminate].
    intros [= <-]. eexists. reflexivity.
  - intros [= <-]. exists (fun _ => true). now rewrite filter_true.
Qed.

(** Whatever the filters keep is a row of the snapshot. *)
Lemma matching_Forall (P : Row -> Prop) q df l :
  Forall P (rows df) -> matching q df = Ok l -> Forall P l.
Proof.
  intros HP. unfold matching.
  destruct (filter_search q df) as [l1|e] eqn:H1; simpl; [|discriminate].
  destruct (filter_category q l1) as [l2|e] eqn:H2; simpl; [|discriminate].
  apply filter_search_keeps in H1 as [f1 ->].
  apply filter_category_keeps in H2 as [f2 ->].
  intros [= <-]. apply Forall_sort_step, Forall_filter_max, Forall_filter_min.
  now apply Forall_filter_keep, Forall_filter_keep.
Qed.

(** What a served page holds: rows of the snapshot. *)
Lemma papers_from_rows df q r :
  get_papers df q = Ok r ->
  Forall (fun p => exists row, row ∈ rows df /\ p = to_paper df row) (papers r).
Proof.
  intros Hr. pose proof (get_papers_valid _ _ _ Hr) as Hv.
  destruct (rows df) as [|x rest] eqn:Hrows.
  - rewrite (get_papers_empty df q Hv Hrows) in Hr. injection Hr as <-.
    constructor.
  - assert (Hne : rows df <> []) by (rewrite Hrows; discriminate).
    rewrite <- Hrows in *.
    destruct (matching q df) as [l|e] eqn:Hm.
    2:{ unfold get_papers in Hr. rewrite Hv in Hr. simpl in Hr.
        destruct (rows df); [congruence|]. rewrite Hm in Hr. discriminate. }
    rewrite (get_papers_matching df q l Hv Hne Hm) in Hr.
    injection Hr as <-. cbn [papers].
    apply Forall_fmap. unfold iloc. apply Forall_take, Forall_drop.
    eapply Forall_impl.
    + apply (matching_Forall (fun row => row ∈ rows df) q df l); [|exact Hm].
      apply Forall_forall. auto.
    + intros row Hrow. simpl. now exists row.
Qed.

Lemma get_paper_of_row df row pid :
  row ∈ rows df ->
  id row = VStr pid ->
  exists i row',
    get_paper df pid = Found (to_paper df row')
    /\ rows df !! i = Some row' /\ id row' = VStr pid.
Proof.
  intros Hin Hrow. unfold get_paper.
  destruct (rows df) as [|x rest] eqn:Hrows; [inversion Hin|].
  rewrite <- Hrows in *. clear x rest Hrows.
  destruct (List.filter (id_is pid) (rows df)) as [|row' t] eqn:Hf.
  - rewrite filter_nil_none in Hf. specialize (Hf row Hin).
    apply id_is_spec in Hrow. congruence.
  - destruct (filter_first _ _ _ _ Hf) as (i & Hi & Hid & _).
    apply id_is_spec in Hid. now exists i, row'.
Qed.

(** When the ids of the snapshot were read as text, every paper of a
    served page can be fetched by its id: [get_paper] answers with a paper
    of that id, and with the very same paper when the ids of the snapshot
    are distinct.  When the ids were read as numbers, no paper of a served
    page can be fetched: [get_paper] answers 404 for the id the page
    shows. *)
Theorem listed_paper_can_be_fetched df q r p :
  get_papers df q = Ok r ->
  p ∈ papers r ->
  (Forall (fun row => is_text (id row) = true) (rows df) ->
   exists p',
     get_paper df (p_id p) = Found p' /\ p_id p' = p_id p
     /\ (NoDup (id <$> rows df) -> p' = p))
  /\ (Forall (fun row => is_text (id row) = false) (rows df) ->
      exists d, get_paper df (p_id p) = NotFound d).
Proof.
  intros Hr Hp.
  pose proof (papers_from_rows df q r Hr) as Hall.
  rewrite Forall_forall in Hall. destruct (Hall p Hp) as (row & Hin & ->).
  split.
  - intros Htext. rewrite Forall_forall in Htext.
    pose proof (Htext row Hin) as Hrow.
    destruct (id row) as [| | | |s| |] eqn:Hid; try discriminate.
    assert (Hpid : forall x, id x = VStr s -> p_id (to_paper df x) = s).
    { intros x Hx. unfold to_paper. cbn [p_id]. now rewrite Hx. }
    rewrite (Hpid row Hid).
    destruct (get_paper_of_row df row s Hin Hid) as (i & row' & Hp' & Hi & Hid').
    exists (to_paper df row'). split; [exact Hp'|].
    split; [exact (Hpid row' Hid')|]. intros Hnd.
    apply list_elem_of_lookup in Hin as [j Hj].
    assert (i = j).
    { apply (NoDup_lookup (id <$> rows df) i j (VStr s) Hnd);
        rewrite list_lookup_fmap; [rewrite Hi | rewrite Hj]; simpl; congruence. }
    subst j. congruence.
  - intros Hnum. unfold get_paper.
    destruct (rows df) as [|x rest] eqn:Hrows; [eexists; reflexivity|].
    rewrite <- Hrows in *.
    destruct (List.filter _ (rows df)) as [|row' t] eqn:Hf; [eexists; reflexivity|].
    apply filter_first in Hf as (i & Hi & Hid & _).
    rewrite Forall_forall in Hnum.
    rewrite (id_is_number _ row') in Hid; [discriminate|].
    apply Hnum, list_elem_of_lookup. now exists i.
Qed.

(** A served page holds at most [per_page] papers, and the total it
    reports is at most the number of rows of the snapshot. *)
Theorem page_and_total_bounds df q r :
  get_papers df q = Ok r ->
  Z.of_nat (List.length (papers r)) <= per_page q
  /\ 0 <= total r <= Z.of_nat (List.length (rows df)).
Proof.
  intros Hr. pose proof (get_papers_valid _ _ _ Hr) as Hv.
  pose proof (valid_per_page _ Hv) as HP.
  destruct (rows df) as [|x rest] eqn:Hrows.
  - rewrite (get_papers_empty df q Hv Hrows) in Hr. injection Hr as <-.
    simpl. lia.
  - assert (Hne : rows df <> []) by (rewrite Hrows; discriminate).
    rewrite <- Hrows in *.
    destruct (matching q df) as [l|e] eqn:Hm.
    2:{ unfold get_papers in Hr. rewrite Hv in Hr. simpl in Hr.
        destruct (rows df); [congruence|]. rewrite Hm in Hr. discriminate. }
    rewrite (get_papers_matching df q l Hv Hne Hm) in Hr.
    injection Hr as <-. cbn [papers total].
    split.
    + rewrite length_fmap. unfold iloc. rewrite length_take. lia.
    + split; [lia|]. apply inj_le.
      clear -Hm. revert Hm. unfold matching.
      assert (Hfl : forall (f : Row -> bool) (l : list Row),
                 (List.length (List.filter f l) <= List.length l)%nat).
      { intros f l0. induction l0 as [|a l0 IH]; simpl; [lia|].
        destruct (f a); simpl; lia. }
      assert (Hstep : forall l0, (List.length (sort_step q df
                         (filter_max q df (filter_min q df l0)))
                       <= List.length l0)%nat).
      { intros l0.
        assert (Hs : List.length (sort_step q df (filter_max q df (filter_min q df l0)))
                     = List.length (filter_max q df (filter_min q df l0))).
        { unfold sort_step. destruct (sort_by q); try destruct (has_score df);
            try reflexivity; apply Permutation_length, sort_values_perm. }
        rewrite Hs. unfold filter_max, filter_min.
        destruct (max_score q), (min_score q), (has_score df); auto;
          try (etransitivity; [apply Hfl|]); auto. }
      destruct (filter_search q df) as [l1|e] eqn:H1; simpl; [|discriminate].
      destruct (filter_category q l1) as [l2|e] eqn:H2; simpl; [|discriminate].
      apply filter_search_keeps in H1 as [f1 ->].
      apply filter_category_keeps in H2 as [f2 ->].
      intros [= <-]. etransitivity; [apply Hstep|].
      etransitivity; apply Hfl.
Qed.
End Detail.

Lemma get_paper_first_match_witness :
  exists p, @get_paper Ref.applib Ref.scored_frame "hep-th/9901001" = Found p
            /\ p_id p = "hep-th/9901001".
Proof.
  destruct (@get_paper_first_match Ref.applib Ref.scored_frame "hep-th/9901001")
    as (Hfound & Hex & _).
  destruct Hex as [p Hp].
  - eexists. split; [apply list_elem_of_here|reflexivity].
  - exists p. split; [exact Hp|].
    destruct (Hfound p Hp) as (i & row & _ & _ & _ & Hid & _). exact Hid.
Defined.

(** A file of identifiers that all read as numbers: the page shows the
    paper 2401.10000 under the id 2401.1, and neither text finds it. *)
Lemma numbered_paper_is_not_found :
  pd_read_csv (PandasLib := Ref.pandas) Ref.numbered_csv = Ok Ref.numbered_frame
  /\ (exists r,
         @get_papers Ref.applib Ref.numbered_frame (Ref.listing None None) = Ok r
         /\ (p_id <$> papers r) = ["2401.00002"; "2401.1"])
  /\ @get_paper Ref.applib Ref.numbered_frame "2401.1"
     = NotFound "Paper not found"
  /\ @get_paper Ref.applib Ref.numbered_frame "2401.10000"
     = NotFound "Paper not found".
Proof.
  split; [vm_compute; reflexivity|].
  split; [eexists; split; vm_compute; reflexivity|].
  split; vm_compute; reflexivity.
Qed.

Lemma listed_paper_can_be_fetched_witness :
  exists r p p',
    @get_papers Ref.applib Ref.scored_frame (Ref.listing None None) = Ok r
    /\ papers r = [p]
    /\ @get_paper Ref.applib Ref.scored_frame (p_id p) = Found p'
    /\ p' = p.
Proof.
  destruct (@get_papers Ref.applib Ref.scored_frame (Ref.listing None None))
    as [r|e] eqn:E; [|vm_compute in E; discriminate].
  assert (Hp : exists p, papers r = [p]).
  { revert E. vm_compute. intros [= <-]. eexists. reflexivity. }
  destruct Hp as [p Hp].
  destruct (@listed_paper_can_be_fetched Ref.applib Ref.scored_frame
              (Ref.listing None None) r p E) as [Htext _].
  - rewrite Hp. apply list_elem_of_here.
  - destruct Htext as (p' & Hget & _ & Hsame).
    + repeat constructor.
    + exists r, p, p'. split; [reflexivity|]. split; [exact Hp|].
      split; [exact Hget|]. apply Hsame. repeat constructor.
      intros Hin. inversion Hin.
Defined.

Lemma page_and_total_bounds_witness :
  exists r,
    @get_papers Ref.applib Ref.unscored_frame (Ref.listing None None) = Ok r
    /\ Z.of_nat (List.length (papers r)) <= 20.
Proof.
  destruct (@get_papers Ref.applib Ref.unscored_frame (Ref.listing None None))
    as [r|e] eqn:E; [|vm_compute in E; discriminate].
  exists r. split; [reflexivity|].
  apply (proj1 (@page_and_total_bounds Ref.applib _ _ _ E)).
Defined.

(** ** [get_stats] *)

Lemma length_filter_cons (f : Row -> bool) r l :
  List.length (List.filter f (r :: l))
  = (ind (f r) + List.length (List.filter f l))%nat.
Proof. cbn [List.filter]. now destruct (f r). Qed.

Lemma length_filter_le (f : Row -> bool) l :
  (List.length (List.filter f l) <= List.length l)%nat.
Proof.
  induction l as [|a l IH]; [reflexivity|].
  rewrite length_filter_cons. simpl. destruct (f a); simpl; lia.
Qed.

Lemma filter_all (f : Row -> bool) l :
  Forall (fun r => f r = true) l -> List.filter f l = l.
Proof.
  induction 1 as [|a l Ha Hl IH]; [reflexivity|].
  cbn [List.filter]. now rewrite Ha, IH.
Qed.

(** A score that is not NaN falls into exactly one of the ten buckets when
    it lies in [1, 11), and into none otherwise. *)
Lemma one_bucket r :
  is_nan (row_score r) = false ->
  (ind (in_bucket 1 r) + ind (in_bucket 2 r) + ind (in_bucket 3 r)
   + ind (in_bucket 4 r) + ind (in_bucket 5 r) + ind (in_bucket 6 r)
   + ind (in_bucket 7 r) + ind (in_bucket 8 r) + ind (in_bucket 9 r)
   + ind (in_bucket 10 r))%nat
  = ind (in_buckets r).
Proof.
  intros Hn. unfold in_bucket, in_buckets.
  rewrite !(float_lt_not_ge _ _ Hn).
  assert (Hm : forall k, is_ge (float_cmp_Z (row_score r) (k + 1)) = true ->
                         is_ge (float_cmp_Z (row_score r) k) = true)
    by (intros k; apply float_ge_mono; lia).
  pose proof (Hm 1) as H1. pose proof (Hm 2) as H2. pose proof (Hm 3) as H3.
  pose proof (Hm 4) as H4. pose proof (Hm 5) as H5. pose proof (Hm 6) as H6.
  pose proof (Hm 7) as H7. pose proof (Hm 8) as H8. pose proof (Hm 9) as H9.
  pose proof (Hm 10) as H10. clear Hm.
  change (1 + 1) with 2 in *; change (2 + 1) with 3 in *; change (3 + 1) with 4 in *;
  change (4 + 1) with 5 in *; change (5 + 1) with 6 in *; change (6 + 1) with 7 in *;
  change (7 + 1) with 8 in *; change (8 + 1) with 9 in *; change (9 + 1) with 10 in *;
  change (10 + 1) with 11 in *.
  set (t1 := is_ge (float_cmp_Z (row_score r) 1)) in *.
  set (t2 := is_ge (float_cmp_Z (row_score r) 2)) in *.
  set (t3 := is_ge (float_cmp_Z (row_score r) 3)) in *.
  set (t4 := is_ge (float_cmp_Z (row_score r) 4)) in *.
  set (t5 := is_ge (float_cmp_Z (row_score r) 5)) in *.
  set (t6 := is_ge (float_cmp_Z (row_score r) 6)) in *.
  set (t7 := is_ge (float_cmp_Z (row_score r) 7)) in *.
  set (t8 := is_ge (float_cmp_Z (row_score r) 8)) in *.
  set (t9 := is_ge (float_cmp_Z (row_score r) 9)) in *.
  set (t10 := is_ge (float_cmp_Z (row_score r) 10)) in *.
  set (t11 := is_ge (float_cmp_Z (row_score r) 11)) in *.
  clearbody t1 t2 t3 t4 t5 t6 t7 t8 t9 t10 t11.
  destruct t1, t2; try (now specialize (H1 eq_refl));
    destruct t3; try (now specialize (H2 eq_refl));
    destruct t4; try (now specialize (H3 eq_refl));
    destruct t5; try (now specialize (H4 eq_refl));
    destruct t6; try (now specialize (H5 eq_refl));
    destruct t7; try (now specialize (H6 eq_refl));
    destruct t8; try (now specialize (H7 eq_refl));
    destruct t9; try (now specialize (H8 eq_refl));
    destruct t10; try (now specialize (H9 eq_refl));
    destruct t11; try (now specialize (H10 eq_refl));
    reflexivity.
Qed.

Lemma evaluated_not_nan r : evaluated r = true -> is_nan (row_score r) = false.
Proof. unfold evaluated. now destruct (row_score r). Qed.

(** The ten bucket counts add up to the number of rows in [1, 11). *)
Lemma bucket_counts_sum l :
  Forall (fun r => is_nan (row_score r) = false) l ->
  sum_list ((fun i => List.length (List.filter (in_bucket i) l)) <$> seqZ 1 10)
  = List.length (List.filter in_buckets l).
Proof.
  replace (seqZ 1 10) with [1; 2; 3; 4; 5; 6; 7; 8; 9; 10] by reflexivity.
  cbn [fmap list_fmap sum_list sum_list_with]. unfold Datatypes.id.
  induction 1 as [|r l Hr Hl IH]; [reflexivity|].
  rewrite !length_filter_cons, <- (one_bucket r Hr). lia.
Qed.

Section Stats.
Context `{StatsLib}.

(** The histogram never counts more rows than [evaluated_papers]: a row is
    counted in one bucket when its score lies in [1, 11) and in none when
    it is positive but below 1, or 11 and more.  When every score of the
    snapshot is one the scoring engine sets, the ten counts add up to
    [evaluated_papers] exactly. *)
Theorem histogram_counts_evaluated df last_update :
  (sum_list (score_distribution (get_stats df last_update)).*2
   <= evaluated_papers (get_stats df last_update))%nat
  /\ (Forall (fun r => engine_score (row_score r)) (rows df) ->
      sum_list (score_distribution (get_stats df last_update)).*2
      = evaluated_papers (get_stats df last_update))
  /\ (evaluated_papers (get_stats df last_update) <= List.length (rows df))%nat.
Proof.
  unfold get_stats. destruct (rows df) as [|x rest] eqn:Hrows.
  { simpl. repeat split; lia. }
  rewrite <- Hrows. clear x rest Hrows.
  set (ev := if has_score df then List.filter evaluated (rows df) else []).
  assert (Hev : Forall (fun r => evaluated r = true /\ r ∈ rows df) ev).
  { subst ev. destruct (has_score df); [|constructor].
    apply Forall_forall. intros r Hr. apply list_elem_of_In in Hr.
    apply filter_In in Hr as [Hin He]. split; [exact He|now apply list_elem_of_In]. }
  assert (Hlen : (List.length ev <= List.length (rows df))%nat).
  { subst ev. destruct (has_score df); [apply length_filter_le|simpl; lia]. }
  cbn [score_distribution evaluated_papers].
  destruct (List.length ev) as [|n] eqn:Hn.
  { simpl. repeat split; lia. }
  rewrite <- Hn. rewrite <- list_fmap_compose.
  assert (Hsum : sum_list
                   (snd ∘ (fun i => (str_of_int i,
                                     List.length (List.filter (in_bucket i) ev)))
                      <$> seqZ 1 10)
                 = List.length (List.filter in_buckets ev)).
  { rewrite <- bucket_counts_sum.
    - f_equal.
    - eapply Forall_impl; [exact Hev|]. intros r [He _].
      now apply evaluated_not_nan. }
  rewrite Hsum. split; [apply length_filter_le|]. split; [|lia].
  intros Heng. f_equal. apply filter_all.
  eapply Forall_impl; [exact Hev|]. intros r [He Hin]. cbn beta.
  rewrite Forall_forall in Heng. specialize (Heng r Hin).
  unfold evaluated in He. unfold in_buckets.
  destruct Heng as [E|[Hlo Hhi]].
  - rewrite E in He. discriminate.
  - rewrite Hlo. simpl. apply (float_le_lt _ 10 11); [lia|exact Hhi].
Qed.

Lemma fold_rows_concat {A B C} (g : A -> B -> A) (h : C -> list B) rs m :
  fold_left (fun m r => fold_left g (h r) m) rs m
  = fold_left g (List.concat (h <$> rs)) m.
Proof.
  revert m. induction rs as [|r rs IH]; intros m; [reflexivity|].
  rewrite fmap_cons. cbn [List.concat fold_left]. now rewrite fold_left_app, IH.
Qed.

Lemma tally_count k ks m :
  default 0%nat (fold_left (fun m cat => tally m (before_dot cat)) ks m !! k)
  = (default 0%nat (m !! k)
     + List.length (List.filter (String.eqb k) (before_dot <$> ks)))%nat.
Proof.
  revert m. induction ks as [|c ks IH]; intros m; [simpl; lia|].
  rewrite fmap_cons. cbn [fold_left List.filter]. rewrite IH. unfold tally.
  destruct (String.eqb_spec k (before_dot c)) as [<-|Hne].
  - rewrite lookup_insert_eq. simpl. lia.
  - rewrite lookup_insert_ne by congruence. lia.
Qed.

Lemma tally_positive ks m :
  (forall k, m !! k <> Some 0%nat) ->
  forall k, fold_left (fun m cat => tally m (before_dot cat)) ks m !! k
            <> Some 0%nat.
Proof.
  revert m. induction ks as [|c ks IH]; intros m Hm; [exact Hm|].
  cbn [fold_left]. apply IH. intros k. unfold tally.
  destruct (String.eqb_spec (before_dot c) k) as [<-|Hne].
  - rewrite lookup_insert_eq. intros [= E]. lia.
  - rewrite lookup_insert_ne by congruence. apply Hm.
Qed.

(** The category counts: the count under a key is the number of tags, over
    all rows and counting repeats, whose text before the first point is
    that key; a key with no such tag is absent. *)
Theorem category_counts df last_update (k : string) :
  default 0%nat (stat_categories (get_stats df last_update) !! k)
  = List.length (List.filter (String.eqb k) (before_dot <$> all_tags (rows df)))
  /\ stat_categories (get_stats df last_update) !! k <> Some 0%nat.
Proof.
  unfold get_stats. destruct (rows df) as [|x rest] eqn:Hrows.
  { simpl. split; [reflexivity|now rewrite lookup_empty]. }
  rewrite <- Hrows. cbn [stat_categories]. unfold count_categories.
  rewrite (fold_rows_concat (fun m cat => tally m (before_dot cat))
             (fun r => split_ws (categories r))).
  split.
  - rewrite tally_count, lookup_empty. reflexivity.
  - apply tally_positive. intros k'. now rewrite lookup_empty.
Qed.
End Stats.

(** ** [get_categories] *)

Lemma split_from_words s cur :
  all_chars (fun c => negb (is_space c)) cur = true ->
  Forall (fun w => w <> EmptyString
                   /\ all_chars (fun c => negb (is_space c)) w = true)
         (split_from s cur).
Proof.
  revert cur. induction s as [|c s IH]; intros cur Hcur; cbn [split_from].
  - destruct cur; [constructor|]. constructor; [|constructor]. split; [discriminate|exact Hcur].
  - destruct (is_space c) eqn:Hc.
    + destruct cur; [now apply IH|].
      constructor; [split; [discriminate|exact Hcur]|now apply IH].
    + apply IH. rewrite all_chars_app, Hcur. cbn [all_chars]. now rewrite Hc.
Qed.

Lemma ltb_total_neq (a b : string) :
  a <> b -> String.ltb a b = false -> String.ltb b a = true.
Proof.
  unfold String.ltb. rewrite (String.compare_antisym b a).
  destruct (String.compare a b) eqn:E; simpl; try reflexivity; try discriminate.
  intros Hne _. apply String.compare_eq_iff in E. contradiction.
Qed.

Lemma insert_str_perm x l : Permutation (insert_str x l) (x :: l).
Proof.
  induction l as [|y l IH]; simpl; [reflexivity|].
  destruct (String.ltb y x); [|reflexivity].
  rewrite IH. apply perm_swap.
Qed.

Lemma sorted_perm l : Permutation (sorted l) l.
Proof.
  induction l as [|x l IH]; simpl; [reflexivity|].
  rewrite insert_str_perm. now constructor.
Qed.

Lemma insert_str_sorted x l :
  x ∉ l ->
  Sorted (fun a b => String.ltb a b = true) l ->
  Sorted (fun a b => String.ltb a b = true) (insert_str x l).
Proof.
  intros Hx Hs. induction Hs as [|y l Hl IH Hhd]; simpl.
  - repeat constructor.
  - apply not_elem_of_cons in Hx as [Hxy Hxl].
    destruct (String.ltb y x) eqn:Hyx.
    + constructor; [now apply IH|].
      destruct l as [|z l]; simpl.
      * constructor. exact Hyx.
      * destruct (String.ltb z x); constructor; [|exact Hyx].
        now inversion Hhd.
    + constructor; [now constructor|]. constructor.
      apply ltb_total_neq; [congruence|exact Hyx].
Qed.

Lemma sorted_sorted l :
  NoDup l -> Sorted (fun a b => String.ltb a b = true) (sorted l).
Proof.
  induction 1 as [|x l Hx Hl IH]; simpl; [constructor|].
  apply insert_str_sorted; [|exact IH].
  intros Hin. apply Hx. now rewrite <- (sorted_perm l).
Qed.

(** The categories endpoint lists every tag of every row once, in
    increasing order, and nothing else; each is a non-empty text without
    whitespace. *)
Theorem categories_listing df :
  Sorted (fun a b => String.ltb a b = true) (get_categories df)
  /\ NoDup (get_categories df)
  /\ (forall t, t ∈ get_categories df <->
                exists row, row ∈ rows df /\ t ∈ split_ws (categories row))
  /\ Forall (fun t => t <> EmptyString
                      /\ all_chars (fun c => negb (is_space c)) t = true)
            (get_categories df).
Proof.
  assert (Hmem : forall t, t ∈ get_categories df <->
                   exists row, row ∈ rows df /\ t ∈ split_ws (categories row)).
  { intros t. unfold get_categories.
    destruct (rows df) as [|x rest] eqn:Hrows.
    - split; [intros Hin; inversion Hin|]. intros (row & Hin & _). inversion Hin.
    - rewrite <- Hrows. rewrite (sorted_perm _), elem_of_elements,
        elem_of_list_to_set. unfold all_tags.
      rewrite list_elem_of_In, in_concat. split.
      + intros (l & Hl & Ht). apply list_elem_of_In in Hl.
        apply list_elem_of_fmap in Hl as (row & -> & Hrow).
        exists row. split; [exact Hrow|now apply list_elem_of_In].
      + intros (row & Hrow & Ht). exists (split_ws (categories row)).
        split; [|now apply list_elem_of_In].
        apply list_elem_of_In, list_elem_of_fmap. now exists row. }
  split; [|split; [|split; [exact Hmem|]]].
  - unfold get_categories. destruct (rows df); [constructor|].
    apply sorted_sorted, NoDup_elements.
  - unfold get_categories. destruct (rows df); [constructor|].
    rewrite (sorted_perm _). apply NoDup_elements.
  - apply Forall_forall. intros t Ht. apply Hmem in Ht as (row & _ & Ht).
    pose proof (split_from_words (categories row) EmptyString eq_refl) as Hw.
    rewrite Forall_forall in Hw. now apply Hw.
Qed.

(** ** The CSV files of the results folder *)

Import Cli.
Local Open Scope Z_scope.

Lemma newer_assoc x y z : newer (newer x y) z = newer x (newer y z).
Proof.
  unfold newer. destruct x as [x tx], y as [y ty], z as [z tz]. cbn [snd].
  destruct (Z.ltb_spec tx ty), (Z.ltb_spec ty tz); cbn [snd];
    repeat (match goal with
            | |- context [(?a <? ?b)%Z] => destruct (Z.ltb_spec a b)
            end; cbn [snd]); try reflexivity; lia.
Qed.

Lemma fold_newer_shift l x y :
  fold_left newer l (newer x y) = newer x (fold_left newer l y).
Proof.
  revert x y. induction l as [|z l IH]; intros x y; [reflexivity|].
  cbn [fold_left]. now rewrite newer_assoc, IH.
Qed.

(** The first file of the newest-first order is the one [max] picks. *)
Lemma newest_head x l :
  hd_error (newest_first (x :: l)) = Some (fold_left newer l x).
Proof.
  revert x. induction l as [|y l IH]; intros x; [reflexivity|].
  change (newest_first (x :: y :: l))
    with (insert_newest x (newest_first (y :: l))).
  specialize (IH y). destruct (newest_first (y :: l)) as [|h t]; [discriminate|].
  injection IH as ->. cbn [insert_newest fold_left].
  rewrite fold_newer_shift.
  change (newer x (fold_left newer l y))
    with (if x.2 <? (fold_left newer l y).2 then fold_left newer l y else x).
  now destruct (x.2 <? (fold_left newer l y).2).
Qed.

Lemma fold_newer_max l x :
  fold_left newer l x ∈ x :: l
  /\ forall y, y ∈ x :: l -> y.2 <= (fold_left newer l x).2.
Proof.
  revert x. induction l as [|a l IH]; intros x.
  - split; [constructor|]. intros y Hy. apply list_elem_of_singleton in Hy.
    subst y. reflexivity.
  - cbn [fold_left]. destruct (IH (newer x a)) as [Hin Hmax].
    assert (Hn : (newer x a = x \/ newer x a = a)
                 /\ x.2 <= (newer x a).2 /\ a.2 <= (newer x a).2).
    { unfold newer. destruct (Z.ltb_spec x.2 a.2); simpl; lia || (repeat split; auto; lia). }
    destruct Hn as (Hcase & Hx & Ha).
    assert (Hn : newer x a ∈ newer x a :: l) by constructor.
    pose proof (Hmax _ Hn) as Hna.
    split.
    + apply elem_of_cons in Hin as [->|Hin].
      * destruct Hcase as [->| ->]; [constructor|]. constructor. constructor.
      * do 2 constructor. exact Hin.
    + intros y Hy. apply elem_of_cons in Hy as [->|Hy]; [lia|].
      apply elem_of_cons in Hy as [->|Hy]; [lia|].
      apply Hmax. now constructor.
Qed.

Lemma elem_of_glob_csv entries p t :
  (p, t) ∈ glob_csv (Some entries)
  <-> exists name, (name, t) ∈ entries /\ ends_with_csv name = true
                   /\ p = Main.path_join "results" name.
Proof.
  unfold glob_csv. rewrite list_elem_of_fmap. split.
  - intros ([name t'] & [= -> ->] & Hin). apply list_elem_of_In in Hin.
    apply filter_In in Hin as [Hin Hc]. exists name.
    split; [now apply list_elem_of_In|]. split; [exact Hc|reflexivity].
  - intros (name & Hin & Hc & ->). exists (name, t). split; [reflexivity|].
    apply list_elem_of_In, filter_In. split; [now apply list_elem_of_In|exact Hc].
Qed.

(** The file the evaluator takes when it is given none is the file the
    loader lists first. *)
Theorem latest_csv_agrees dir :
  get_latest_csv dir = fst <$> hd_error (get_csv_files dir).
Proof.
  unfold get_latest_csv, get_csv_files. destruct dir as [entries|]; [|reflexivity].
  destruct (glob_csv (Some entries)) as [|x l]; [reflexivity|].
  now rewrite newest_head.
Qed.

(** The file the evaluator takes when it is given none is an entry of the
    results folder whose name ends in [.csv], and no such entry was
    modified later. *)
Theorem latest_csv_is_most_recent dir p :
  get_latest_csv dir = Some p ->
  exists entries name t,
    dir = Some entries /\ (name, t) ∈ entries /\ ends_with_csv name = true
    /\ p = Main.path_join "results" name
    /\ forall name' t', (name', t') ∈ entries -> ends_with_csv name' = true ->
                        t' <= t.
Proof.
  unfold get_latest_csv. destruct dir as [entries|]; [|discriminate].
  destruct (glob_csv (Some entries)) as [|x l] eqn:Hg; [discriminate|].
  intros [= <-]. destruct (fold_newer_max l x) as [Hin Hmax].
  rewrite <- Hg in Hin. destruct (fold_left newer l x) as [p t] eqn:Hb.
  apply elem_of_glob_csv in Hin as (name & Hin & Hc & ->).
  exists entries, name, t. repeat split; auto.
  intros name' t' Hin' Hc'.
  apply (Hmax (Main.path_join "results" name', t')).
  rewrite <- Hg. apply elem_of_glob_csv. now exists name'.
Qed.

Lemma latest_csv_is_most_recent_witness :
  exists name t,
    (name, t) ∈ [("notes.txt", 9); ("arxiv_papers.csv", 3); ("old.csv", 2)]
    /\ get_latest_csv
         (Some [("notes.txt", 9); ("arxiv_papers.csv", 3); ("old.csv", 2)])
       = Some (Main.path_join "results" name)
    /\ 2 <= t.
Proof.
  destruct (latest_csv_is_most_recent
              (Some [("notes.txt", 9); ("arxiv_papers.csv", 3); ("old.csv", 2)])
              "results/arxiv_papers.csv" eq_refl)
    as (entries & name & t & [= <-] & Hin & _ & Hp & Hmax).
  exists name, t. split; [exact Hin|]. split; [now rewrite <- Hp|].
  apply (Hmax "old.csv"); [|reflexivity]. do 2 constructor. constructor.
Defined.

(** The list of CSV files is empty exactly when the evaluator finds no
    latest file, and starts with that file otherwise. *)
Lemma get_csv_files_latest dir :
  match get_latest_csv dir with
  | None => get_csv_files dir = []
  | Some p => exists t rest, get_csv_files dir = (p, t) :: rest
  end.
Proof.
  unfold get_latest_csv, get_csv_files. destruct dir as [entries|]; [|reflexivity].
  destruct (glob_csv (Some entries)) as [|x l]; [reflexivity|].
  pose proof (newest_head x l) as Hh.
  destruct (newest_first (x :: l)) as [|[p t] rest]; [discriminate|].
  injection Hh as <-. now exists t, rest.
Qed.

Section Loader.
Context `{PandasLib}.


(** Which file the loader reads.  The argument [evaluated_only] changes
    nothing.  Without a CSV file in the results folder the frame is empty,
    even when the tables hold data; otherwise the evaluated snapshot is
    read when it exists, else the base snapshot, else the most recent CSV
    file. *)
Theorem load_papers_df_choice tables dir flag :
  load_papers_df tables dir flag = load_papers_df tables dir false
  /\ (get_latest_csv dir = None ->
      load_papers_df tables dir flag = Ok empty_frame)
  /\ (forall newest,
         get_latest_csv dir = Some newest ->
         load_papers_df tables dir flag
         = match tables !! EVALUATED_FILE, tables !! BASE_FILE with
           | Some text, _ => pd_read_csv text
           | None, Some text => pd_read_csv text
           | None, None => read_csv tables newest
           end).
Proof.
  split; [|split].
  - unfold load_papers_df. destruct (get_csv_files dir); [reflexivity|].
    destruct flag; [|reflexivity]. simpl.
    now destruct (file_exists tables EVALUATED_FILE).
  - intros Hd. pose proof (get_csv_files_latest dir) as Hl. rewrite Hd in Hl.
    unfold load_papers_df. now rewrite Hl.
  - intros newest Hd. pose proof (get_csv_files_latest dir) as Hl.
    rewrite Hd in Hl. destruct Hl as (t & rest & Hl).
    unfold load_papers_df, file_exists, read_csv. rewrite Hl. cbn [fst].
    destruct (tables !! EVALUATED_FILE), (tables !! BASE_FILE), flag;
      reflexivity.
Qed.
End Loader.

Section AfterEvaluation.
Context `{JsonLib} `{PathLib} `{PandasLib}.


End AfterEvaluation.



(** ** From a request to the rows evaluated *)

Import Tasks.


Lemma final_status_not_running o : String.eqb (final_status o) "running" = false.
Proof.
  destruct o as [rc err|e]; cbn [final_status].
  - destruct (rc =? 0); reflexivity.
  - reflexivity.
Qed.

(** A job that is over, whatever its outcome, leaves a status other than
    [running] for itself and does not touch the status of the other job;
    the next request for it is accepted and queues it once. *)
Theorem finished_job_can_be_triggered_again o st queue :
  evaluator (run_scraper o st) = evaluator st
  /\ scraper (run_evaluator o st) = scraper st
  /\ (trigger_scrape (run_scraper o st) queue).2 = (queue ++ [RunScraper])%list
  /\ status (trigger_scrape (run_scraper o st) queue).1 = "started"
  /\ forall n r,
       trigger_evaluate (run_evaluator o st) queue n = Some r ->
       status r.1 = "started"
       /\ r.2 = (queue ++ [RunEvaluator (str_of_int n)])%list.
Proof.
  split; [reflexivity|]. split; [reflexivity|].
  unfold trigger_scrape, trigger_evaluate, run_scraper, run_evaluator.
  cbn [scraper evaluator scraper_finished scraper_started evaluator_finished
       evaluator_started is_running].
  rewrite final_status_not_running. split; [reflexivity|]. split; [reflexivity|].
  intros n r. destruct ((1 <=? n) && (n <=? 1000)); [|discriminate].
  intros [= <-]. split; reflexivity.
Qed.

Section Request.
Context `{JsonLib} `{PathLib} `{PandasLib}.

End Request.


(** ** The ingestion run: its window and what it leaves alone *)

Section Window.
Context `{MainLib}.

(** The window never starts more than [MAX_DAYS] before today, and starts
    exactly there when the watermark file is absent or cannot be read as a
    date.  Nothing bounds it from above: a watermark later than today
    gives a window that starts after its end. *)
Theorem window_is_bounded today w :
  exists d,
    get_date_range today w = (strftime d, strftime today)
    /\ today - MAX_DAYS <= d
    /\ (fs w !! LAST_UPDATE_FILE = None -> d = today - MAX_DAYS)
    /\ (forall s e,
           fs w !! LAST_UPDATE_FILE = Some (Text s) ->
           parse_date (strip s) = Raise e -> d = today - MAX_DAYS)
    /\ (forall s wm,
           fs w !! LAST_UPDATE_FILE = Some (Text s) ->
           parse_date (strip s) = Ok wm -> today < wm -> d = wm).
Proof.
  exists (Z.max (read_last_update today w) (today - MAX_DAYS)).
  split; [reflexivity|]. split; [lia|].
  unfold read_last_update. split; [|split].
  - intros ->. lia.
  - intros s e -> ->. lia.
  - intros s wm -> -> Hwm. unfold MAX_DAYS. lia.
Qed.

Lemma fs_main_last_update today w :
  fs (main today w) !! LAST_UPDATE_FILE = Some (Text (strftime today)).
Proof.
  rewrite main_spec. unfold update_last_update, write_file. cbn [fs].
  apply lookup_insert_eq.
Qed.

(** A run leaves every file other than the results folder, the two
    snapshot files and the watermark as it was, and keeps the events
    recorded before it. *)
Theorem run_leaves_other_files today w path :
  path <> RESULTS_FOLDER -> path <> CSV_FILE -> path <> JSON_FILE ->
  path <> LAST_UPDATE_FILE ->
  fs (main today w) !! path = fs w !! path
  /\ trace (main today w) = (trace w ++ new_events w (main today w))%list.
Proof.
  intros Hr Hc Hj Hl. split.
  - rewrite main_spec. unfold update_last_update, save_results, write_file.
    cbn [fs]. rewrite lookup_insert_ne by congruence.
    assert (He : fs (ensure_directories_exist w) !! path = fs w !! path).
    { unfold ensure_directories_exist.
      destruct (fs w !! RESULTS_FOLDER); [reflexivity|]. cbn [fs].
      apply lookup_insert_ne. congruence. }
    destruct (fetched _ _ _); cbn [fs]; [exact He|].
    fold CSV_FILE JSON_FILE.
    rewrite !lookup_insert_ne by congruence. exact He.
  - rewrite new_events_main, main_spec.
    unfold update_last_update, save_results, write_file. cbn [fs trace].
    destruct (fetched _ _ _); cbn [fs trace]; rewrite <- ?app_assoc;
      reflexivity.
Qed.

(** The run after a run starts its window at the day the earlier run
    wrote, which is fetched again, as long as that day is at most
    [MAX_DAYS] back; a second run on the same day fetches that day only. *)
Theorem next_run_starts_at_watermark today later w :
  parse_date (strip (strftime today)) = Ok today ->
  get_date_range later (main today w)
  = (strftime (Z.max today (later - MAX_DAYS)), strftime later)
  /\ (today <= later <= today + MAX_DAYS ->
      get_date_range later (main today w) = (strftime today, strftime later)).
Proof.
  intros Hp.
  assert (Hr : get_date_range later (main today w)
               = (strftime (Z.max today (later - MAX_DAYS)), strftime later)).
  { unfold get_date_range, read_last_update.
    now rewrite fs_main_last_update, Hp. }
  split; [exact Hr|]. intros Hd. rewrite Hr. do 2 f_equal. lia.
Qed.
End Window.

Lemma run_leaves_other_files_witness :
  fs (@main (Ref.mainlib Ref.only_cs) 739923
        {| fs := <["notes.txt" := Text "keep"]> (fs Ref.earlier_run);
           trace := [] |}) !! "notes.txt"
  = Some (Text "keep").
Proof.
  destruct (@run_leaves_other_files (Ref.mainlib Ref.only_cs) 739923
              {| fs := <["notes.txt" := Text "keep"]> (fs Ref.earlier_run);
                 trace := [] |} "notes.txt") as [Hfs _];
    try discriminate.
  rewrite Hfs. apply lookup_insert_eq.
Defined.

Lemma next_run_starts_at_watermark_witness :
  @get_date_range (Ref.mainlib Ref.nothing_new) 739925
    (@main (Ref.mainlib Ref.nothing_new) 739923 Ref.earlier_run)
  = ("2026-11-03", "2026-11-05").
Proof.
  destruct (@next_run_starts_at_watermark (Ref.mainlib Ref.nothing_new)
              739923 739925 Ref.earlier_run) as [_ Hw].
  - vm_compute. reflexivity.
  - rewrite Hw by (unfold MAX_DAYS; lia). vm_compute. reflexivity.
Defined.

(** ** The listing: bounds, order, errors *)

Lemma float_cmp_antisym f g :
  float_cmp g f = option_map CompOpp (float_cmp f g).
Proof.
  destruct f as [s1|s1| |s1 m1 e1], g as [s2|s2| |s2 m2 e2];
    cbn [float_cmp option_map]; try reflexivity;
    try (destruct s1; reflexivity); try (destruct s2; reflexivity);
    try (destruct s1, s2; reflexivity).
  now rewrite (Z.min_comm e2 e1), Z.compare_antisym.
Qed.

Lemma key_lt_asym a b : key_lt a b = true -> key_lt b a = false.
Proof.
  destruct a as [x|x], b as [y|y]; cbn [key_lt]; try reflexivity.
  - unfold String.ltb. rewrite (String.compare_antisym y x).
    now destruct (String.compare x y).
  - rewrite (float_cmp_antisym x y). now destruct (float_cmp x y) as [[]|].
Qed.

Lemma key_before_asym f d x y :
  key_before f d x y = true -> key_before f d y x = false.
Proof.
  unfold key_before.
  destruct (sort_key f x) as [a|], (sort_key f y) as [b|]; try reflexivity.
  destruct d; apply key_lt_asym.
Qed.

Lemma insert_sorted_Sorted (before : Row -> Row -> bool) x l :
  (forall a b, before a b = true -> before b a = false) ->
  Sorted (fun a b => before b a = false) l ->
  Sorted (fun a b => before b a = false) (insert_sorted before x l).
Proof.
  intros Hasym Hs. induction Hs as [|y l Hl IH Hhd]; cbn [insert_sorted].
  - repeat constructor.
  - destruct (before y x) eqn:Hyx.
    + constructor; [exact IH|].
      destruct l as [|z l]; cbn [insert_sorted].
      * constructor. now apply Hasym.
      * destruct (before z x); constructor; [now inversion Hhd|now apply Hasym].
    + constructor; [now constructor|]. constructor. exact Hyx.
Qed.

Lemma sort_rows_Sorted (before : Row -> Row -> bool) l :
  (forall a b, before a b = true -> before b a = false) ->
  Sorted (fun a b => before b a = false) (sort_rows before l).
Proof.
  intros Hasym. induction l as [|x l IH]; cbn [sort_rows]; [constructor|].
  now apply insert_sorted_Sorted.
Qed.

Lemma sort_values_order f d l :
  exists keyed rest,
    sort_values f d l = keyed ++ rest
    /\ Forall (fun r => has_key f r = true) keyed
    /\ Forall (fun r => has_key f r = false) rest
    /\ Sorted (fun x y => key_before f d y x = false) keyed.
Proof.
  exists (sort_rows (key_before f d) (List.filter (has_key f) l)),
         (List.filter (fun r => negb (has_key f r)) l).
  split; [reflexivity|]. split; [|split].
  - eapply Permutation_Forall; [symmetry; apply sort_rows_perm|].
    apply Forall_filter_intro.
  - eapply Forall_impl; [apply Forall_filter_intro|].
    intros r Hr. now apply negb_true_iff.
  - apply sort_rows_Sorted. intros a b. apply key_before_asym.
Qed.

Section ListingOrder.
Context `{AppLib}.

(** The rows that are paged, when the sort column exists: first the rows
    that have a value in it, no row before one that should precede it in
    the order asked for, then the rows that have none, whichever the
    direction. *)
Theorem listing_order q df l :
  (sort_by q = by_score -> has_score df = true) ->
  matching q df = Ok l ->
  exists keyed rest,
    l = keyed ++ rest
    /\ Forall (fun r => has_key (sort_by q) r = true) keyed
    /\ Forall (fun r => has_key (sort_by q) r = false) rest
    /\ Sorted (fun x y => key_before (sort_by q) (sort_order q) y x = false)
              keyed.
Proof.
  intros Hcol. unfold matching.
  destruct (filter_search q df) as [l1|e]; simpl; [|discriminate].
  destruct (filter_category q l1) as [l2|e]; simpl; [|discriminate].
  intros [= <-]. unfold sort_step.
  destruct (sort_by q) eqn:Hby; try apply sort_values_order.
  rewrite Hcol by reflexivity. apply sort_values_order.
Qed.

Lemma matching_bounds q df l :
  has_score df = true ->
  matching q df = Ok l ->
  Forall (fun r =>
            (forall lo, min_score q = Some lo ->
                        is_ge (float_cmp (row_score r) lo) = true)
            /\ (forall hi, max_score q = Some hi ->
                           is_le (float_cmp (row_score r) hi) = true)) l.
Proof.
  intros Hs. unfold matching.
  destruct (filter_search q df) as [l1|e]; simpl; [|discriminate].
  destruct (filter_category q l1) as [l2|e]; simpl; [|discriminate].
  intros [= <-]. apply Forall_sort_step.
  apply Forall_forall. intros r Hr. split.
  - intros lo Hlo.
    assert (Hin : r ∈ filter_min q df l2).
    { revert Hr. unfold filter_max. destruct (max_score q); [|auto].
      rewrite Hs. intros Hr. apply list_elem_of_In in Hr.
      apply filter_In in Hr as [Hr _]. now apply list_elem_of_In. }
    unfold filter_min in Hin. rewrite Hlo, Hs in Hin.
    apply list_elem_of_In in Hin. now apply filter_In in Hin as [_ Hin].
  - intros hi Hhi. unfold filter_max in Hr. rewrite Hhi, Hs in Hr.
    apply list_elem_of_In in Hr. now apply filter_In in Hr as [_ Hr].
Qed.

(** With a score column, every paper served under a score bound carries a
    score, and that score is on the asked side of the bound. *)
Theorem served_scores_within_bounds df q r :
  has_score df = true ->
  get_papers df q = Ok r ->
  Forall (fun p =>
            (forall lo, min_score q = Some lo ->
                        exists s, p_score p = Some s
                                  /\ is_ge (float_cmp s lo) = true)
            /\ (forall hi, max_score q = Some hi ->
                           exists s, p_score p = Some s
                                     /\ is_le (float_cmp s hi) = true))
         (papers r).
Proof.
  intros Hs Hr. pose proof (get_papers_valid _ _ _ Hr) as Hv.
  destruct (rows df) as [|x rest] eqn:Hrows.
  { rewrite (get_papers_empty df q Hv Hrows) in Hr. injection Hr as <-.
    constructor. }
  assert (Hne : rows df <> []) by (rewrite Hrows; discriminate).
  destruct (matching q df) as [l|e] eqn:Hm.
  2:{ unfold get_papers in Hr. rewrite Hv, Hrows in Hr. simpl in Hr.
      rewrite Hm in Hr. discriminate. }
  rewrite (get_papers_matching df q l Hv Hne Hm) in Hr.
  injection Hr as <-. cbn [papers].
  apply Forall_fmap. unfold iloc. apply Forall_take, Forall_drop.
  eapply Forall_impl; [apply (matching_bounds q df l Hs Hm)|].
  intros row [Hlo Hhi]. cbn [compose p_score to_paper]. rewrite Hs.
  split.
  - intros lo Hq. specialize (Hlo lo Hq). exists (row_score row).
    rewrite (compared_not_nan _ lo) by (left; exact Hlo).
    split; [reflexivity|exact Hlo].
  - intros hi Hq. specialize (Hhi hi Hq). exists (row_score row).
    rewrite (compared_not_nan _ hi) by (right; exact Hhi).
    split; [reflexivity|exact Hhi].
Qed.

(** A search text is a pattern, looked at after the title column and
    before the abstract column: on a snapshot that is not empty, a title
    column without one text fails the request; otherwise a pattern that
    does not compile fails it with the pattern error, and a pattern that
    compiles fails it on the abstract column when no row has an abstract.
    On an empty snapshot the search is not looked at. *)
Theorem search_errors df q s :
  valid q = true ->
  given (search q) = Some s ->
  (rows df = [] -> exists r, get_papers df q = Ok r /\ papers r = [])
  /\ (rows df <> [] ->
      (Forall (fun r => title r = None) (rows df) ->
       exists m, get_papers df q = Raise (AttributeError m))
      /\ (Exists (fun r => title r <> None) (rows df) ->
          (forall e, re_compile (lower s) = Raise e ->
                     get_papers df q = Raise e)
          /\ (forall found,
                 re_compile (lower s) = Ok found ->
                 Forall (fun r => abstract r = None) (rows df) ->
                 exists m, get_papers df q = Raise (AttributeError m)))).
Proof.
  intros Hv Hq.
  assert (Hnone : forall (f : Row -> option string),
             Forall (fun r => f r = None) (rows df) ->
             str_accessor (f <$> rows df)
             = Raise (AttributeError
                        "Can only use .str accessor with string values!")).
  { intros f Hall. unfold str_accessor.
    assert (Hf : forallb (fun c : option string =>
                            match c with None => true | Some _ => false end)
                         (f <$> rows df) = true).
    { apply forallb_forall. intros c Hc. apply list_elem_of_In in Hc.
      apply list_elem_of_fmap in Hc as (r & -> & Hr).
      rewrite Forall_forall in Hall. now rewrite (Hall r Hr). }
    now rewrite Hf. }
  assert (Hsome : Exists (fun r => title r <> None) (rows df) ->
                  str_accessor (title <$> rows df) = Ok tt).
  { intros Hex. unfold str_accessor.
    destruct (forallb _ (title <$> rows df)) eqn:Hf; [|reflexivity].
    exfalso. rewrite forallb_forall in Hf.
    apply Exists_exists in Hex as (r & Hr & Ht).
    specialize (Hf (title r)). destruct (title r) as [t|] eqn:E; [|congruence].
    discriminate Hf. apply list_elem_of_In, list_elem_of_fmap. now exists r. }
  split.
  - intros He. rewrite (get_papers_empty df q Hv He). eexists.
    split; reflexivity.
  - intros Hne. unfold get_papers, matching, filter_search.
    rewrite Hv, Hq. cbn [negb].
    destruct (rows df) as [|x rest] eqn:Hrows; [congruence|].
    rewrite <- Hrows in *. split.
    + intros Hall. rewrite (Hnone title Hall). eexists. reflexivity.
    + intros Hex. rewrite (Hsome Hex). split.
      * intros e ->. reflexivity.
      * intros found -> Hall. cbn [mbind res_bind].
        rewrite (Hnone abstract Hall). eexists. reflexivity.
Qed.
End ListingOrder.

Lemma listing_order_witness :
  exists keyed rest,
    @matching Ref.applib (Ref.listing None None) Ref.scored_frame
    = Ok (keyed ++ rest)
    /\ Forall (fun r => has_key by_created r = true) keyed.
Proof.
  destruct (@matching Ref.applib (Ref.listing None None) Ref.scored_frame)
    as [l|e] eqn:E; [|vm_compute in E; discriminate].
  destruct (@listing_order Ref.applib (Ref.listing None None) Ref.scored_frame l)
    as (keyed & rest & -> & Hk & _).
  - discriminate.
  - exact E.
  - exists keyed, rest. split; [reflexivity|exact Hk].
Defined.

Lemma served_scores_within_bounds_witness :
  exists r,
    @get_papers Ref.applib Ref.scored_frame (Ref.listing (Some Ref.seven) None)
    = Ok r
    /\ Forall (fun p => exists s, p_score p = Some s
                                  /\ is_ge (float_cmp s Ref.seven) = true)
              (papers r).
Proof.
  destruct (@get_papers Ref.applib Ref.scored_frame
              (Ref.listing (Some Ref.seven) None))
    as [r|e] eqn:E; [|vm_compute in E; discriminate].
  exists r. split; [reflexivity|].
  eapply Forall_impl;
    [apply (@served_scores_within_bounds Ref.applib Ref.scored_frame _ _
              eq_refl E)|].
  intros p [Hlo _]. now apply Hlo.
Defined.

(** The text [*gan] starts with a quantifier: Python's [re] refuses it,
    and the request fails with that error. *)
Lemma search_errors_witness :
  @get_papers Ref.applib Ref.scored_frame (Samples.search_for "*gan")
  = Raise (ReError "nothing to repeat at position 0").
Proof.
  destruct (@search_errors Ref.applib Ref.scored_frame
              (Samples.search_for "*gan") "*gan" eq_refl eq_refl) as [_ Hne].
  destruct Hne as [_ Htitled]; [discriminate|].
  destruct Htitled as [Hbad _].
  - constructor. discriminate.
  - apply Hbad. reflexivity.
Defined.

(** ** From the replies to the statistics *)



Section StatsAfterRun.
Context `{JsonLib} `{PathLib} `{PandasLib} `{StatsLib}.


End StatsAfterRun.

